(** * cTime: epoch seconds, calendar fields and durations

    A shallow embedding of the arithmetic core of the cTime library:
    - [y2038Calendar.cpp]: the floor modulo [unsignedModulo], the converter
      [y2038Calendar] and its inverse [y2038Set], and [setTimeZone];
    - [cTimeStd.cpp]: [cTime::calendar], [cTime::duration], [cTime::set],
      the string codec in both directions;
    - [cTime.h]: the operators of [cTime];
    - [LibCpp/Time/cTimeStd.cpp]: [fromString], [fromCalendar] and
      [toCalendar] of the reworked library.

    Conventions.  A fixed-width integer is a [Z] together with the
    wrap-around of its type, written out at every assignment ([wrap] for
    signed, [uwrap] for unsigned types).  Signed addition, subtraction and
    multiplication wrap.  Signed division has no result when the divisor is
    zero or when the quotient is not representable (the machine division
    traps on both); these, reads outside an array and a formatting buffer
    that is too small are the [fault]s a function can end in. *)

From Stdlib Require Import ZArith Lia Bool List String Ascii DecimalString
  DecimalFacts DecimalPos DecimalN.
Import ListNotations.
Local Open Scope Z_scope.

(** ** Faults and the outcome monad *)

Inductive fault : Type :=
| DivisionByZero      (* x / 0 or x % 0 *)
| QuotientOverflow    (* INT_MIN / -1 *)
| OutOfBounds         (* read outside an array or a string buffer *)
| BufferTooSmall.     (* sprintf_s: output does not fit the buffer *)

Inductive outcome (A : Type) : Type :=
| Ok (a : A)
| Fault (f : fault).

Arguments Ok {A} a.
Arguments Fault {A} f.

Definition bind {A B : Type} (c : outcome A) (k : A -> outcome B) : outcome B :=
  match c with
  | Ok a => k a
  | Fault f => Fault f
  end.

Declare Scope outcome_scope.
Delimit Scope outcome_scope with outcome.
Notation "x <- c ;; k" := (bind c (fun x => k))
  (at level 61, c at next level, right associativity) : outcome_scope.
Notation "' p <- c ;; k" := (bind c (fun x => let p := x in k))
  (at level 61, p pattern, c at next level, right associativity) : outcome_scope.
Local Open Scope outcome_scope.

Definition faulty {A : Type} (c : outcome A) : Prop := exists f, c = Fault f.

(** ** Fixed-width integers *)

Module Int.

(** Conversion to a signed type of [bits] bits. *)
Definition wrap (bits x : Z) : Z :=
  (x + 2 ^ (bits - 1)) mod 2 ^ bits - 2 ^ (bits - 1).

(** Conversion to an unsigned type of [bits] bits. *)
Definition uwrap (bits x : Z) : Z := x mod 2 ^ bits.

Definition min_signed (bits : Z) : Z := - 2 ^ (bits - 1).
Definition max_signed (bits : Z) : Z := 2 ^ (bits - 1) - 1.
Definition max_unsigned (bits : Z) : Z := 2 ^ bits - 1.

Definition in_signed (bits x : Z) : Prop :=
  min_signed bits <= x <= max_signed bits.
Definition in_unsigned (bits x : Z) : Prop :=
  0 <= x <= max_unsigned bits.

Definition in_signedb (bits x : Z) : bool :=
  (min_signed bits <=? x) && (x <=? max_signed bits).

(** Width of [int]; operands of a narrower type are promoted to it. *)
Definition int_bits : Z := 32.

Definition to_int8 := wrap 8.
Definition to_uint8 := uwrap 8.
Definition to_int16 := wrap 16.
Definition to_int32 := wrap 32.
Definition to_int64 := wrap 64.
Definition to_uint64 := uwrap 64.

(** [a / b] on operands of a signed type of [bits] bits. *)
Definition div (bits a b : Z) : outcome Z :=
  if b =? 0 then Fault DivisionByZero
  else if in_signedb (Z.max bits int_bits) (Z.quot a b) then Ok (Z.quot a b)
  else Fault QuotientOverflow.

(** [a % b]: undefined exactly where [a / b] is. *)
Definition rem (bits a b : Z) : outcome Z :=
  if b =? 0 then Fault DivisionByZero
  else if in_signedb (Z.max bits int_bits) (Z.quot a b) then Ok (Z.rem a b)
  else Fault QuotientOverflow.

End Int.

(** ** y2038Calendar.cpp: the floor modulo *)

(** [template <typename T, typename uT> void unsignedModulo(T value,
    uT modulo, T& divisor, uT& remainder)] for a signed [T] and an unsigned
    [uT] of [bits] bits; the result is the pair (divisor, remainder). *)
Definition unsignedModulo (bits : Z) (value modulo : Z) : outcome (Z * Z) :=
  if modulo =? 0 then
    Ok (1, 0)
  else
    let m := Int.wrap bits modulo in                       (* (T)modulo *)
    q <- Int.div bits value m ;;
    r <- Int.rem bits value m ;;
    let div := Int.wrap bits q in
    let rem := Int.wrap bits r in
    let '(div, rem) :=
      if div <? 0 then
        (Int.wrap bits (div - 1),
         if rem <? 0 then Int.wrap bits (rem + modulo) else rem)
      else (div, rem) in
    let '(div, rem) :=
      if (div =? 0) && (rem <? 0) then
        (Int.wrap bits (div - 1), Int.wrap bits (rem + modulo))
      else (div, rem) in
    Ok (div, Int.uwrap bits rem).

(** The instantiations behind the function pointers of the namespace. *)
Definition unsignedModulo_i64 := unsignedModulo 64.
Definition unsignedModulo_i32 := unsignedModulo 32.
Definition unsignedModulo_i16 := unsignedModulo 16.
Definition unsignedModulo_i8 := unsignedModulo 8.
Definition unsignedModulo_i := unsignedModulo Int.int_bits.

(** ** cTime.h: the data model *)

(** [LibCpp_isLeapYear(y)] (named [BibCpp_isLeapYear] in y2038Calendar.cpp,
    after the library's former prefix); [%] is the truncating remainder. *)
Definition isLeapYear (y : Z) : bool :=
  ((Z.rem y 4 =? 0) && negb (Z.rem y 100 =? 0)) || (Z.rem y 400 =? 0).

(** The value of the macro as an [int], used as a table index. *)
Definition leapIndex (y : Z) : Z := if isLeapYear y then 1 else 0.

(** [struct tm] of <time.h>. *)
Record tm : Type := mkTm {
  tm_sec : Z; tm_min : Z; tm_hour : Z; tm_mday : Z; tm_mon : Z;
  tm_year : Z; tm_wday : Z; tm_yday : Z; tm_isdst : Z
}.

Definition tm_Ini : tm := mkTm 0 0 0 0 0 0 0 0 0.

(** [stCalendar]: int32 year; uint8 month .. second; int8 dst, timeZone,
    leapSecond; uint32 subZone, picoSeconds; uint8 dayInWeek; int8
    calendarWeek; int16 dayInYear. *)
Record stCalendar : Type := mkCalendar {
  year : Z; month : Z; day : Z; hour : Z; minute : Z; second : Z;
  dst : Z; timeZone : Z; leapSecond : Z; subZone : Z; picoSeconds : Z;
  dayInWeek : Z; calendarWeek : Z; dayInYear : Z
}.

Definition stCalendar_Ini : stCalendar :=
  mkCalendar 0 0 0 0 0 0 0 0 (-1) 0 0 0 0 0.

(** [stDuration]: uint64 days, hours, minutes, seconds; int8 sign. *)
Record stDuration : Type := mkDuration {
  days : Z; hours : Z; minutes : Z; seconds : Z; sign : Z
}.

Definition stDuration_Ini : stDuration := mkDuration 0 0 0 0 1.

(** Field assignments [calendar.f = v]. *)
Definition set_year (v : Z) (c : stCalendar) : stCalendar :=
  mkCalendar v (month c) (day c) (hour c) (minute c) (second c) (dst c)
    (timeZone c) (leapSecond c) (subZone c) (picoSeconds c) (dayInWeek c)
    (calendarWeek c) (dayInYear c).
Definition set_month (v : Z) (c : stCalendar) : stCalendar :=
  mkCalendar (year c) v (day c) (hour c) (minute c) (second c) (dst c)
    (timeZone c) (leapSecond c) (subZone c) (picoSeconds c) (dayInWeek c)
    (calendarWeek c) (dayInYear c).
Definition set_day (v : Z) (c : stCalendar) : stCalendar :=
  mkCalendar (year c) (month c) v (hour c) (minute c) (second c) (dst c)
    (timeZone c) (leapSecond c) (subZone c) (picoSeconds c) (dayInWeek c)
    (calendarWeek c) (dayInYear c).
Definition set_hour (v : Z) (c : stCalendar) : stCalendar :=
  mkCalendar (year c) (month c) (day c) v (minute c) (second c) (dst c)
    (timeZone c) (leapSecond c) (subZone c) (picoSeconds c) (dayInWeek c)
    (calendarWeek c) (dayInYear c).
Definition set_minute (v : Z) (c : stCalendar) : stCalendar :=
  mkCalendar (year c) (month c) (day c) (hour c) v (second c) (dst c)
    (timeZone c) (leapSecond c) (subZone c) (picoSeconds c) (dayInWeek c)
    (calendarWeek c) (dayInYear c).
Definition set_second (v : Z) (c : stCalendar) : stCalendar :=
  mkCalendar (year c) (month c) (day c) (hour c) (minute c) v (dst c)
    (timeZone c) (leapSecond c) (subZone c) (picoSeconds c) (dayInWeek c)
    (calendarWeek c) (dayInYear c).
Definition set_dst (v : Z) (c : stCalendar) : stCalendar :=
  mkCalendar (year c) (month c) (day c) (hour c) (minute c) (second c) v
    (timeZone c) (leapSecond c) (subZone c) (picoSeconds c) (dayInWeek c)
    (calendarWeek c) (dayInYear c).
Definition set_timeZone (v : Z) (c : stCalendar) : stCalendar :=
  mkCalendar (year c) (month c) (day c) (hour c) (minute c) (second c) (dst c)
    v (leapSecond c) (subZone c) (picoSeconds c) (dayInWeek c)
    (calendarWeek c) (dayInYear c).
Definition set_dayInWeek (v : Z) (c : stCalendar) : stCalendar :=
  mkCalendar (year c) (month c) (day c) (hour c) (minute c) (second c) (dst c)
    (timeZone c) (leapSecond c) (subZone c) (picoSeconds c) v
    (calendarWeek c) (dayInYear c).
Definition set_calendarWeek (v : Z) (c : stCalendar) : stCalendar :=
  mkCalendar (year c) (month c) (day c) (hour c) (minute c) (second c) (dst c)
    (timeZone c) (leapSecond c) (subZone c) (picoSeconds c) (dayInWeek c)
    v (dayInYear c).
Definition set_dayInYear (v : Z) (c : stCalendar) : stCalendar :=
  mkCalendar (year c) (month c) (day c) (hour c) (minute c) (second c) (dst c)
    (timeZone c) (leapSecond c) (subZone c) (picoSeconds c) (dayInWeek c)
    (calendarWeek c) v.

(** ** The platform: clock and <time.h> calendar routines

    [time], [gmtime_s], [localtime_s] and [mktime] belong to the host, not
    to the library.  [mktime] returns the normalised structure it leaves in
    its argument together with the time value. *)
Record Platform : Type := mkPlatform {
  clock : Z;                    (* ::time(nullptr) *)
  gmtime_s : Z -> tm;
  localtime_s : Z -> tm;
  mktime : tm -> tm * Z
}.

(** A zone request: the null pointer, or a pointer to an [int8_t]. *)
Definition zoneRequest : Type := option Z.

Definition LibCpp_SECONDSPERHOUR : Z := 3600.

(** [int8_t cTime::localTimeZone()] *)
Definition localTimeZone (P : Platform) : Z :=
  let time := clock P in
  let gt := gmtime_s P time in
  let lt := localtime_s P time in
  let '(gt, gtm) := mktime P gt in
  let '(lt, ltm) := mktime P lt in
  let zone :=
    Int.to_int8 (Int.to_uint8
      (Z.quot (Int.to_int64 (Int.to_int64 (ltm - gtm) + LibCpp_SECONDSPERHOUR / 2))
              LibCpp_SECONDSPERHOUR)) in
  let zone := if tm_isdst gt >? 0 then Int.to_int8 (zone - 1) else zone in
  let zone := if tm_isdst lt >? 0 then Int.to_int8 (zone + 1) else zone in
  zone.

(** ** y2038Calendar.cpp: constants

    The file is written against the first version of cTime.h: the zone of a
    calendar is an [int8_t], and [cTime::localTimeZone()] returns one. *)

Definition BibCpp_SECONDSPERMINUTE : Z := 60.
Definition BibCpp_MINUTESPERHOUR : Z := 60.
Definition BibCpp_HOURSPERDAY : Z := 24.
Definition BibCpp_DAYSPERNORMALYEAR : Z := 365.
Definition BibCpp_LEAPDAY : Z := 1.
Definition BibCpp_DAYSPERWEEK : Z := 7.

Definition BibCpp_DAYSOFJAN : Z := 31.
Definition BibCpp_DAYSOFFEB : Z := 28.
Definition BibCpp_DAYSOFMAR : Z := 31.
Definition BibCpp_DAYSOFAPR : Z := 30.
Definition BibCpp_DAYSOFMAY : Z := 31.
Definition BibCpp_DAYSOFJUN : Z := 30.
Definition BibCpp_DAYSOFJUL : Z := 31.
Definition BibCpp_DAYSOFAUG : Z := 31.
Definition BibCpp_DAYSOFSEP : Z := 30.
Definition BibCpp_DAYSOFOKT : Z := 31.
Definition BibCpp_DAYSOFNOV : Z := 30.

Definition BibCpp_TIME_T_2001 : Z := 978307200.
Definition BibCpp_TIME_T_2030 : Z := 1893456000.
Definition BibCpp_TIME_T_2030_2001 : Z := BibCpp_TIME_T_2030 - BibCpp_TIME_T_2001.

Definition BibCpp_DAYSPER4YEARS : Z := 4 * BibCpp_DAYSPERNORMALYEAR + BibCpp_LEAPDAY.
Definition BibCpp_DAYSPER100YEARS : Z := 25 * BibCpp_DAYSPER4YEARS - BibCpp_LEAPDAY.
Definition BibCpp_DAYSPER400YEARS : Z := 4 * BibCpp_DAYSPER100YEARS + BibCpp_LEAPDAY.

Definition BibCpp_SECONDSPERHOUR : Z := BibCpp_MINUTESPERHOUR * BibCpp_SECONDSPERMINUTE.
Definition BibCpp_SECONDSPERDAY : Z := BibCpp_HOURSPERDAY * BibCpp_SECONDSPERHOUR.
Definition BibCpp_SECONDSPERWEEK : Z := BibCpp_DAYSPERWEEK * BibCpp_SECONDSPERDAY.
Definition BibCpp_SECONDSPERNORMALYEAR : Z := BibCpp_DAYSPERNORMALYEAR * BibCpp_SECONDSPERDAY.
Definition BibCpp_SECONDSPER4YEARS : Z := BibCpp_DAYSPER4YEARS * BibCpp_SECONDSPERDAY.
Definition BibCpp_SECONDSPER100YEARS : Z := BibCpp_DAYSPER100YEARS * BibCpp_SECONDSPERDAY.
Definition BibCpp_SECONDSPER400YEARS : Z := BibCpp_DAYSPER400YEARS * BibCpp_SECONDSPERDAY.

Definition BibCpp_SECONDSOFDAY : Z := BibCpp_HOURSPERDAY * BibCpp_SECONDSPERHOUR.
Definition BibCpp_SECONDSTILLFEB : Z := BibCpp_DAYSOFJAN * BibCpp_SECONDSOFDAY.
Definition BibCpp_SECONDSTILLMAR : Z := BibCpp_DAYSOFFEB * BibCpp_SECONDSOFDAY + BibCpp_SECONDSTILLFEB.
Definition BibCpp_SECONDSTILLAPR : Z := BibCpp_DAYSOFMAR * BibCpp_SECONDSOFDAY + BibCpp_SECONDSTILLMAR.
Definition BibCpp_SECONDSTILLMAY : Z := BibCpp_DAYSOFAPR * BibCpp_SECONDSOFDAY + BibCpp_SECONDSTILLAPR.
Definition BibCpp_SECONDSTILLJUN : Z := BibCpp_DAYSOFMAY * BibCpp_SECONDSOFDAY + BibCpp_SECONDSTILLMAY.
Definition BibCpp_SECONDSTILLJUL : Z := BibCpp_DAYSOFJUN * BibCpp_SECONDSOFDAY + BibCpp_SECONDSTILLJUN.
Definition BibCpp_SECONDSTILLAUG : Z := BibCpp_DAYSOFJUL * BibCpp_SECONDSOFDAY + BibCpp_SECONDSTILLJUL.
Definition BibCpp_SECONDSTILLSEP : Z := BibCpp_DAYSOFAUG * BibCpp_SECONDSOFDAY + BibCpp_SECONDSTILLAUG.
Definition BibCpp_SECONDSTILLOKT : Z := BibCpp_DAYSOFSEP * BibCpp_SECONDSOFDAY + BibCpp_SECONDSTILLSEP.
Definition BibCpp_SECONDSTILLNOV : Z := BibCpp_DAYSOFOKT * BibCpp_SECONDSOFDAY + BibCpp_SECONDSTILLOKT.
Definition BibCpp_SECONDSTILLDEC : Z := BibCpp_DAYSOFNOV * BibCpp_SECONDSOFDAY + BibCpp_SECONDSTILLNOV.

(** [const uint64_t BibCpp_SECONDSTILLMONTH[2][12]] *)
Definition BibCpp_SECONDSTILLMONTH : list (list Z) :=
  [ [ 0; BibCpp_SECONDSTILLFEB; BibCpp_SECONDSTILLMAR; BibCpp_SECONDSTILLAPR;
      BibCpp_SECONDSTILLMAY; BibCpp_SECONDSTILLJUN; BibCpp_SECONDSTILLJUL;
      BibCpp_SECONDSTILLAUG; BibCpp_SECONDSTILLSEP; BibCpp_SECONDSTILLOKT;
      BibCpp_SECONDSTILLNOV; BibCpp_SECONDSTILLDEC ];
    [ 0; BibCpp_SECONDSTILLFEB;
      BibCpp_SECONDSTILLMAR + BibCpp_SECONDSOFDAY;
      BibCpp_SECONDSTILLAPR + BibCpp_SECONDSOFDAY;
      BibCpp_SECONDSTILLMAY + BibCpp_SECONDSOFDAY;
      BibCpp_SECONDSTILLJUN + BibCpp_SECONDSOFDAY;
      BibCpp_SECONDSTILLJUL + BibCpp_SECONDSOFDAY;
      BibCpp_SECONDSTILLAUG + BibCpp_SECONDSOFDAY;
      BibCpp_SECONDSTILLSEP + BibCpp_SECONDSOFDAY;
      BibCpp_SECONDSTILLOKT + BibCpp_SECONDSOFDAY;
      BibCpp_SECONDSTILLNOV + BibCpp_SECONDSOFDAY;
      BibCpp_SECONDSTILLDEC + BibCpp_SECONDSOFDAY ] ].

(** [const uint8_t DAYSOFMONTH[2][13]] *)
Definition DAYSOFMONTH : list (list Z) :=
  [ [0; 31; 28; 31; 30; 31; 30; 31; 31; 30; 31; 30; 31];
    [0; 31; 29; 31; 30; 31; 30; 31; 31; 30; 31; 30; 31] ].

(** [t[i][j]]: a read outside the array is a fault. *)
Definition table_at (t : list (list Z)) (i j : Z) : outcome Z :=
  if (i <? 0) || (j <? 0) then Fault OutOfBounds
  else
    match nth_error t (Z.to_nat i) with
    | Some row =>
        match nth_error row (Z.to_nat j) with
        | Some v => Ok v
        | None => Fault OutOfBounds
        end
    | None => Fault OutOfBounds
    end.

(** ** y2038Calendar.cpp: epoch seconds to calendar *)

(** [for (m=11; m>=0; m--) if (block1 >= BibCpp_SECONDSTILLMONTH[il][m]) break;]
    with [n = m + 1] candidates left; the loop leaves [m = -1] when it runs
    out. *)
Fixpoint month_scan (il block1 : Z) (n : nat) : outcome Z :=
  match n with
  | O => Ok (-1)
  | S n' =>
      t <- table_at BibCpp_SECONDSTILLMONTH il (Z.of_nat n') ;;
      if block1 >=? t then Ok (Z.of_nat n') else month_scan il block1 n'
  end.

(** [stCalendar BibCpp::y2038Calendar(time_t unixSeconds, int8_t* timeZone,
    int8_t dst)] *)
Definition y2038Calendar (P : Platform) (unixSeconds : Z)
    (timeZone : zoneRequest) (dst : Z) : outcome stCalendar :=
  let calendar := stCalendar_Ini in
  let time32 := Int.to_int32 unixSeconds in
  let time32 := Int.to_int32 (time32 - BibCpp_TIME_T_2030) in
  let time64 := Int.to_int64 time32 in
  let time64 := Int.to_int64 (time64 + BibCpp_TIME_T_2030_2001) in
  (* shift to the requested zone *)
  let time := clock P in
  let localZone := localTimeZone P in
  let tmCalendar := localtime_s P time in
  let calendar := set_dst dst calendar in
  let '(relZone, calendar) :=
    match timeZone with
    | None =>
        let dst := Int.to_int8 (tm_isdst tmCalendar) in
        let relZone := if dst >? 0 then Int.to_int8 (localZone + 1) else localZone in
        (relZone, set_timeZone localZone calendar)
    | Some zone =>
        let relZone := zone in
        let relZone := if dst >? 0 then Int.to_int8 (relZone - 1) else relZone in
        (relZone, set_timeZone zone calendar)
    end in
  let time64 := Int.to_int64 (time64 + relZone * BibCpp_SECONDSPERHOUR) in
  (* 400, 100, 4 and 1 year blocks *)
  '(k, block400) <- unsignedModulo_i64 time64 BibCpp_SECONDSPER400YEARS ;;
  '(j, block100) <- unsignedModulo_i64 (Int.to_int64 block400) BibCpp_SECONDSPER100YEARS ;;
  '(i, block4) <- unsignedModulo_i64 (Int.to_int64 block100) BibCpp_SECONDSPER4YEARS ;;
  '(h, block1) <- unsignedModulo_i64 (Int.to_int64 block4) BibCpp_SECONDSPERNORMALYEAR ;;
  let daysBeginSince2001 :=
    Int.to_int64
      (k * BibCpp_DAYSPER400YEARS
       + Int.to_int32 (Int.to_int32 j * BibCpp_DAYSPER100YEARS)
       + i * BibCpp_DAYSPER4YEARS
       + Int.to_int32 (Int.to_int32 h * BibCpp_DAYSPERNORMALYEAR)) in
  let k := Int.to_int64 (k + 5) in
  let h := Int.to_int64 (h + 1) in
  let year :=
    Int.to_int32 (Int.to_int32 k * 400 + Int.to_int32 j * 100
                  + Int.to_int32 i * 4 + Int.to_int32 h) in
  let calendar := set_year year calendar in
  let il := leapIndex year in
  m <- month_scan il block1 12 ;;
  t <- table_at BibCpp_SECONDSTILLMONTH il m ;;
  let blockM := Int.to_uint64 (block1 - t) in
  let calendar := set_month (Int.to_uint8 (m + 1)) calendar in
  '(d, blockD) <- unsignedModulo_i64 (Int.to_int64 blockM) BibCpp_SECONDSPERDAY ;;
  let calendar := set_day (Int.to_uint8 (d + 1)) calendar in
  '(hour, blockHr) <- unsignedModulo_i64 (Int.to_int64 blockD) BibCpp_SECONDSPERHOUR ;;
  let calendar := set_hour (Int.to_uint8 hour) calendar in
  '(minute, second) <- unsignedModulo_i64 (Int.to_int64 blockHr) BibCpp_SECONDSPERMINUTE ;;
  let calendar := set_minute (Int.to_uint8 minute) calendar in
  let calendar := set_second (Int.to_uint8 second) calendar in
  '(dayInYear, block) <- unsignedModulo_i64 (Int.to_int64 block1) BibCpp_SECONDSPERDAY ;;
  let dayInYear := Int.to_int64 (dayInYear + 1) in
  let calendar := set_dayInYear (Int.to_int16 dayInYear) calendar in
  (* the year 2001 starts with Monday, 1 January *)
  '(dWeeks2001, blockW) <- unsignedModulo_i64 time64 BibCpp_SECONDSPERWEEK ;;
  let yWeeks2001 := Z.quot daysBeginSince2001 7 in
  let calendar :=
    set_calendarWeek
      (Int.to_int8 (Int.to_uint8 (dWeeks2001 - yWeeks2001 + 1))) calendar in
  '(dw, blockX) <- unsignedModulo_i64 (Int.to_int64 blockW) BibCpp_SECONDSPERDAY ;;
  let calendar := set_dayInWeek (Int.to_uint8 (dw + 1)) calendar in
  Ok calendar.

(** ** y2038Calendar.cpp: calendar to epoch seconds *)

(** [time_t BibCpp::y2038Set(stCalendar calendar)] *)
Definition y2038Set (calendar : stCalendar) : outcome Z :=
  let time64 := 0 in
  let y := Int.to_int64 (Int.to_int32 (year calendar - 2001)) in
  '(k, rem400) <- unsignedModulo_i64 y 400 ;;
  '(j, rem100) <- unsignedModulo_i64 (Int.to_int64 rem400) 100 ;;
  '(i, h) <- unsignedModulo_i64 (Int.to_int64 rem100) 4 ;;
  let time64 := Int.to_int64 (time64 + k * BibCpp_SECONDSPER400YEARS) in
  let time64 := Int.to_int64 (time64 + j * BibCpp_SECONDSPER100YEARS) in
  let time64 := Int.to_int64 (time64 + i * BibCpp_SECONDSPER4YEARS) in
  let time64 := Int.to_int64 (time64 + h * BibCpp_SECONDSPERNORMALYEAR) in
  let il := leapIndex (year calendar) in
  t <- table_at BibCpp_SECONDSTILLMONTH il (month calendar - 1) ;;
  let time64 := Int.to_int64 (time64 + t) in
  let time64 := Int.to_int64 (time64 + (day calendar - 1) * BibCpp_SECONDSPERDAY) in
  let time64 := Int.to_int64 (time64 + hour calendar * BibCpp_SECONDSPERHOUR) in
  let time64 := Int.to_int64 (time64 + minute calendar * BibCpp_SECONDSPERMINUTE) in
  let time64 := Int.to_int64 (time64 + second calendar) in
  let relZone := timeZone calendar in
  let relZone := if dst calendar >? 0 then Int.to_int8 (relZone + 1) else relZone in
  let time64 := Int.to_int64 (time64 - relZone * BibCpp_SECONDSPERHOUR) in
  let time64 := Int.to_int64 (time64 - BibCpp_TIME_T_2030_2001) in
  let time32 := Int.to_int32 time64 in
  let time32 := Int.to_int32 (time32 + BibCpp_TIME_T_2030) in
  Ok time32.

(** ** y2038Calendar.cpp: moving a calendar to another zone *)

(** [void setTimeZone(stCalendar* pCalendar, uint8_t destZone)]; the result
    is the structure [pCalendar] points to afterwards. *)
Definition setTimeZone (pCalendar : stCalendar) (destZone : Z) : outcome stCalendar :=
  let il := leapIndex (year pCalendar) in
  let diffHours := Int.to_int8 (destZone - timeZone pCalendar) in
  let diffHours :=
    if dst pCalendar >? 0 then Int.to_int8 (diffHours + 1) else diffHours in
  if diffHours >? 0 then
    let hour := Int.to_int8 (hour pCalendar + diffHours) in
    pCalendar <-
      (if hour >? 23 then
         let pCalendar := set_hour (Int.to_uint8 (hour - 24)) pCalendar in
         let day := Int.to_int8 (day pCalendar + 1) in
         let month := Int.to_int8 (month pCalendar) in
         dom <- table_at DAYSOFMONTH il month ;;
         if day >? dom then
           let day := 1 in
           let month := Int.to_int8 (month + 1) in
           if month >? 12 then
             let pCalendar := set_day (Int.to_uint8 day) pCalendar in
             let pCalendar := set_month 1 pCalendar in
             Ok (set_year (Int.to_int32 (year pCalendar + 1)) pCalendar)
           else
             let pCalendar := set_day (Int.to_uint8 day) pCalendar in
             Ok (set_month (Int.to_uint8 month) pCalendar)
         else
           Ok (set_day (Int.to_uint8 day) pCalendar)
       else
         Ok (set_hour (Int.to_uint8 hour) pCalendar)) ;;
    Ok (set_dst 0 pCalendar)
  else if diffHours <? 0 then
    let hour := Int.to_int8 (hour pCalendar + diffHours) in
    pCalendar <-
      (if hour <? 0 then
         let pCalendar := set_hour (Int.to_uint8 (hour + 24)) pCalendar in
         let day := Int.to_int8 (day pCalendar - 1) in
         let month := Int.to_int8 (month pCalendar) in
         if day <? 0 then
           let month := Int.to_int8 (month - 1) in
           if month <? 1 then
             let month := 12 in
             dom <- table_at DAYSOFMONTH il month ;;
             let pCalendar := set_day dom pCalendar in
             let pCalendar := set_month (Int.to_uint8 month) pCalendar in
             Ok (set_year (Int.to_int32 (year pCalendar - 1)) pCalendar)
           else
             dom <- table_at DAYSOFMONTH il month ;;
             let pCalendar := set_day dom pCalendar in
             Ok (set_month (Int.to_uint8 month) pCalendar)
         else
           Ok (set_day (Int.to_uint8 day) pCalendar)
       else
         Ok (set_hour (Int.to_uint8 hour) pCalendar)) ;;
    Ok (set_dst 0 pCalendar)
  else
    Ok pCalendar.

(** ** cTimeStd.cpp: the native converter *)

(** [stCalendar cTime::calendar(int8_t* pRequestedTimeZone)] on the instance
    holding [_time]. *)
Definition calendar (P : Platform) (_time : Z)
    (pRequestedTimeZone : zoneRequest) : stCalendar :=
  let zone := localTimeZone P in
  let lt := localtime_s P _time in
  let calendar := stCalendar_Ini in
  let '(lt, calendar) :=
    match pRequestedTimeZone with
    | Some requested =>
        let relZone := zone in
        let relZone := if tm_isdst lt >? 0 then Int.to_int8 (relZone + 1) else relZone in
        let relDestZone :=
          if requested =? Int.to_int8 128 then
            let relDestZone := zone in
            if tm_isdst lt >? 0 then Int.to_int8 (relDestZone + 1) else relDestZone
          else requested in
        let lt :=
          mkTm (tm_sec lt) (tm_min lt)
               (Int.to_int32 (tm_hour lt + (relDestZone - relZone)))
               (tm_mday lt) (tm_mon lt) (tm_year lt) (tm_wday lt) (tm_yday lt)
               (tm_isdst lt) in
        let lt := fst (mktime P lt) in
        let lt :=
          mkTm (tm_sec lt) (tm_min lt) (tm_hour lt) (tm_mday lt) (tm_mon lt)
               (tm_year lt) (tm_wday lt) (tm_yday lt) (-1) in
        (lt, set_timeZone relDestZone calendar)
    | None => (lt, set_timeZone zone calendar)
    end in
  let calendar := set_second (Int.to_uint8 (tm_sec lt)) calendar in
  let calendar := set_minute (Int.to_uint8 (tm_min lt)) calendar in
  let calendar := set_hour (Int.to_uint8 (tm_hour lt)) calendar in
  let calendar := set_day (Int.to_uint8 (tm_mday lt)) calendar in
  let calendar := set_month (Int.to_uint8 (tm_mon lt + 1)) calendar in
  let calendar := set_year (Int.to_int32 (tm_year lt + 1900)) calendar in
  let calendar := set_dst (Int.to_int8 (tm_isdst lt)) calendar in
  let calendar := set_dayInWeek (Int.to_uint8 (tm_wday lt)) calendar in
  let calendar :=
    if dayInWeek calendar =? 0 then set_dayInWeek 7 calendar else calendar in
  let calendar := set_dayInYear (Int.to_int16 (tm_yday lt + 1)) calendar in
  calendar.

(** ** cTimeStd.cpp: durations *)

(** [stDuration cTime::duration()] on the instance holding [_time]
    ([time_t] is a signed 64-bit integer). *)
Definition duration (_time : Z) : stDuration :=
  let value := _time in
  let sign := 1 in
  let '(sign, value) :=
    if value <? 0 then (-1, Int.to_int64 (- value)) else (sign, value) in
  let days := Int.to_uint64 (Z.quot value 86400) in
  let value := Z.rem value 86400 in
  let hours := Int.to_uint64 (Z.quot value 3600) in
  let value := Z.rem value 3600 in
  let minutes := Int.to_uint64 (Z.quot value 60) in
  let seconds := Int.to_uint64 (Z.rem value 60) in
  mkDuration days hours minutes seconds sign.

(** [cTime cTime::set(time_t unixTime)], read back with [time()]. *)
Definition set_time (unixTime : Z) : Z := unixTime.

(** [cTime cTime::set(stDuration duration)]: the sum is formed in [uint64_t]
    and converted to [time_t]. *)
Definition set_duration (duration : stDuration) : Z :=
  let value :=
    Int.to_int64
      (Int.to_uint64 (days duration * 86400 + hours duration * 3600
                      + minutes duration * 60 + seconds duration)) in
  let value := if sign duration <? 0 then Int.to_int64 (- value) else value in
  set_time value.

(** [cTime cTime::set(stCalendar calendar)] *)
Definition set_calendar (P : Platform) (calendar : stCalendar) : Z :=
  let tmCalendar :=
    mkTm (Int.to_int32 (second calendar)) (Int.to_int32 (minute calendar))
         (Int.to_int32 (hour calendar)) (Int.to_int32 (day calendar))
         (Int.to_int32 (month calendar - 1)) (Int.to_int32 (year calendar - 1900))
         (tm_wday tm_Ini) (tm_yday tm_Ini) (dst calendar) in
  let '(tmCalendar, timeValue) := mktime P tmCalendar in
  let localZone := localTimeZone P in
  let dst := 0 in
  let dst := if negb (tm_isdst tmCalendar =? 0) then 1 else dst in
  let timeValue :=
    Int.to_int64
      (timeValue
       + Int.to_int32 (Int.to_int32 (localZone + dst + timeZone calendar)
                       * LibCpp_SECONDSPERHOUR)) in
  set_time timeValue.

(** ** Strings: the part of <stdio.h> and <string> the codec uses *)

Module Text.

Definition code (c : ascii) : Z := Z.of_nat (nat_of_ascii c).

Definition isspace (c : ascii) : bool :=
  (code c =? 32) || ((9 <=? code c) && (code c <=? 13)).

Definition isdigit (c : ascii) : bool :=
  (48 <=? code c) && (code c <=? 57).

Definition NUL : ascii := Ascii.zero.

(** [s.c_str()[i]]: the character, the terminator at [i = s.size()], and a
    read outside the buffer beyond. *)
Definition char_at (s : string) (i : nat) : outcome ascii :=
  match String.get i s with
  | Some c => Ok c
  | None => if Nat.eqb i (String.length s) then Ok NUL else Fault OutOfBounds
  end.

(** [s[0]] of a [std::string]. *)
Definition first_char (s : string) : ascii :=
  match s with
  | EmptyString => NUL
  | String c _ => c
  end.

(** A [char] array read as a C string: up to the first terminator. *)
Fixpoint c_string (s : string) : string :=
  match s with
  | EmptyString => EmptyString
  | String c rest =>
      if Ascii.eqb c NUL then EmptyString else String c (c_string rest)
  end.

(** [strcmp(a, b) == 0] *)
Definition strcmp_eq (a b : string) : bool := String.eqb (c_string a) (c_string b).

Fixpoint skip_space (s : string) : string :=
  match s with
  | EmptyString => EmptyString
  | String c rest => if isspace c then skip_space rest else s
  end.

(** The decimal digits at the head of [s]: their value after [acc], whether
    there was one, and the rest of the input. *)
Fixpoint scan_digits (s : string) (acc : Z) (seen : bool) : Z * bool * string :=
  match s with
  | EmptyString => (acc, seen, s)
  | String c rest =>
      if isdigit c then scan_digits rest (acc * 10 + (code c - 48)) true
      else (acc, seen, s)
  end.

(** The [%d] conversion of [sscanf]: white space, an optional sign, digits.
    A value outside [int] is converted with wrap-around. *)
Definition scan_int (s : string) : option (Z * string) :=
  let s := skip_space s in
  let '(negative, s) :=
    match s with
    | String "-" rest => (true, rest)
    | String "+" rest => (false, rest)
    | _ => (false, s)
    end in
  match scan_digits s 0 false with
  | (n, true, rest) => Some (Int.to_int32 (if negative then - n else n), rest)
  | (_, false, _) => None
  end.

(** At most [w] characters that are not white space, at least one. *)
Fixpoint scan_word (w : nat) (s : string) (seen : bool) : option string :=
  match w, s with
  | S w', String c rest =>
      if isspace c then (if seen then Some s else None)
      else scan_word w' rest true
  | _, _ => if seen then Some s else None
  end.

(** The conversions occurring in the library's [sscanf_s] formats.  The
    format [%3*s] is read the way the Microsoft runtime the code is written
    for reads it: a string of width 3 that is not stored. *)
Inductive conversion : Type :=
| ConvInt                       (* %d *)
| ConvSkipString (width : nat)  (* %3*s *)
| ConvLiteral (c : ascii).

Definition digit_value (c : ascii) : nat := Z.to_nat (code c - 48).

Fixpoint scan_format (fmt : string) : list conversion :=
  match fmt with
  | EmptyString => []
  | String "%" (String "d" rest) => ConvInt :: scan_format rest
  | String "%" (String w (String "*" (String "s" rest))) =>
      ConvSkipString (digit_value w) :: scan_format rest
  | String c rest => ConvLiteral c :: scan_format rest
  end.

(** The values [sscanf] stores, in the order of the conversions, up to the
    first conversion that does not match. *)
Fixpoint sscanf_run (fmt : list conversion) (s : string) : list Z :=
  match fmt with
  | [] => []
  | ConvInt :: fmt' =>
      match scan_int s with
      | Some (n, rest) => n :: sscanf_run fmt' rest
      | None => []
      end
  | ConvSkipString w :: fmt' =>
      match scan_word w (skip_space s) false with
      | Some rest => sscanf_run fmt' rest
      | None => []
      end
  | ConvLiteral c :: fmt' =>
      if isspace c then sscanf_run fmt' (skip_space s)
      else
        match s with
        | String c' rest => if Ascii.eqb c c' then sscanf_run fmt' rest else []
        | EmptyString => []
        end
  end.

Definition sscanf_s (s fmt : string) : list Z := sscanf_run (scan_format fmt) s.

(** The variable behind the [i]-th pointer argument afterwards: the value
    stored, or its initial value [init]. *)
Definition stored (vals : list Z) (i : nat) (init : Z) : Z := nth i vals init.

(** Decimal digits of a natural number. *)
Definition decimal (n : Z) : string :=
  DecimalString.NilZero.string_of_uint (N.to_uint (Z.to_N n)).

Fixpoint zeros (n : nat) : string :=
  match n with
  | O => EmptyString
  | S n' => String "0" (zeros n')
  end.

(** The [%d] and [%0wd] conversions of [sprintf] on an [int]. *)
Definition print_int (width : nat) (n : Z) : string :=
  let digits := decimal (Z.abs n) in
  let sign := if n <? 0 then "-"%string else EmptyString in
  let used := (String.length sign + String.length digits)%nat in
  (sign ++ zeros (width - used) ++ digits)%string.

Inductive directive : Type :=
| PrintInt (width : nat)        (* %d, %02d *)
| PrintLiteral (c : ascii).

Fixpoint print_format (fmt : string) : list directive :=
  match fmt with
  | EmptyString => []
  | String "%" (String "d" rest) => PrintInt 0 :: print_format rest
  | String "%" (String "0" (String w (String "d" rest))) =>
      PrintInt (digit_value w) :: print_format rest
  | String c rest => PrintLiteral c :: print_format rest
  end.

Fixpoint sprintf_run (fmt : list directive) (args : list Z) : string :=
  match fmt with
  | [] => EmptyString
  | PrintInt w :: fmt' =>
      match args with
      | a :: args' => (print_int w a ++ sprintf_run fmt' args')%string
      | [] => EmptyString
      end
  | PrintLiteral c :: fmt' => String c (sprintf_run fmt' args)
  end.

(** [sprintf_s(buffer, size, fmt, args...)]: the text and its terminator
    have to fit. *)
Definition sprintf_s (size : nat) (fmt : string) (args : list Z) : outcome string :=
  let text := sprintf_run (print_format fmt) args in
  if Nat.ltb (String.length text) size then Ok text else Fault BufferTooSmall.

End Text.

(** ** cTimeStd.cpp: the textual codec *)

(** [stCalendar cTime::fromString(std::string dateString)] *)
Definition fromString (dateString : string) : outcome stCalendar :=
  let calendar := stCalendar_Ini in
  if Ascii.eqb (Text.first_char dateString) "D" then Ok calendar
  else
    let vals := Text.sscanf_s dateString "%d-%d-%d#%d:%d:%d#%3*s#%d:00" in
    let year := Text.stored vals 0 0 in
    let month := Text.stored vals 1 0 in
    let day := Text.stored vals 2 0 in
    let hour := Text.stored vals 3 0 in
    let minute := Text.stored vals 4 0 in
    let second := Text.stored vals 5 0 in
    let zone := Text.stored vals 6 0 in
    c20 <- Text.char_at dateString 20 ;;
    c21 <- Text.char_at dateString 21 ;;
    c22 <- Text.char_at dateString 22 ;;
    let dst := String c20 (String c21 (String c22 (String Text.NUL EmptyString))) in
    let calendar :=
      if Text.strcmp_eq dst "STD" then set_dst 0 calendar else calendar in
    let calendar :=
      if Text.strcmp_eq dst "DST" then set_dst 1 calendar
      else set_dst (-1) calendar in
    let calendar := set_year (Int.to_int32 year) calendar in
    let calendar := set_month (Int.to_uint8 month) calendar in
    let calendar := set_day (Int.to_uint8 day) calendar in
    let calendar := set_hour (Int.to_uint8 hour) calendar in
    let calendar := set_minute (Int.to_uint8 minute) calendar in
    let calendar := set_second (Int.to_uint8 second) calendar in
    let calendar := set_timeZone (Int.to_int8 zone) calendar in
    Ok calendar.

(** [stDuration cTime::fromDurationString(std::string durationString)] *)
Definition fromDurationString (durationString : string) : stDuration :=
  let duration := stDuration_Ini in
  if negb (Ascii.eqb (Text.first_char durationString) "D") then duration
  else
    let vals := Text.sscanf_s durationString "D%d#%d:%d:%d" in
    let days := Text.stored vals 0 0 in
    let hours := Text.stored vals 1 0 in
    let minutes := Text.stored vals 2 0 in
    let seconds := Text.stored vals 3 0 in
    let sign := 1 in
    let '(sign, days) :=
      if days <? 0 then (Int.to_int8 (-1), Int.to_int32 (- days)) else (sign, days) in
    mkDuration (Int.to_uint64 days) (Int.to_uint64 hours)
               (Int.to_uint64 minutes) (Int.to_uint64 seconds) sign.

(** [std::string cTime::toString(stDuration duration)] *)
Definition toString_duration (duration : stDuration) : outcome string :=
  let days := Int.to_int32 (days duration) in
  let days := if sign duration <? 0 then Int.to_int32 (- days) else days in
  Text.sprintf_s 32 "D%d#%02d:%02d:%02d"
    [days; Int.to_int32 (hours duration); Int.to_int32 (minutes duration);
     Int.to_int32 (seconds duration)].

(** [std::string cTime::toDurationString()] *)
Definition toDurationString (_time : Z) : outcome string :=
  toString_duration (duration _time).

(** [cTime cTime::set(std::string text)] *)
Definition set_string (P : Platform) (text : string) : outcome Z :=
  if Ascii.eqb (Text.first_char text) "D" then
    Ok (set_duration (fromDurationString text))
  else
    calendar <- fromString text ;;
    Ok (set_calendar P calendar).

(** ** LibCpp/Time/cTimeStd.cpp: the codec of the reworked library

    The reworked [cTime] keeps the zone as hours and minutes and signals an
    unusable calendar by [stCalendar_Invalid].  The sentinel constants, the
    invalid [tm] and zone values, the scanner [LibOb_strptime] and
    [LibOb_localTimeZone] come from the header LibOb_strptime.h, which the
    sources at hand only refer to; the record [LibOb] collects them. *)

Module LibCppTime.

Record stTimeZone : Type := mkTimeZone { hours : Z; minutes : Z }.

(** [stCalendar] of LibCpp/Time/cTime.h, in the order of its fields. *)
Record stCalendar : Type := mkCalendar {
  year : Z; month : Z; day : Z; hour : Z; minute : Z; second : Z;
  dst : Z; timeZone : stTimeZone; picoSeconds : Z; dayInYear : Z;
  dayInWeek : Z; calendarWeek : Z; leapSecond : Z;
  padding1 : Z; padding2 : Z
}.

Record LibOb : Type := mkLibOb {
  INT32_INVALID : Z; UINT8_INVALID : Z; INT8_INVALID : Z;
  UINT16_INVALID : Z; INT16_INVALID : Z; INT_INVALID : Z;
  tm_Invalid : tm;
  stTimeZone_Invalid : stTimeZone;
  (* LibOb_strptime(s, format, &tm, &zone): the structures afterwards *)
  LibOb_strptime : string -> string -> tm -> stTimeZone -> tm * stTimeZone;
  (* LibOb_localTimeZone(pDst): the zone and the value stored in *pDst *)
  LibOb_localTimeZone : stTimeZone * Z
}.

Section Codec.

Variable L : LibOb.

Definition stCalendar_Ini : stCalendar :=
  mkCalendar 0 0 0 0 0 0 0 (mkTimeZone 0 0) 0 0 0 0 0 0 0.

Definition stCalendar_Invalid : stCalendar :=
  mkCalendar (INT32_INVALID L) (UINT8_INVALID L) (UINT8_INVALID L)
    (UINT8_INVALID L) (UINT8_INVALID L) (UINT8_INVALID L) (INT8_INVALID L)
    (mkTimeZone (INT8_INVALID L) 0) 0 (UINT16_INVALID L) (UINT8_INVALID L)
    (UINT8_INVALID L) (UINT8_INVALID L) (INT8_INVALID L) (INT16_INVALID L).

(** [stCalendar cTime::toCalendar(struct tm tmCalendar,
    const stTimeZone* pTimeZone)] *)
Definition toCalendar (tmCalendar : tm) (pTimeZone : option stTimeZone) : stCalendar :=
  let calendar := stCalendar_Invalid in
  let year :=
    if negb (tm_year tmCalendar =? INT_INVALID L)
    then Int.to_int32 (tm_year tmCalendar + 1900) else year calendar in
  let month :=
    if negb (tm_mon tmCalendar =? INT_INVALID L)
    then Int.to_uint8 (tm_mon tmCalendar + 1) else month calendar in
  let day :=
    if negb (tm_mday tmCalendar =? INT_INVALID L)
    then Int.to_uint8 (tm_mday tmCalendar) else day calendar in
  let hour :=
    if negb (tm_hour tmCalendar =? INT_INVALID L)
    then Int.to_uint8 (tm_hour tmCalendar) else hour calendar in
  let minute :=
    if negb (tm_min tmCalendar =? INT_INVALID L)
    then Int.to_uint8 (tm_min tmCalendar) else minute calendar in
  let second :=
    if negb (tm_sec tmCalendar =? INT_INVALID L)
    then Int.to_uint8 (tm_sec tmCalendar) else second calendar in
  let dst :=
    if negb (tm_isdst tmCalendar =? INT_INVALID L)
    then Int.to_int8 (tm_isdst tmCalendar) else dst calendar in
  let dayInWeek :=
    if negb (tm_wday tmCalendar =? INT_INVALID L) then
      let dayInWeek := Int.to_uint8 (tm_wday tmCalendar) in
      if dayInWeek =? 0 then 7 else dayInWeek
    else dayInWeek calendar in
  let dayInYear :=
    if negb (tm_year tmCalendar =? INT_INVALID L)
    then Int.uwrap 16 (tm_yday tmCalendar + 1) else dayInYear calendar in
  let '(timeZone, dst) :=
    match pTimeZone with
    | Some zone =>
        if negb (hours zone =? INT8_INVALID L) then (zone, dst)
        else (timeZone calendar, dst)
    | None => (fst (LibOb_localTimeZone L), snd (LibOb_localTimeZone L))
    end in
  mkCalendar year month day hour minute second dst timeZone
    (picoSeconds calendar) dayInYear dayInWeek (calendarWeek calendar)
    (leapSecond calendar) (padding1 calendar) (padding2 calendar).

(** [stCalendar cTime::fromString(std::string dateString,
    std::string format)] *)
Definition fromString (dateString format : string) : stCalendar :=
  let tmCal := tm_Invalid L in
  let zone := stTimeZone_Invalid L in
  if Ascii.eqb (Text.first_char dateString) "D" then stCalendar_Invalid
  else
    let '(tmCal, zone) := LibOb_strptime L dateString format tmCal zone in
    toCalendar tmCal (Some zone).

End Codec.

(** [stDuration cTime::fromDurationString(std::string durationString)]:
    the function has the same text in both versions of cTimeStd.cpp. *)
Definition fromDurationString (durationString : string) : stDuration :=
  let duration := stDuration_Ini in
  if negb (Ascii.eqb (Text.first_char durationString) "D") then duration
  else
    let vals := Text.sscanf_s durationString "D%d#%d:%d:%d" in
    let days := Text.stored vals 0 0 in
    let hours := Text.stored vals 1 0 in
    let minutes := Text.stored vals 2 0 in
    let seconds := Text.stored vals 3 0 in
    let sign := 1 in
    let '(sign, days) :=
      if days <? 0 then (Int.to_int8 (-1), Int.to_int32 (- days)) else (sign, days) in
    mkDuration (Int.to_uint64 days) (Int.to_uint64 hours)
               (Int.to_uint64 minutes) (Int.to_uint64 seconds) sign.

End LibCppTime.

(** ** Vocabulary of the statements *)

(** [int8_t cTime::UTCdeviation(stCalendar calendar)] *)
Definition UTCdeviation (calendar : stCalendar) : Z :=
  let result := timeZone calendar in
  if dst calendar >? 0 then Int.to_int8 (result + 1) else result.

(** The three characters [fromString] compares with "STD" and "DST". *)
Definition dst_token (dateString : string) : option string :=
  match String.get 20 dateString, String.get 21 dateString,
        String.get 22 dateString with
  | Some a, Some b, Some c => Some (String a (String b (String c EmptyString)))
  | _, _, _ => None
  end.

(** The value of [time64] in [y2038Calendar] once the zone is applied:
    seconds since 2001-01-01 00:00:00 on the requested wall clock. *)
Definition wall_seconds_2001 (unixSeconds relZone : Z) : Z :=
  let time32 := Int.to_int32 unixSeconds in
  let time32 := Int.to_int32 (time32 - BibCpp_TIME_T_2030) in
  let time64 := Int.to_int64 time32 in
  let time64 := Int.to_int64 (time64 + BibCpp_TIME_T_2030_2001) in
  Int.to_int64 (time64 + relZone * BibCpp_SECONDSPERHOUR).

(** The part of [y2038Calendar] after the zone shift, as a function of
    [time64] and of the calendar filled in so far ([y2038Calendar_explicit]
    below states that this is what the converter runs). *)
Definition break_down (time64 : Z) (calendar : stCalendar) : outcome stCalendar :=
  '(k, block400) <- unsignedModulo_i64 time64 BibCpp_SECONDSPER400YEARS ;;
  '(j, block100) <- unsignedModulo_i64 (Int.to_int64 block400) BibCpp_SECONDSPER100YEARS ;;
  '(i, block4) <- unsignedModulo_i64 (Int.to_int64 block100) BibCpp_SECONDSPER4YEARS ;;
  '(h, block1) <- unsignedModulo_i64 (Int.to_int64 block4) BibCpp_SECONDSPERNORMALYEAR ;;
  let daysBeginSince2001 :=
    Int.to_int64
      (k * BibCpp_DAYSPER400YEARS
       + Int.to_int32 (Int.to_int32 j * BibCpp_DAYSPER100YEARS)
       + i * BibCpp_DAYSPER4YEARS
       + Int.to_int32 (Int.to_int32 h * BibCpp_DAYSPERNORMALYEAR)) in
  let k := Int.to_int64 (k + 5) in
  let h := Int.to_int64 (h + 1) in
  let year :=
    Int.to_int32 (Int.to_int32 k * 400 + Int.to_int32 j * 100
                  + Int.to_int32 i * 4 + Int.to_int32 h) in
  let calendar := set_year year calendar in
  let il := leapIndex year in
  m <- month_scan il block1 12 ;;
  t <- table_at BibCpp_SECONDSTILLMONTH il m ;;
  let blockM := Int.to_uint64 (block1 - t) in
  let calendar := set_month (Int.to_uint8 (m + 1)) calendar in
  '(d, blockD) <- unsignedModulo_i64 (Int.to_int64 blockM) BibCpp_SECONDSPERDAY ;;
  let calendar := set_day (Int.to_uint8 (d + 1)) calendar in
  '(hour, blockHr) <- unsignedModulo_i64 (Int.to_int64 blockD) BibCpp_SECONDSPERHOUR ;;
  let calendar := set_hour (Int.to_uint8 hour) calendar in
  '(minute, second) <- unsignedModulo_i64 (Int.to_int64 blockHr) BibCpp_SECONDSPERMINUTE ;;
  let calendar := set_minute (Int.to_uint8 minute) calendar in
  let calendar := set_second (Int.to_uint8 second) calendar in
  '(dayInYear, block) <- unsignedModulo_i64 (Int.to_int64 block1) BibCpp_SECONDSPERDAY ;;
  let dayInYear := Int.to_int64 (dayInYear + 1) in
  let calendar := set_dayInYear (Int.to_int16 dayInYear) calendar in
  '(dWeeks2001, blockW) <- unsignedModulo_i64 time64 BibCpp_SECONDSPERWEEK ;;
  let yWeeks2001 := Z.quot daysBeginSince2001 7 in
  let calendar :=
    set_calendarWeek
      (Int.to_int8 (Int.to_uint8 (dWeeks2001 - yWeeks2001 + 1))) calendar in
  '(dw, blockX) <- unsignedModulo_i64 (Int.to_int64 blockW) BibCpp_SECONDSPERDAY ;;
  let calendar := set_dayInWeek (Int.to_uint8 (dw + 1)) calendar in
  Ok calendar.

(** A host for the examples: its clock stands at zero and its calendar
    routines leave every structure as it is. *)
Definition idle_host : Platform :=
  mkPlatform 0 (fun _ => tm_Ini) (fun _ => tm_Ini) (fun t => (t, 0)).

(** Sentinels for the examples: the least value of a signed type, the
    greatest of an unsigned one. *)
Definition sample_LibOb : LibCppTime.LibOb :=
  LibCppTime.mkLibOb (-2147483648) 255 (-128) 65535 (-32768) (-2147483648)
    (mkTm (-2147483648) (-2147483648) (-2147483648) (-2147483648)
          (-2147483648) (-2147483648) (-2147483648) (-2147483648)
          (-2147483648))
    (LibCppTime.mkTimeZone (-128) 0)
    (fun _ _ t z => (t, z))
    (LibCppTime.mkTimeZone 0 0, 0).

(** ** cTimeStd.cpp: the text of a calendar *)

(** The [sprintf] conversions of the calendar format: [%0wd], [%+0wd] and
    [%s] beside literal characters. *)
Module Printf.

Inductive arg : Type :=
| ArgInt (n : Z)
| ArgStr (s : string).

Inductive directive : Type :=
| PrintInt (plus : bool) (width : nat)   (* %d, %04d, %+03d *)
| PrintString                            (* %s *)
| PrintLiteral (c : ascii).

(** An [int] in decimal, zero-padded to [width] characters, with the sign
    [+] for a value that is not negative when the flag is given. *)
Definition print_int (plus : bool) (width : nat) (n : Z) : string :=
  let digits := Text.decimal (Z.abs n) in
  let sign :=
    if n <? 0 then "-"%string else if plus then "+"%string else EmptyString in
  let used := (String.length sign + String.length digits)%nat in
  (sign ++ Text.zeros (width - used) ++ digits)%string.

Fixpoint print_format (fmt : string) : list directive :=
  match fmt with
  | EmptyString => []
  | String "%" (String "d" rest) => PrintInt false 0 :: print_format rest
  | String "%" (String "s" rest) => PrintString :: print_format rest
  | String "%" (String "0" (String w (String "d" rest))) =>
      PrintInt false (Text.digit_value w) :: print_format rest
  | String "%" (String "+" (String "0" (String w (String "d" rest)))) =>
      PrintInt true (Text.digit_value w) :: print_format rest
  | String c rest => PrintLiteral c :: print_format rest
  end.

Fixpoint sprintf_run (fmt : list directive) (args : list arg) : string :=
  match fmt with
  | [] => EmptyString
  | PrintInt plus w :: fmt' =>
      match args with
      | ArgInt a :: args' => (print_int plus w a ++ sprintf_run fmt' args')%string
      | _ => EmptyString
      end
  | PrintString :: fmt' =>
      match args with
      | ArgStr s :: args' => (Text.c_string s ++ sprintf_run fmt' args')%string
      | _ => EmptyString
      end
  | PrintLiteral c :: fmt' => String c (sprintf_run fmt' args)
  end.

(** [sprintf_s(buffer, size, fmt, args...)]: the text and its terminator
    have to fit. *)
Definition sprintf_s (size : nat) (fmt : string) (args : list arg) : outcome string :=
  let text := sprintf_run (print_format fmt) args in
  if Nat.ltb (String.length text) size then Ok text else Fault BufferTooSmall.

End Printf.

(** [const char LibCpp::dstString[3][4]] *)
Definition dstString : list string := ["UTC"; "STD"; "DST"]%string.

(** [std::string cTime::toString(stCalendar calendar)] *)
Definition toString_calendar (calendar : stCalendar) : outcome string :=
  let index := Int.to_int32 (dst calendar + 1) in
  let index := if (index <? 0) || (index >? 2) then 0 else index in
  Printf.sprintf_s 32 "%04d-%02d-%02d#%02d:%02d:%02d#%s#%+03d:00"
    [Printf.ArgInt (Int.to_int32 (year calendar));
     Printf.ArgInt (Int.to_int32 (month calendar));
     Printf.ArgInt (Int.to_int32 (day calendar));
     Printf.ArgInt (Int.to_int32 (hour calendar));
     Printf.ArgInt (Int.to_int32 (minute calendar));
     Printf.ArgInt (Int.to_int32 (second calendar));
     Printf.ArgStr (nth (Z.to_nat index) dstString EmptyString);
     Printf.ArgInt (Int.to_int32 (timeZone calendar))].

(** [std::string cTime::toString(int8_t* pRequestedTimeZone)] on the
    instance holding [_time]. *)
Definition toString (P : Platform) (_time : Z)
    (pRequestedTimeZone : zoneRequest) : outcome string :=
  let cal := calendar P _time pRequestedTimeZone in
  toString_calendar cal.

(** ** cTime.h: the operators *)

(** The operators of [cTime] on the time values of the two instances. *)
Definition operator_eq (_time a : Z) : bool := _time =? a.
Definition operator_ne (_time a : Z) : bool := negb (_time =? a).
Definition operator_lt (_time a : Z) : bool := _time <? a.
Definition operator_gt (_time a : Z) : bool := _time >? a.
Definition operator_le (_time a : Z) : bool := _time <=? a.
Definition operator_ge (_time a : Z) : bool := _time >=? a.
Definition operator_plus (_time a : Z) : Z := set_time (Int.to_int64 (_time + a)).
Definition operator_minus (_time a : Z) : Z := set_time (Int.to_int64 (_time - a)).

(** ** LibCpp/Time/cTimeStd.cpp: calendars and [struct tm] *)

(** [struct tm cTime::fromCalendar(stCalendar calendar,
    stTimeZone* pTimeZone)]: the structure returned and the zone
    [pTimeZone] points to afterwards. *)
Definition fromCalendar (L : LibCppTime.LibOb) (calendar : LibCppTime.stCalendar)
    (pTimeZone : option LibCppTime.stTimeZone)
    : tm * option LibCppTime.stTimeZone :=
  let tmCalendar := LibCppTime.tm_Invalid L in
  let year :=
    if negb (LibCppTime.year calendar =? LibCppTime.INT32_INVALID L)
    then Int.to_int32 (LibCppTime.year calendar - 1900) else tm_year tmCalendar in
  let mon :=
    if negb (LibCppTime.month calendar =? LibCppTime.UINT8_INVALID L)
    then Int.to_int32 (LibCppTime.month calendar - 1) else tm_mon tmCalendar in
  let mday :=
    if negb (LibCppTime.day calendar =? LibCppTime.UINT8_INVALID L)
    then LibCppTime.day calendar else tm_mday tmCalendar in
  let hour :=
    if negb (LibCppTime.hour calendar =? LibCppTime.UINT8_INVALID L)
    then LibCppTime.hour calendar else tm_hour tmCalendar in
  let min :=
    if negb (LibCppTime.minute calendar =? LibCppTime.UINT8_INVALID L)
    then LibCppTime.minute calendar else tm_min tmCalendar in
  let sec :=
    if negb (LibCppTime.second calendar =? LibCppTime.UINT8_INVALID L)
    then LibCppTime.second calendar else tm_sec tmCalendar in
  let isdst :=
    if negb (LibCppTime.dst calendar =? LibCppTime.INT8_INVALID L)
    then LibCppTime.dst calendar else tm_isdst tmCalendar in
  let wday :=
    if negb (LibCppTime.dayInWeek calendar =? LibCppTime.UINT8_INVALID L) then
      let wday := LibCppTime.dayInWeek calendar in
      if wday =? 7 then 0 else wday
    else tm_wday tmCalendar in
  let yday :=
    if negb (LibCppTime.dayInYear calendar =? LibCppTime.UINT16_INVALID L)
    then Int.to_int32 (LibCppTime.dayInYear calendar - 1) else tm_yday tmCalendar in
  let pTimeZone :=
    match pTimeZone with
    | Some zone =>
        if negb (LibCppTime.year calendar =? LibCppTime.INT8_INVALID L)
        then Some (LibCppTime.timeZone calendar) else Some zone
    | None => None
    end in
  (mkTm sec min hour mday mon year wday yday isdst, pTimeZone).

(** ** Vocabulary of the further statements *)

(** The value of a digit sequence read after [acc], the way [scan_digits]
    accumulates it. *)
Fixpoint uint_value (d : Decimal.uint) (acc : Z) : Z :=
  match d with
  | Decimal.Nil => acc
  | Decimal.D0 d => uint_value d (acc * 10 + 0)
  | Decimal.D1 d => uint_value d (acc * 10 + 1)
  | Decimal.D2 d => uint_value d (acc * 10 + 2)
  | Decimal.D3 d => uint_value d (acc * 10 + 3)
  | Decimal.D4 d => uint_value d (acc * 10 + 4)
  | Decimal.D5 d => uint_value d (acc * 10 + 5)
  | Decimal.D6 d => uint_value d (acc * 10 + 6)
  | Decimal.D7 d => uint_value d (acc * 10 + 7)
  | Decimal.D8 d => uint_value d (acc * 10 + 8)
  | Decimal.D9 d => uint_value d (acc * 10 + 9)
  end.

(** The input does not go on with a digit. *)
Definition no_digit_ahead (s : string) : Prop :=
  match s with
  | EmptyString => True
  | String c _ => Text.isdigit c = false
  end.

(** The seconds from 2001-01-01 to the first of January of the year [Y],
    as [y2038Set] adds them up from the 400, 100, 4 and 1 year blocks. *)
Definition year_seconds (Y : Z) : Z :=
  let y := Y - 2001 in
  (y / 400) * 12622780800 + ((y mod 400) / 100) * 3155673600
  + (((y mod 400) mod 100) / 4) * 126230400
  + (((y mod 400) mod 100) mod 4) * 31536000.

(** The hours [setTimeZone] moves the wall clock by: the value of its local
    variable [diffHours] once the DST hour is added. *)
Definition diffHours (pCalendar : stCalendar) (destZone : Z) : Z :=
  let diffHours := Int.to_int8 (destZone - timeZone pCalendar) in
  if dst pCalendar >? 0 then Int.to_int8 (diffHours + 1) else diffHours.

(** A calendar whose fields are values of their types and none of the
    sentinels, also after [fromCalendar] has moved them to the counting of
    [struct tm]. *)
Definition plain (L : LibCppTime.LibOb) (c : LibCppTime.stCalendar) : Prop :=
  (-2147483648 + 1900 <= LibCppTime.year c <= 2147483647 /\
   LibCppTime.year c <> LibCppTime.INT32_INVALID L /\
   LibCppTime.year c <> LibCppTime.INT8_INVALID L /\
   LibCppTime.year c - 1900 <> LibCppTime.INT_INVALID L) /\
  (0 <= LibCppTime.month c <= 255 /\
   LibCppTime.month c <> LibCppTime.UINT8_INVALID L /\
   LibCppTime.month c - 1 <> LibCppTime.INT_INVALID L) /\
  (0 <= LibCppTime.day c <= 255 /\
   LibCppTime.day c <> LibCppTime.UINT8_INVALID L /\
   LibCppTime.day c <> LibCppTime.INT_INVALID L) /\
  (0 <= LibCppTime.hour c <= 255 /\
   LibCppTime.hour c <> LibCppTime.UINT8_INVALID L /\
   LibCppTime.hour c <> LibCppTime.INT_INVALID L) /\
  (0 <= LibCppTime.minute c <= 255 /\
   LibCppTime.minute c <> LibCppTime.UINT8_INVALID L /\
   LibCppTime.minute c <> LibCppTime.INT_INVALID L) /\
  (0 <= LibCppTime.second c <= 255 /\
   LibCppTime.second c <> LibCppTime.UINT8_INVALID L /\
   LibCppTime.second c <> LibCppTime.INT_INVALID L) /\
  (-128 <= LibCppTime.dst c <= 127 /\
   LibCppTime.dst c <> LibCppTime.INT8_INVALID L /\
   LibCppTime.dst c <> LibCppTime.INT_INVALID L) /\
  (1 <= LibCppTime.dayInWeek c <= 255 /\
   LibCppTime.dayInWeek c <> LibCppTime.UINT8_INVALID L /\
   LibCppTime.dayInWeek c <> LibCppTime.INT_INVALID L /\
   0 <> LibCppTime.INT_INVALID L) /\
  (0 <= LibCppTime.dayInYear c <= 65535 /\
   LibCppTime.dayInYear c <> LibCppTime.UINT16_INVALID L) /\
  LibCppTime.hours (LibCppTime.timeZone c) <> LibCppTime.INT8_INVALID L.

(** A host one hour east of Greenwich without daylight saving time, for
    the examples: its clock stands at zero, and [mktime] reads the time of
    day of a structure as the wall clock of 1970-01-01. *)
Definition east_host : Platform :=
  mkPlatform 0
    (fun _ => mkTm 0 0 0 1 0 70 4 0 0)
    (fun _ => mkTm 0 0 1 1 0 70 4 0 0)
    (fun t => (t, tm_hour t * 3600 + tm_min t * 60 + tm_sec t - 3600)).

(** * Theorems *)

(** ** Fixed-width integers *)

(** Conversions that change nothing. *)

Lemma wrap_eq bits x :
  0 < bits -> Int.in_signed bits x -> Int.wrap bits x = x.
Proof.
  unfold Int.in_signed, Int.min_signed, Int.max_signed, Int.wrap.
  intros Hb [Hlo Hhi].
  assert (H2 : 2 ^ bits = 2 * 2 ^ (bits - 1)).
  { replace bits with (Z.succ (bits - 1)) at 1 by lia.
    rewrite Z.pow_succ_r by lia. reflexivity. }
  assert (Hp : 0 < 2 ^ (bits - 1)) by (apply Z.pow_pos_nonneg; lia).
  rewrite Z.mod_small by lia. lia.
Qed.

Lemma uwrap_eq bits x :
  Int.in_unsigned bits x -> Int.uwrap bits x = x.
Proof.
  unfold Int.in_unsigned, Int.max_unsigned, Int.uwrap.
  intros H. apply Z.mod_small. lia.
Qed.

Lemma to_int64_eq x :
  -9223372036854775808 <= x <= 9223372036854775807 -> Int.to_int64 x = x.
Proof.
  intros H. apply wrap_eq; [lia|].
  unfold Int.in_signed, Int.min_signed, Int.max_signed. simpl. lia.
Qed.

Lemma to_int32_eq x :
  -2147483648 <= x <= 2147483647 -> Int.to_int32 x = x.
Proof.
  intros H. apply wrap_eq; [lia|].
  unfold Int.in_signed, Int.min_signed, Int.max_signed. simpl. lia.
Qed.

Lemma to_int16_eq x : -32768 <= x <= 32767 -> Int.to_int16 x = x.
Proof.
  intros H. apply wrap_eq; [lia|].
  unfold Int.in_signed, Int.min_signed, Int.max_signed. simpl. lia.
Qed.

Lemma to_int8_eq x : -128 <= x <= 127 -> Int.to_int8 x = x.
Proof.
  intros H. apply wrap_eq; [lia|].
  unfold Int.in_signed, Int.min_signed, Int.max_signed. simpl. lia.
Qed.

Lemma to_uint8_eq x : 0 <= x <= 255 -> Int.to_uint8 x = x.
Proof.
  intros H. apply uwrap_eq. unfold Int.in_unsigned, Int.max_unsigned. simpl. lia.
Qed.

Lemma to_uint64_eq x :
  0 <= x <= 18446744073709551615 -> Int.to_uint64 x = x.
Proof.
  intros H. apply uwrap_eq. unfold Int.in_unsigned, Int.max_unsigned. simpl. lia.
Qed.

(** A 32-bit sum does not care whether a summand was converted before. *)
Lemma to_int32_add_l a b :
  Int.to_int32 (Int.to_int32 a + b) = Int.to_int32 (a + b).
Proof.
  unfold Int.to_int32, Int.wrap. f_equal.
  replace (2 ^ 32) with 4294967296 by reflexivity.
  replace (2 ^ (32 - 1)) with 2147483648 by reflexivity.
  replace ((a + 2147483648) mod 4294967296 - 2147483648 + b + 2147483648)
    with ((a + 2147483648) mod 4294967296 + b) by lia.
  rewrite Z.add_mod_idemp_l by lia. f_equal. lia.
Qed.

(** Wrap-around algebra. *)

Lemma wrap_range bits x :
  0 < bits -> Int.in_signed bits (Int.wrap bits x).
Proof.
  intros Hb. unfold Int.in_signed, Int.min_signed, Int.max_signed, Int.wrap.
  assert (H2 : 2 ^ bits = 2 * 2 ^ (bits - 1)).
  { replace bits with (Z.succ (bits - 1)) at 1 by lia.
    rewrite Z.pow_succ_r by lia. reflexivity. }
  assert (Hp : 0 < 2 ^ (bits - 1)) by (apply Z.pow_pos_nonneg; lia).
  pose proof (Z.mod_pos_bound (x + 2 ^ (bits - 1)) (2 ^ bits) ltac:(lia)).
  lia.
Qed.

Lemma to_int32_range x : -2147483648 <= Int.to_int32 x <= 2147483647.
Proof. apply (wrap_range 32 x). lia. Qed.

Lemma to_int8_range x : -128 <= Int.to_int8 x <= 127.
Proof. apply (wrap_range 8 x). lia. Qed.

(** Two values that differ by a multiple of 2^bits convert alike. *)
Lemma wrap_congr bits a b :
  0 < bits -> (a - b) mod 2 ^ bits = 0 -> Int.wrap bits a = Int.wrap bits b.
Proof.
  intros Hb H. unfold Int.wrap. f_equal.
  assert (Hp : 0 < 2 ^ bits) by (apply Z.pow_pos_nonneg; lia).
  apply Z.mod_divide in H; [|lia]. destruct H as [q Hq].
  replace (a + 2 ^ (bits - 1)) with (b + 2 ^ (bits - 1) + q * 2 ^ bits) by lia.
  apply Z.mod_add. lia.
Qed.

Lemma wrap_diff bits a :
  0 < bits -> (Int.wrap bits a - a) mod 2 ^ bits = 0.
Proof.
  intros Hb. unfold Int.wrap.
  assert (Hp : 0 < 2 ^ bits) by (apply Z.pow_pos_nonneg; lia).
  pose proof (Z.div_mod (a + 2 ^ (bits - 1)) (2 ^ bits) ltac:(lia)) as Hdm.
  replace ((a + 2 ^ (bits - 1)) mod 2 ^ bits - 2 ^ (bits - 1) - a)
    with (- ((a + 2 ^ (bits - 1)) / 2 ^ bits) * 2 ^ bits) by lia.
  apply Z.mod_mul. lia.
Qed.

Lemma to_int64_add_l a b :
  Int.to_int64 (Int.to_int64 a + b) = Int.to_int64 (a + b).
Proof.
  apply wrap_congr; [lia|].
  replace (Int.to_int64 a + b - (a + b)) with (Int.to_int64 a - a) by lia.
  apply wrap_diff. lia.
Qed.

Lemma to_int64_sub_l a b :
  Int.to_int64 (Int.to_int64 a - b) = Int.to_int64 (a - b).
Proof.
  apply wrap_congr; [lia|].
  replace (Int.to_int64 a - b - (a - b)) with (Int.to_int64 a - a) by lia.
  apply wrap_diff. lia.
Qed.

Lemma to_int32_sub_l a b :
  Int.to_int32 (Int.to_int32 a - b) = Int.to_int32 (a - b).
Proof.
  apply wrap_congr; [lia|].
  replace (Int.to_int32 a - b - (a - b)) with (Int.to_int32 a - a) by lia.
  apply wrap_diff. lia.
Qed.

Lemma to_int32_idem a : Int.to_int32 (Int.to_int32 a) = Int.to_int32 a.
Proof. apply to_int32_eq, to_int32_range. Qed.

Lemma to_int32_to_int64 a : Int.to_int32 (Int.to_int64 a) = Int.to_int32 a.
Proof.
  apply wrap_congr; [lia|].
  pose proof (wrap_diff 64 a ltac:(lia)) as H.
  apply Z.mod_divide in H; [|lia]. destruct H as [q Hq].
  apply Z.mod_divide; [lia|].
  exists (q * 2 ^ 32). unfold Int.to_int64. rewrite Hq.
  change (2 ^ 64) with (2 ^ 32 * 2 ^ 32). ring.
Qed.

(** ** The floor modulo *)

Lemma in_signedb_true bits x :
  Int.in_signed bits x -> Int.in_signedb bits x = true.
Proof.
  unfold Int.in_signed, Int.in_signedb. intros [H1 H2].
  apply andb_true_intro. split; apply Z.leb_le; assumption.
Qed.

(** For a modulo below 2^63 the function is the floor division unless the
    value is a negative multiple of the modulo. *)
Lemma unsignedModulo_i64_floor v m :
  0 < m <= 9223372036854775807 ->
  -9223372036854775808 <= v <= 9223372036854775807 ->
  0 <= v \/ v mod m <> 0 ->
  unsignedModulo_i64 v m = Ok (v / m, v mod m).
Proof.
  intros Hm Hv Hnz.
  unfold unsignedModulo_i64, unsignedModulo.
  destruct (Z.eqb_spec m 0) as [->|_]; [lia|].
  change (Int.wrap 64) with Int.to_int64.
  rewrite (to_int64_eq m) by lia.
  pose proof (Z.quot_rem' v m) as Hqr.
  assert (Hq : -9223372036854775808 <= Z.quot v m <= 9223372036854775807).
  { destruct (Z_le_gt_dec 0 v).
    - pose proof (Z.quot_pos v m). pose proof (Z.quot_le_upper_bound v m 9223372036854775807).
      nia.
    - pose proof (Z.quot_opp_l v m ltac:(lia)).
      pose proof (Z.quot_pos (- v) m ltac:(lia) ltac:(lia)).
      assert (Z.quot (- v) m <= - v).
      { destruct (Z.eq_dec m 1) as [->|]; [rewrite Z.quot_1_r; lia|].
        pose proof (Z.quot_lt (- v) m ltac:(lia) ltac:(lia)). lia. }
      lia. }
  unfold Int.div, Int.rem.
  destruct (Z.eqb_spec m 0) as [->|_]; [lia|].
  rewrite in_signedb_true
    by (unfold Int.in_signed, Int.min_signed, Int.max_signed; simpl; lia).
  cbn [bind].
  assert (Hr : Z.abs (Z.rem v m) < m) by (pose proof (Z.rem_bound_abs v m ltac:(lia)); lia).
  rewrite (to_int64_eq (Z.quot v m)) by lia.
  rewrite (to_int64_eq (Z.rem v m)) by lia.
  pose proof (Z.mod_pos_bound v m ltac:(lia)) as Hmod.
  pose proof (Z.div_mod v m ltac:(lia)) as Hdm.
  destruct (Z_le_gt_dec 0 v) as [Hpos|Hneg].
  - (* non-negative value: truncation and floor agree *)
    rewrite Z.quot_div_nonneg, Z.rem_mod_nonneg by lia.
    pose proof (Z.div_pos v m ltac:(lia) ltac:(lia)).
    destruct (Z.ltb_spec (v / m) 0); [lia|].
    destruct (Z.ltb_spec (v mod m) 0); [lia|].
    rewrite andb_false_r.
    rewrite uwrap_eq by (unfold Int.in_unsigned, Int.max_unsigned; simpl; lia).
    reflexivity.
  - (* negative value, not a multiple *)
    assert (Hm0 : v mod m <> 0) by lia.
    assert (Hrb : - m < Z.rem v m <= 0).
    { pose proof (Z.rem_bound_pos (- v) m ltac:(lia) ltac:(lia)) as Hb.
      rewrite Z.rem_opp_l in Hb by lia. lia. }
    assert (Hrel : Z.quot v m = v / m + 1 /\ Z.rem v m = v mod m - m).
    { assert (Z.rem v m <> 0).
      { intros E. apply Hm0. apply Z.rem_divide in E; [|lia].
        apply Z.mod_divide; [lia|assumption]. }
      assert (m * (Z.quot v m - v / m - 1) = v mod m - m - Z.rem v m) by lia.
      assert (Z.quot v m - v / m - 1 = 0) by nia.
      lia. }
    destruct Hrel as [Eq Er]. rewrite Eq, Er.
    destruct (Z.ltb_spec (v / m + 1) 0) as [Hlt|Hge].
    + destruct (Z.ltb_spec (v mod m - m) 0); [|lia].
      rewrite (to_int64_eq (v / m + 1 - 1)) by lia.
      rewrite (to_int64_eq (v mod m - m + m)) by lia.
      replace (v / m + 1 - 1) with (v / m) by lia.
      replace (v mod m - m + m) with (v mod m) by lia.
      destruct (Z.eqb_spec (v / m) 0); [lia|]. cbn [andb].
      rewrite uwrap_eq by (unfold Int.in_unsigned, Int.max_unsigned; simpl; lia).
      reflexivity.
    + assert (E0 : v / m + 1 = 0) by nia.
      rewrite E0. cbn [Z.eqb andb].
      destruct (Z.ltb_spec (v mod m - m) 0); [|lia].
      rewrite (to_int64_eq (v mod m - m + m)) by lia.
      replace (v mod m - m + m) with (v mod m) by lia.
      change (Int.to_int64 (0 - 1)) with (-1).
      rewrite uwrap_eq by (unfold Int.in_unsigned, Int.max_unsigned; simpl; lia).
      f_equal. f_equal. lia.
Qed.

(** On a negative multiple of the modulo the divisor is one too small. *)
Lemma unsignedModulo_i64_negative_multiple v m :
  0 < m <= 9223372036854775807 ->
  -9223372036854775808 < v < 0 ->
  v mod m = 0 ->
  unsignedModulo_i64 v m = Ok (v / m - 1, 0).
Proof.
  intros Hm Hv Hz.
  unfold unsignedModulo_i64, unsignedModulo.
  destruct (Z.eqb_spec m 0) as [->|_]; [lia|].
  change (Int.wrap 64) with Int.to_int64.
  rewrite (to_int64_eq m) by lia.
  pose proof (Z.div_mod v m ltac:(lia)) as Hdm. rewrite Hz in Hdm.
  assert (Hd : v <= v / m < 0) by nia.
  assert (Eq : Z.quot v m = v / m).
  { rewrite Hdm at 1. rewrite Z.add_0_r, Z.mul_comm. apply Z.quot_mul. lia. }
  assert (Er : Z.rem v m = 0).
  { apply Z.rem_divide; [lia|]. apply Z.mod_divide; [lia|assumption]. }
  unfold Int.div, Int.rem.
  destruct (Z.eqb_spec m 0) as [->|_]; [lia|].
  rewrite Eq, Er.
  rewrite in_signedb_true
    by (unfold Int.in_signed, Int.min_signed, Int.max_signed; simpl; lia).
  cbn [bind].
  rewrite (to_int64_eq (v / m)) by lia.
  destruct (Z.ltb_spec (v / m) 0); [|lia].
  change (Int.to_int64 0) with 0. cbn [Z.ltb Z.compare].
  rewrite (to_int64_eq (v / m - 1)) by lia.
  destruct (Z.eqb_spec (v / m - 1) 0); [lia|]. cbn [andb].
  reflexivity.
Qed.

Lemma unsignedModulo_i64_compose q m r :
  0 < m <= 9223372036854775807 ->
  0 <= r < m ->
  -9223372036854775808 <= q * m + r <= 9223372036854775807 ->
  0 <= q \/ 0 < r ->
  unsignedModulo_i64 (q * m + r) m = Ok (q, r).
Proof.
  intros Hm Hr Hv Hq.
  assert (Ed : (q * m + r) / m = q).
  { symmetry. apply (Z.div_unique_pos _ _ q r); lia. }
  assert (Em : (q * m + r) mod m = r).
  { symmetry. apply (Z.mod_unique_pos _ _ q r); lia. }
  rewrite unsignedModulo_i64_floor; try assumption.
  - rewrite Ed, Em. reflexivity.
  - rewrite Em. destruct Hq; [left; nia | right; lia].
Qed.

(** Whatever the value, the remainder is the one of the floor division. *)
Lemma unsignedModulo_i64_remainder v m :
  0 < m <= 9223372036854775807 ->
  -9223372036854775808 < v <= 9223372036854775807 ->
  exists d, unsignedModulo_i64 v m = Ok (d, v mod m).
Proof.
  intros Hm Hv.
  destruct (Z_le_gt_dec 0 v) as [Hpos|Hneg].
  - eexists. apply unsignedModulo_i64_floor; [lia|lia|left; lia].
  - destruct (Z.eq_dec (v mod m) 0) as [E|NE].
    + eexists. rewrite E. apply unsignedModulo_i64_negative_multiple; lia.
    + eexists. apply unsignedModulo_i64_floor; [lia|lia|right; lia].
Qed.

(** Totality: the quotient is the only thing that can fail. *)

Lemma quot_abs_le a b : b <> 0 -> Z.abs (Z.quot a b) <= Z.abs a.
Proof.
  intros Hb. rewrite <- Z.quot_abs by assumption.
  rewrite Z.quot_div_nonneg by lia.
  apply Z.div_le_upper_bound; [lia|]. nia.
Qed.

(** The truncated quotient leaves the range of the type only for the least
    value divided by minus one. *)
Lemma quot_overflow Q a b :
  0 < Q -> - Q <= a < Q -> - Q <= b < Q -> b <> 0 ->
  (- Q <= Z.quot a b < Q) \/ (a = - Q /\ b = -1).
Proof.
  intros HQ Ha Hb Hb0.
  pose proof (quot_abs_le a b Hb0) as Habs.
  destruct (Z.eq_dec (Z.quot a b) Q) as [E|NE]; [|lia].
  right.
  assert (Ea : a = - Q) by lia.
  split; [assumption|].
  pose proof (Z.quot_rem' a b) as Hqr. rewrite E, Ea in Hqr.
  assert (Hr : - Z.abs b < Z.rem (- Q) b <= 0).
  { pose proof (Z.rem_bound_abs (- Q) b Hb0).
    pose proof (Z.rem_nonpos (- Q) b ltac:(lia) ltac:(lia)).
    rewrite Ea in *. lia. }
  nia.
Qed.

(** Once the modulo is not zero, the only way to fail is the quotient. *)
Lemma unsignedModulo_outcome bits v m :
  m <> 0 -> Int.wrap bits m <> 0 ->
  (Int.in_signedb (Z.max bits Int.int_bits) (Z.quot v (Int.wrap bits m)) = false
   /\ unsignedModulo bits v m = Fault QuotientOverflow)
  \/
  (Int.in_signedb (Z.max bits Int.int_bits) (Z.quot v (Int.wrap bits m)) = true
   /\ exists d r, unsignedModulo bits v m = Ok (d, r)).
Proof.
  intros Hm Hw. unfold unsignedModulo, Int.div, Int.rem.
  destruct (Z.eqb_spec m 0) as [E|_]; [contradiction|].
  destruct (Z.eqb_spec (Int.wrap bits m) 0) as [E|_]; [contradiction|].
  destruct (Int.in_signedb _ _); cbn [bind].
  - right. split; [reflexivity|].
    destruct (_ <? 0).
    + destruct (_ && _); eauto.
    + destruct (_ && _); eauto.
  - left. split; reflexivity.
Qed.

Lemma in_signedb_spec bits x :
  Int.in_signedb bits x = true <-> Int.in_signed bits x.
Proof.
  unfold Int.in_signedb, Int.in_signed.
  rewrite andb_true_iff, !Z.leb_le. reflexivity.
Qed.

Ltac width_cases H :=
  cbn [In] in H;
  destruct H as [<-|[<-|[<-|[<-|[]]]]].

Ltac unfold_ranges :=
  unfold Int.in_signed, Int.in_unsigned, Int.min_signed, Int.max_signed,
    Int.max_unsigned, Int.int_bits in *;
  simpl Z.max in *; simpl Z.pow in *; simpl Z.sub in *; simpl Z.opp in *.

Lemma wrap_unsigned bits m :
  In bits [8; 16; 32; 64] -> Int.in_unsigned bits m ->
  (m <> 0 -> Int.wrap bits m <> 0) /\
  (Int.wrap bits m = -1 <-> m = Int.max_unsigned bits) /\
  Int.in_signed bits (Int.wrap bits m).
Proof.
  intros Hb Hm. unfold Int.wrap.
  width_cases Hb; unfold_ranges; repeat split; intros;
    Z.div_mod_to_equations; lia.
Qed.

Lemma unsignedModulo_total_aux bits v m :
  In bits [8; 16; 32; 64] ->
  Int.in_signed bits v -> Int.in_unsigned bits m ->
  Int.in_signedb (Z.max bits Int.int_bits) (Z.quot v (Int.wrap bits m)) = false <->
  32 <= bits /\ v = Int.min_signed bits /\ m = Int.max_unsigned bits.
Proof.
  intros Hb Hv Hm.
  destruct (wrap_unsigned bits m Hb Hm) as (Hnz & Hm1 & Hr).
  rewrite <- Hm1. clear Hm1.
  rewrite <- not_true_iff_false, in_signedb_spec.
  destruct (Z.eq_dec (Int.wrap bits m) 0) as [E0|N0].
  { rewrite E0, Z.quot_0_r_ext by reflexivity.
    width_cases Hb; unfold_ranges; lia. }
  pose proof (quot_abs_le v (Int.wrap bits m) N0) as Habs.
  pose proof (quot_overflow (2 ^ (bits - 1)) v (Int.wrap bits m)) as Hov.
  width_cases Hb; unfold_ranges;
    specialize (Hov ltac:(lia) ltac:(lia) ltac:(lia) N0);
    split; intros H; try lia.
  - destruct H as (_ & -> & ->). cbn. lia.
  - destruct H as (_ & -> & ->). cbn. lia.
Qed.

(** C1 (code defect).  The claim asks for the floor quotient and for
    [v = divisor * m + remainder] at every signed 64-bit value, exact
    negative multiples included.  The code does not deliver it there: for
    every modulo [m] below 2^63 and every negative multiple [v] of [m] (the
    least 64-bit value apart) [unsignedModulo] returns the divisor
    [v / m - 1], one less than the floor, with remainder 0, so that
    [divisor * m + remainder] is [v - m] and not [v].  The witness is
    [v = -10], [m = 5]: divisor -3, remainder 0. *)
Theorem unsignedModulo_i64_breaks_contract v m :
  0 < m <= 9223372036854775807 ->
  -9223372036854775808 < v < 0 ->
  v mod m = 0 ->
  exists divisor remainder,
    unsignedModulo_i64 v m = Ok (divisor, remainder) /\
    divisor = v / m - 1 /\ remainder = 0 /\
    divisor * m + remainder = v - m /\
    divisor * m + remainder <> v.
Proof.
  intros Hm Hv Hz.
  exists (v / m - 1), 0. split.
  - apply unsignedModulo_i64_negative_multiple; assumption.
  - pose proof (Z.div_mod v m ltac:(lia)) as Hdm. rewrite Hz in Hdm.
    repeat split; lia.
Qed.

Lemma unsignedModulo_i64_breaks_contract_witness :
  exists divisor remainder,
    unsignedModulo_i64 (-10) 5 = Ok (divisor, remainder) /\
    divisor = -10 / 5 - 1 /\ remainder = 0 /\
    divisor * 5 + remainder = -10 - 5 /\
    divisor * 5 + remainder <> -10.
Proof.
  apply (unsignedModulo_i64_breaks_contract (-10) 5); [lia | lia | reflexivity].
Defined.

(** C9 (amended).  For each of the instantiated widths (8, 16, 32 and 64
    bits), every signed value [v] and every unsigned modulo [m]: with
    [m = 0] the function divides nothing and returns divisor 1 and
    remainder 0; no input reaches a division by zero; and the function
    returns a result except at the single input where the signed division
    itself has none, [v] the least value of the type and [m] the greatest
    ([(T)m = -1]), which exists for the types as wide as [int] only. *)
Theorem unsignedModulo_zero_guard bits v m :
  In bits [8; 16; 32; 64] ->
  Int.in_signed bits v -> Int.in_unsigned bits m ->
  (m = 0 -> unsignedModulo bits v m = Ok (1, 0)) /\
  unsignedModulo bits v m <> Fault DivisionByZero /\
  (faulty (unsignedModulo bits v m) <->
   32 <= bits /\ v = Int.min_signed bits /\ m = Int.max_unsigned bits).
Proof.
  intros Hb Hv Hm.
  destruct (Z.eq_dec m 0) as [->|Hm0].
  - (* the guard: no division *)
    assert (E : unsignedModulo bits v 0 = Ok (1, 0)) by reflexivity.
    split; [intros _; exact E|].
    split; [rewrite E; discriminate|].
    split.
    + intros [f Hf]. rewrite E in Hf. discriminate Hf.
    + intros (_ & _ & H0). exfalso. revert H0.
      width_cases Hb; unfold_ranges; lia.
  - destruct (wrap_unsigned bits m Hb Hm) as (Hnz & _ & _).
    pose proof (unsignedModulo_total_aux bits v m Hb Hv Hm) as Haux.
    destruct (unsignedModulo_outcome bits v m Hm0 (Hnz Hm0))
      as [[Hq E]|[Hq (d & r & E)]]; rewrite E.
    + split; [intros; contradiction|]. split; [discriminate|].
      split; [intros _; apply Haux; assumption|].
      intros _. exists QuotientOverflow. reflexivity.
    + split; [intros; contradiction|]. split; [discriminate|].
      split.
      * intros [f Hf]. discriminate Hf.
      * intros H. apply Haux in H. congruence.
Qed.

Lemma unsignedModulo_zero_guard_witness :
  (0 = 0 -> unsignedModulo 64 (-7) 0 = Ok (1, 0)) /\
  unsignedModulo 64 (-7) 0 <> Fault DivisionByZero /\
  (faulty (unsignedModulo 64 (-7) 0) <->
   32 <= 64 /\ -7 = Int.min_signed 64 /\ 0 = Int.max_unsigned 64).
Proof.
  apply (unsignedModulo_zero_guard 64 (-7) 0).
  - cbn [In]. auto.
  - unfold Int.in_signed, Int.min_signed, Int.max_signed. simpl. lia.
  - unfold Int.in_unsigned, Int.max_unsigned. simpl. lia.
Defined.

(** C9, the input the claim as stated overlooks: the least 64-bit value with
    the modulo 2^64 - 1 ends in the division [INT64_MIN / -1]. *)
Lemma unsignedModulo_i64_not_total :
  Int.in_signed 64 (-9223372036854775808) /\
  Int.in_unsigned 64 18446744073709551615 /\
  unsignedModulo_i64 (-9223372036854775808) 18446744073709551615
    = Fault QuotientOverflow /\
  ~ (exists divisor remainder,
       unsignedModulo_i64 (-9223372036854775808) 18446744073709551615
       = Ok (divisor, remainder)).
Proof.
  split; [unfold Int.in_signed, Int.min_signed, Int.max_signed; simpl; lia|].
  split; [unfold Int.in_unsigned, Int.max_unsigned; simpl; lia|].
  split; [vm_compute; reflexivity|].
  intros (d & r & H). vm_compute in H. discriminate H.
Qed.

(** ** The overflow-safe converter *)

(** * The values of the constants *)

Lemma SECONDSPER400YEARS_value : BibCpp_SECONDSPER400YEARS = 12622780800.
Proof. reflexivity. Qed.
Lemma SECONDSPER100YEARS_value : BibCpp_SECONDSPER100YEARS = 3155673600.
Proof. reflexivity. Qed.
Lemma SECONDSPER4YEARS_value : BibCpp_SECONDSPER4YEARS = 126230400.
Proof. reflexivity. Qed.
Lemma SECONDSPERNORMALYEAR_value : BibCpp_SECONDSPERNORMALYEAR = 31536000.
Proof. reflexivity. Qed.
Lemma SECONDSPERWEEK_value : BibCpp_SECONDSPERWEEK = 604800.
Proof. reflexivity. Qed.
Lemma SECONDSPERDAY_value : BibCpp_SECONDSPERDAY = 86400.
Proof. reflexivity. Qed.
Lemma SECONDSPERHOUR_value : BibCpp_SECONDSPERHOUR = 3600.
Proof. reflexivity. Qed.
Lemma SECONDSPERMINUTE_value : BibCpp_SECONDSPERMINUTE = 60.
Proof. reflexivity. Qed.
Lemma TIME_T_2030_value : BibCpp_TIME_T_2030 = 1893456000.
Proof. reflexivity. Qed.
Lemma TIME_T_2030_2001_value : BibCpp_TIME_T_2030_2001 = 915148800.
Proof. reflexivity. Qed.
Lemma DAYSPER400YEARS_value : BibCpp_DAYSPER400YEARS = 146097.
Proof. reflexivity. Qed.
Lemma DAYSPER100YEARS_value : BibCpp_DAYSPER100YEARS = 36524.
Proof. reflexivity. Qed.
Lemma DAYSPER4YEARS_value : BibCpp_DAYSPER4YEARS = 1461.
Proof. reflexivity. Qed.
Lemma DAYSPERNORMALYEAR_value : BibCpp_DAYSPERNORMALYEAR = 365.
Proof. reflexivity. Qed.

Ltac constants :=
  rewrite ?SECONDSPER400YEARS_value, ?SECONDSPER100YEARS_value,
    ?SECONDSPER4YEARS_value, ?SECONDSPERNORMALYEAR_value,
    ?SECONDSPERWEEK_value, ?SECONDSPERDAY_value, ?SECONDSPERHOUR_value,
    ?SECONDSPERMINUTE_value, ?TIME_T_2030_value, ?TIME_T_2030_2001_value,
    ?DAYSPER400YEARS_value, ?DAYSPER100YEARS_value, ?DAYSPER4YEARS_value,
    ?DAYSPERNORMALYEAR_value in *.

(** * The month tables *)

Ltac month_cases mo H :=
  assert (H : mo = 1 \/ mo = 2 \/ mo = 3 \/ mo = 4 \/ mo = 5 \/ mo = 6 \/
              mo = 7 \/ mo = 8 \/ mo = 9 \/ mo = 10 \/ mo = 11 \/ mo = 12)
    by lia;
  destruct H as [H|[H|[H|[H|[H|[H|[H|[H|[H|[H|[H|H]]]]]]]]]]]; subst mo.

(** Month [mo] begins [tb] seconds into the year, a whole number of days,
    and ends with the year at the latest. *)
Lemma month_tables il mo tb dom :
  il = 0 \/ il = 1 -> 1 <= mo <= 12 ->
  table_at BibCpp_SECONDSTILLMONTH il (mo - 1) = Ok tb ->
  table_at DAYSOFMONTH il mo = Ok dom ->
  0 <= tb /\ tb mod 86400 = 0 /\ 28 <= dom <= 31 /\
  tb + dom * 86400 <= (365 + il) * 86400.
Proof.
  intros Hil Hmo Htb Hdom.
  destruct Hil; subst il; month_cases mo Hc;
    vm_compute in Htb; vm_compute in Hdom;
    injection Htb as <-; injection Hdom as <-;
    repeat split; try reflexivity; lia.
Qed.

(** The scan from December down stops at the month the second lies in. *)
Lemma month_scan_finds il mo tb dom block1 :
  il = 0 \/ il = 1 -> 1 <= mo <= 12 ->
  table_at BibCpp_SECONDSTILLMONTH il (mo - 1) = Ok tb ->
  table_at DAYSOFMONTH il mo = Ok dom ->
  tb <= block1 < tb + dom * 86400 ->
  month_scan il block1 12 = Ok (mo - 1).
Proof.
  intros Hil Hmo Htb Hdom Hb.
  destruct Hil; subst il; month_cases mo Hc;
    vm_compute in Htb; vm_compute in Hdom;
    injection Htb as <-; injection Hdom as <-;
    unfold month_scan;
    repeat match goal with
      | |- context [table_at ?t ?i ?j] =>
          let v := eval vm_compute in (table_at t i j) in
          change (table_at t i j) with v; cbn [bind]
      | |- context [?a >=? ?b] => destruct (Z.geb_spec a b); [try lia|try lia]
      end;
    try reflexivity.
Qed.

(** With an explicit zone the converter is the break-down of the shifted
    time. *)
Lemma y2038Calendar_explicit P e zone dstp :
  y2038Calendar P e (Some zone) dstp
  = break_down
      (wall_seconds_2001 e (if dstp >? 0 then Int.to_int8 (zone - 1) else zone))
      (set_timeZone zone (set_dst dstp stCalendar_Ini)).
Proof.
  unfold y2038Calendar, break_down, wall_seconds_2001.
  cbv beta zeta iota. reflexivity.
Qed.

(** Without a zone it is the break-down on the wall clock of the host. *)
Lemma y2038Calendar_local P e dstp :
  y2038Calendar P e None dstp
  = break_down
      (wall_seconds_2001 e
         (if Int.to_int8 (tm_isdst (localtime_s P (clock P))) >? 0
          then Int.to_int8 (localTimeZone P + 1) else localTimeZone P))
      (set_timeZone (localTimeZone P) (set_dst dstp stCalendar_Ini)).
Proof.
  unfold y2038Calendar, break_down, wall_seconds_2001.
  cbv beta zeta iota. reflexivity.
Qed.

(** One step of a break-down: the value is [q] periods and [r] seconds. *)
Lemma block_step q m r v :
  v = q * m + r ->
  0 < m <= 9223372036854775807 ->
  0 <= r < m ->
  -9223372036854775808 <= v <= 9223372036854775807 ->
  0 <= q \/ 0 < r ->
  unsignedModulo_i64 v m = Ok (q, r).
Proof. intros ->. apply unsignedModulo_i64_compose. Qed.

(** The break-down of the second [hh:mi:ss] of day [d] of month [mo] of the
    year [2001 + 400 k + 100 j + 4 i + h], given as seconds since 2001: the
    fields come out as they went in, unless the day is the 366th of its
    year. *)
Lemma break_down_fields t cal k j i h mo d hh mi ss tb dom :
  let Y := 2001 + 400 * k + 100 * j + 4 * i + h in
  -5000000 <= k <= 5000000 ->
  0 <= j <= 3 -> 0 <= i <= 24 -> 0 <= h <= 3 ->
  1 <= mo <= 12 ->
  table_at BibCpp_SECONDSTILLMONTH (leapIndex Y) (mo - 1) = Ok tb ->
  table_at DAYSOFMONTH (leapIndex Y) mo = Ok dom ->
  1 <= d <= dom ->
  tb / 86400 + d <= 365 ->
  0 <= hh <= 23 -> 0 <= mi <= 59 -> 0 <= ss <= 59 ->
  t = k * 12622780800 + j * 3155673600 + i * 126230400 + h * 31536000
      + tb + (d - 1) * 86400 + hh * 3600 + mi * 60 + ss ->
  0 <= k \/ 0 < t - k * 12622780800 ->
  exists c',
    break_down t cal = Ok c' /\
    year c' = Y /\ month c' = mo /\ day c' = d /\
    hour c' = hh /\ minute c' = mi /\ second c' = ss /\
    dst c' = dst cal /\ timeZone c' = timeZone cal /\
    dayInYear c' = tb / 86400 + d.
Proof.
  intros Y Hk Hj Hi Hh Hmo Htb Hdom Hd Hlast Hhh Hmi Hss Ht Hfloor.
  assert (Hil : leapIndex Y = 0 \/ leapIndex Y = 1)
    by (unfold leapIndex; destruct (isLeapYear Y); auto).
  destruct (month_tables _ _ _ _ Hil Hmo Htb Hdom) as (Htb0 & Htbm & Hdomb & Hend).
  pose proof (Z.div_mod tb 86400 ltac:(lia)) as Htbd. rewrite Htbm in Htbd.
  set (D := tb / 86400) in *.
  set (hms := hh * 3600 + mi * 60 + ss).
  set (B1 := tb + (d - 1) * 86400 + hms).
  set (B4 := h * 31536000 + B1).
  set (B100 := i * 126230400 + B4).
  set (B400 := j * 3155673600 + B100).
  assert (Hhms : 0 <= hms < 86400) by (subst hms; lia).
  assert (HB1 : 0 <= B1 < 31536000) by (subst B1; lia).
  assert (HB4 : 0 <= B4 < 126230400) by (subst B4; lia).
  assert (HB100 : 0 <= B100 < 3155673600) by (subst B100; lia).
  assert (HB400 : 0 <= B400 < 12622780800) by (subst B400; lia).
  assert (Ht' : t = k * 12622780800 + B400) by (subst B400 B100 B4 B1 hms; lia).
  (* the four year blocks *)
  assert (E400 : unsignedModulo_i64 t BibCpp_SECONDSPER400YEARS = Ok (k, B400)).
  { constants. apply block_step; lia. }
  assert (E100 : unsignedModulo_i64 (Int.to_int64 B400) BibCpp_SECONDSPER100YEARS
                 = Ok (j, B100)).
  { constants. rewrite to_int64_eq by lia. apply block_step; subst B400; lia. }
  assert (E4 : unsignedModulo_i64 (Int.to_int64 B100) BibCpp_SECONDSPER4YEARS
               = Ok (i, B4)).
  { constants. rewrite to_int64_eq by lia. apply block_step; subst B100; lia. }
  assert (E1 : unsignedModulo_i64 (Int.to_int64 B4) BibCpp_SECONDSPERNORMALYEAR
               = Ok (h, B1)).
  { constants. rewrite to_int64_eq by lia. apply block_step; subst B4; lia. }
  (* the year *)
  assert (EY : Int.to_int32
                 (Int.to_int32 (Int.to_int64 (k + 5)) * 400 + Int.to_int32 j * 100
                  + Int.to_int32 i * 4 + Int.to_int32 (Int.to_int64 (h + 1))) = Y).
  { rewrite (to_int64_eq (k + 5)), (to_int64_eq (h + 1)) by lia.
    rewrite (to_int32_eq (k + 5)), (to_int32_eq j), (to_int32_eq i),
      (to_int32_eq (h + 1)) by lia.
    rewrite to_int32_eq by lia. subst Y. lia. }
  (* the month and the day *)
  assert (EM : month_scan (leapIndex Y) B1 12 = Ok (mo - 1)).
  { apply (month_scan_finds _ _ tb dom); try assumption. subst B1. lia. }
  assert (EbM : Int.to_int64 (Int.to_uint64 (B1 - tb)) = (d - 1) * 86400 + hms).
  { replace (B1 - tb) with ((d - 1) * 86400 + hms) by (subst B1; lia).
    rewrite to_uint64_eq by lia. apply to_int64_eq. lia. }
  assert (ED : unsignedModulo_i64 ((d - 1) * 86400 + hms) BibCpp_SECONDSPERDAY
               = Ok (d - 1, hms)).
  { constants. apply block_step; lia. }
  assert (EH : unsignedModulo_i64 (Int.to_int64 hms) BibCpp_SECONDSPERHOUR
               = Ok (hh, mi * 60 + ss)).
  { constants. rewrite to_int64_eq by lia. apply block_step; subst hms; lia. }
  assert (EMi : unsignedModulo_i64 (Int.to_int64 (mi * 60 + ss)) BibCpp_SECONDSPERMINUTE
                = Ok (mi, ss)).
  { constants. rewrite to_int64_eq by lia. apply block_step; lia. }
  assert (EDy : unsignedModulo_i64 (Int.to_int64 B1) BibCpp_SECONDSPERDAY
                = Ok (D + d - 1, hms)).
  { constants. rewrite to_int64_eq by lia. apply block_step; subst B1; lia. }
  (* the week *)
  destruct (unsignedModulo_i64_remainder t BibCpp_SECONDSPERWEEK) as [dW EW].
  { constants. lia. }
  { lia. }
  destruct (unsignedModulo_i64_remainder
              (Int.to_int64 (t mod BibCpp_SECONDSPERWEEK)) BibCpp_SECONDSPERDAY)
    as [dw Edw].
  { constants. lia. }
  { constants. pose proof (Z.mod_pos_bound t 604800 ltac:(lia)).
    rewrite to_int64_eq by lia. lia. }
  unfold break_down.
  rewrite E400. cbn [bind]. cbv beta iota zeta.
  rewrite E100. cbn [bind]. cbv beta iota zeta.
  rewrite E4. cbn [bind]. cbv beta iota zeta.
  rewrite E1. cbn [bind]. cbv beta iota zeta.
  rewrite EY, EM. cbn [bind].
  rewrite Htb. cbn [bind].
  rewrite EbM, ED. cbn [bind]. cbv beta iota zeta.
  rewrite EH. cbn [bind]. cbv beta iota zeta.
  rewrite EMi. cbn [bind]. cbv beta iota zeta.
  rewrite EDy. cbn [bind]. cbv beta iota zeta.
  rewrite EW. cbn [bind]. cbv beta iota zeta.
  rewrite Edw. cbn [bind]. cbv beta iota zeta.
  eexists. split; [reflexivity|].
  cbn [year month day hour minute second dst timeZone dayInYear
       set_year set_month set_day set_hour set_minute set_second
       set_dayInYear set_calendarWeek set_dayInWeek].
  repeat split.
  - rewrite to_uint8_eq; lia.
  - rewrite to_uint8_eq; lia.
  - rewrite to_uint8_eq; lia.
  - rewrite to_uint8_eq; lia.
  - rewrite to_uint8_eq; lia.
  - rewrite (to_int64_eq (D + d - 1 + 1)) by lia. rewrite to_int16_eq; lia.
Qed.

(** [y2038Set] reads the date, the time, the zone and the DST flag only. *)
Lemma y2038Set_ext c c' :
  year c' = year c -> month c' = month c -> day c' = day c ->
  hour c' = hour c -> minute c' = minute c -> second c' = second c ->
  dst c' = dst c -> timeZone c' = timeZone c ->
  y2038Set c' = y2038Set c.
Proof.
  intros Hy Hmo Hd Hh Hmi Hs Hdst Hz. unfold y2038Set.
  rewrite Hy, Hmo, Hd, Hh, Hmi, Hs, Hdst, Hz. reflexivity.
Qed.

(** A 64-bit conversion inside a 32-bit one is invisible. *)
Lemma to_int32_drop_int64 a b :
  Int.to_int32 (Int.to_int64 a + b) = Int.to_int32 (a + b).
Proof.
  rewrite <- (to_int32_to_int64 (Int.to_int64 a + b)), to_int64_add_l.
  apply to_int32_to_int64.
Qed.

(** The value of [y2038Set] for the year [2001 + 400 k + 100 j + 4 i + h]:
    every intermediate 64-bit sum may wrap, the last conversion decides. *)
Lemma y2038Set_value c k j i h tb :
  year c = 2001 + 400 * k + 100 * j + 4 * i + h ->
  -5000000 <= k <= 5000000 -> 0 <= j <= 3 -> 0 <= i <= 24 -> 0 <= h <= 3 ->
  0 <= k \/ 0 < 100 * j + 4 * i + h ->
  table_at BibCpp_SECONDSTILLMONTH (leapIndex (year c)) (month c - 1) = Ok tb ->
  y2038Set c =
    Ok (Int.to_int32
          (k * 12622780800 + j * 3155673600 + i * 126230400 + h * 31536000
           + tb + (day c - 1) * 86400 + hour c * 3600 + minute c * 60 + second c
           - UTCdeviation c * 3600 + 978307200)).
Proof.
  intros HY Hk Hj Hi Hh Hfloor Htb.
  unfold y2038Set.
  assert (Ey : Int.to_int64 (Int.to_int32 (year c - 2001))
               = k * 400 + (j * 100 + (i * 4 + h))).
  { rewrite to_int32_eq by lia. rewrite to_int64_eq by lia. lia. }
  rewrite Ey, Htb.
  rewrite (unsignedModulo_i64_compose k 400 (j * 100 + (i * 4 + h))) by lia.
  cbn [bind]. cbv beta iota zeta.
  rewrite (to_int64_eq (j * 100 + (i * 4 + h))) by lia.
  rewrite (unsignedModulo_i64_compose j 100 (i * 4 + h)) by lia.
  cbn [bind]. cbv beta iota zeta.
  rewrite (to_int64_eq (i * 4 + h)) by lia.
  rewrite (unsignedModulo_i64_compose i 4 h) by lia.
  cbn [bind]. cbv beta iota zeta.
  unfold UTCdeviation. cbv zeta.
  rewrite to_int32_add_l, <- !Z.add_opp_r.
  repeat (rewrite <- ?Z.add_assoc; rewrite to_int32_drop_int64).
  constants. apply f_equal. apply f_equal. lia.
Qed.

(** The year as blocks of 400, 100, 4 and 1 years counted from 2001. *)
Lemma year_blocks Y :
  let y := Y - 2001 in
  let k := y / 400 in
  let j := (y mod 400) / 100 in
  let i := ((y mod 400) mod 100) / 4 in
  let h := ((y mod 400) mod 100) mod 4 in
  Y = 2001 + 400 * k + 100 * j + 4 * i + h /\
  0 <= j <= 3 /\ 0 <= i <= 24 /\ 0 <= h <= 3.
Proof. cbv zeta. Z.div_mod_to_equations. lia. Qed.

(** Seconds of a wall clock since 2001-01-01 00:00:00 in the 32-bit window
    around 2030 survive the way to epoch seconds and back. *)
Lemma wall_seconds_back T z :
  -2147483648 <= T - z * 3600 - 915148800 <= 2147483647 ->
  -128 <= z <= 127 ->
  wall_seconds_2001 (Int.to_int32 (T - z * 3600 + 978307200)) z = T.
Proof.
  intros HT Hz. unfold wall_seconds_2001. cbv zeta. constants.
  rewrite to_int32_idem, to_int32_sub_l.
  replace (T - z * 3600 + 978307200 - 1893456000)
    with (T - z * 3600 - 915148800) by lia.
  rewrite (to_int32_eq _ HT).
  rewrite (to_int64_eq (T - z * 3600 - 915148800)) by lia.
  rewrite (to_int64_eq (T - z * 3600 - 915148800 + 915148800)) by lia.
  rewrite to_int64_eq by lia. lia.
Qed.

(** From calendar fields to epoch seconds and back, for every date of the
    years 1962 to 2097 that is not the 366th day of its year. *)
Lemma calendar_round_trip P c tb dom :
  1962 <= year c <= 2097 -> 1 <= month c <= 12 ->
  table_at BibCpp_SECONDSTILLMONTH (leapIndex (year c)) (month c - 1) = Ok tb ->
  table_at DAYSOFMONTH (leapIndex (year c)) (month c) = Ok dom ->
  1 <= day c <= dom ->
  tb / 86400 + day c <= 365 ->
  0 <= hour c <= 23 -> 0 <= minute c <= 59 -> 0 <= second c <= 59 ->
  -12 <= timeZone c <= 12 -> dst c = 0 \/ dst c = -1 ->
  exists e c',
    y2038Set c = Ok e /\
    y2038Calendar P e (Some (timeZone c)) (dst c) = Ok c' /\
    year c' = year c /\ month c' = month c /\ day c' = day c /\
    hour c' = hour c /\ minute c' = minute c /\ second c' = second c /\
    dst c' = dst c /\ timeZone c' = timeZone c /\
    dayInYear c' = tb / 86400 + day c /\
    y2038Set c' = Ok e.
Proof.
  intros HY Hmo Htb Hdom Hd Hlast Hh Hmi Hs Hz Hdst.
  pose proof (year_blocks (year c)) as HB. cbv zeta in HB.
  destruct HB as (EY & Hj & Hi & Hh4).
  set (k := (year c - 2001) / 400) in *.
  set (j := ((year c - 2001) mod 400) / 100) in *.
  set (i := (((year c - 2001) mod 400) mod 100) / 4) in *.
  set (h := (((year c - 2001) mod 400) mod 100) mod 4) in *.
  assert (Hk : k = -1 \/ k = 0) by lia.
  assert (Hil : leapIndex (year c) = 0 \/ leapIndex (year c) = 1)
    by (unfold leapIndex; destruct (isLeapYear (year c)); auto).
  destruct (month_tables _ _ _ _ Hil Hmo Htb Hdom) as (Htb0 & Htbm & Hdomb & Hend).
  assert (Edev : UTCdeviation c = timeZone c).
  { unfold UTCdeviation. cbv zeta.
    destruct (Z.gtb_spec (dst c) 0); [lia|reflexivity]. }
  set (T := k * 12622780800 + j * 3155673600 + i * 126230400 + h * 31536000
            + tb + (day c - 1) * 86400 + hour c * 3600 + minute c * 60 + second c).
  assert (ESet : y2038Set c = Ok (Int.to_int32 (T - timeZone c * 3600 + 978307200))).
  { rewrite (y2038Set_value c k j i h tb); try assumption; try lia.
    rewrite Edev. reflexivity. }
  assert (HT : -2147483648 <= T - timeZone c * 3600 - 915148800 <= 2147483647).
  { subst T. destruct Hk as [Ek|Ek]; rewrite Ek in *; lia. }
  destruct (break_down_fields T
              (set_timeZone (timeZone c) (set_dst (dst c) stCalendar_Ini))
              k j i h (month c) (day c) (hour c) (minute c) (second c) tb dom)
    as (c' & Ebd & Fy & Fmo & Fd & Fh & Fmi & Fs & Fdst & Fz & Fdy);
    try assumption; try lia.
  { rewrite <- EY. assumption. }
  { rewrite <- EY. assumption. }
  exists (Int.to_int32 (T - timeZone c * 3600 + 978307200)), c'.
  split; [assumption|].
  assert (Ecal : y2038Calendar P (Int.to_int32 (T - timeZone c * 3600 + 978307200))
                   (Some (timeZone c)) (dst c) = Ok c').
  { rewrite y2038Calendar_explicit.
    destruct (Z.gtb_spec (dst c) 0); [lia|].
    rewrite wall_seconds_back by lia. assumption. }
  split; [assumption|].
  cbn [dst timeZone set_timeZone set_dst] in Fdst, Fz.
  rewrite <- EY in Fy.
  repeat (split; [assumption|]).
  rewrite (y2038Set_ext c c') by assumption. assumption.
Qed.

(** C7.  On every host, the converter asked for the UTC view (zone 0)
    yields for the epoch value 978307200 the date 2001-01-01 00:00:00 with
    dayInWeek 1 (Monday) and calendarWeek 1, and for 1695214956 the date
    2023-09-20 with dayInWeek 3 (Wednesday). *)
Theorem y2038Calendar_weekday_anchor (P : Platform) :
  (exists c, y2038Calendar P 978307200 (Some 0) (-1) = Ok c /\
     (year c, month c, day c, hour c, minute c, second c) = (2001, 1, 1, 0, 0, 0) /\
     dayInWeek c = 1 /\ calendarWeek c = 1) /\
  (exists c, y2038Calendar P 1695214956 (Some 0) (-1) = Ok c /\
     (year c, month c, day c) = (2023, 9, 20) /\
     dayInWeek c = 3).
Proof.
  split; eexists; (split; [vm_compute; reflexivity|]); repeat split.
Qed.

(** C2 (code defect).  The round trip does not hold on the code.  The
    epoch value 1104451200 (2004-12-31 00:00:00 UTC) is broken down to
    2005-01-01 00:00:00, and [y2038Set] takes that back to 1104537600, a day
    later; starting from the calendar 2004-12-31, [y2038Set] yields
    1104451200 and the way back yields 2005-01-01.  With zone +1 and
    daylight saving time the calendar of 1695214956 goes back to an epoch
    value two hours earlier. *)
Theorem y2038_round_trip_fails (P : Platform) :
  (exists c, y2038Calendar P 1104451200 (Some 0) (-1) = Ok c /\
     (year c, month c, day c, hour c, minute c, second c) = (2005, 1, 1, 0, 0, 0) /\
     y2038Set c = Ok 1104537600) /\
  (let c := mkCalendar 2004 12 31 0 0 0 (-1) 0 0 0 0 5 53 366 in
   y2038Set c = Ok 1104451200 /\
   exists c', y2038Calendar P 1104451200 (Some (timeZone c)) (dst c) = Ok c' /\
     (year c', month c', day c') = (2005, 1, 1)) /\
  (exists c, y2038Calendar P 1695214956 (Some 1) 1 = Ok c /\
     y2038Set c = Ok (1695214956 - 7200)).
Proof.
  split; [|split].
  - eexists. split; [vm_compute; reflexivity|]. split; reflexivity.
  - split; [reflexivity|]. eexists. split; [vm_compute; reflexivity|reflexivity].
  - eexists. split; [vm_compute; reflexivity|reflexivity].
Qed.

(** The native converter never assigns the calendar week. *)
Lemma calendar_calendarWeek (P : Platform) (t : Z) (req : zoneRequest) :
  calendarWeek (calendar P t req) = 0.
Proof.
  unfold calendar.
  destruct req as [requested|]; cbv beta iota zeta;
    repeat match goal with
      | |- context [if ?b then _ else _] => destruct b
      end;
    reflexivity.
Qed.

(** C5 (code defect).  The two converters do not produce the same fields:
    on every host, for every time value and zone request, the native
    converter leaves calendarWeek at 0, whereas the overflow-safe converter
    gives 2001-01-01 00:00:00 UTC the calendar week 1. *)
Theorem native_and_y2038_disagree (P : Platform) :
  (forall t req, calendarWeek (calendar P t req) = 0) /\
  (exists c, y2038Calendar P 978307200 (Some 0) (-1) = Ok c /\ calendarWeek c = 1).
Proof.
  split.
  - apply calendar_calendarWeek.
  - eexists. split; [vm_compute; reflexivity|reflexivity].
Qed.

(** C6 (amended).  For every leap year from 1962 to 2097, a calendar on
    29 February with a valid time, a zone between -12 and +12 and no
    daylight saving time is converted to epoch seconds and back to the same
    date, time, zone and DST flag (day 60 of the year), and the calendar
    that comes back converts to the same epoch seconds.  [y2038Set] does not
    validate: 29 February of a year that is not a leap year is converted all
    the same, to the epoch seconds of 1 March of that year.  The witness is
    2024-02-29 12:30:15 in zone +1 together with 2023-02-29. *)
Theorem february_29 (P : Platform) (c n : stCalendar) :
  isLeapYear (year c) = true -> 1962 <= year c <= 2097 ->
  month c = 2 -> day c = 29 ->
  0 <= hour c <= 23 -> 0 <= minute c <= 59 -> 0 <= second c <= 59 ->
  -12 <= timeZone c <= 12 -> dst c = 0 \/ dst c = -1 ->
  isLeapYear (year n) = false -> 1962 <= year n <= 2097 ->
  month n = 2 -> day n = 29 ->
  (exists e c',
     y2038Set c = Ok e /\
     y2038Calendar P e (Some (timeZone c)) (dst c) = Ok c' /\
     year c' = year c /\ month c' = 2 /\ day c' = 29 /\
     hour c' = hour c /\ minute c' = minute c /\ second c' = second c /\
     dst c' = dst c /\ timeZone c' = timeZone c /\ dayInYear c' = 60 /\
     y2038Set c' = Ok e) /\
  (exists e,
     y2038Set n = Ok e /\
     y2038Set (set_day 1 (set_month 3 n)) = Ok e).
Proof.
  intros Hleap HY Hmo Hd Hh Hmi Hs Hz Hdst Hnl HYn Hmon Hdn.
  split.
  - assert (Eil : leapIndex (year c) = 1) by (unfold leapIndex; rewrite Hleap; reflexivity).
    destruct (calendar_round_trip P c 2678400 29)
      as (e & c' & E1 & E2 & Fy & Fmo & Fd & Fh & Fmi & Fs & Fdst & Fz & Fdy & E3);
      try assumption; try lia.
    + rewrite Eil, Hmo. reflexivity.
    + rewrite Eil, Hmo. reflexivity.
    + rewrite Hd. vm_compute. discriminate.
    + exists e, c'. rewrite Hmo in Fmo. rewrite Hd in Fd, Fdy.
      repeat (split; [assumption|]). assumption.
  - assert (Eil : leapIndex (year n) = 0) by (unfold leapIndex; rewrite Hnl; reflexivity).
    pose proof (year_blocks (year n)) as HB. cbv zeta in HB.
    destruct HB as (EY & Hj & Hi & Hh4).
    set (k := (year n - 2001) / 400) in *.
    set (j := ((year n - 2001) mod 400) / 100) in *.
    set (i := (((year n - 2001) mod 400) mod 100) / 4) in *.
    set (h := (((year n - 2001) mod 400) mod 100) mod 4) in *.
    assert (Hk : k = -1 \/ k = 0) by lia.
    eexists. split.
    + apply (y2038Set_value n k j i h 2678400); try assumption; try lia.
      rewrite Eil, Hmon. reflexivity.
    + rewrite (y2038Set_value (set_day 1 (set_month 3 n)) k j i h 5097600);
        try assumption; try lia.
      * unfold UTCdeviation. cbn [year month day hour minute second dst timeZone
                                  set_day set_month].
        rewrite Hdn. apply f_equal. apply f_equal. lia.
      * cbn [year set_day set_month month]. rewrite Eil. reflexivity.
Qed.

Lemma february_29_witness :
  let c := mkCalendar 2024 2 29 12 30 15 0 1 0 0 0 0 0 0 in
  let n := mkCalendar 2023 2 29 0 0 0 (-1) 0 0 0 0 0 0 0 in
  (exists e c',
     y2038Set c = Ok e /\
     y2038Calendar idle_host e (Some (timeZone c)) (dst c) = Ok c' /\
     year c' = year c /\ month c' = 2 /\ day c' = 29 /\
     hour c' = hour c /\ minute c' = minute c /\ second c' = second c /\
     dst c' = dst c /\ timeZone c' = timeZone c /\ dayInYear c' = 60 /\
     y2038Set c' = Ok e) /\
  (exists e,
     y2038Set n = Ok e /\
     y2038Set (set_day 1 (set_month 3 n)) = Ok e).
Proof.
  cbv zeta.
  apply (february_29 idle_host
           (mkCalendar 2024 2 29 12 30 15 0 1 0 0 0 0 0 0)
           (mkCalendar 2023 2 29 0 0 0 (-1) 0 0 0 0 0 0 0));
    cbn [year month day hour minute second dst timeZone];
    try reflexivity; try lia.
Defined.

(** C6, the claim as stated fails: 2023-02-29 is not rejected, it is
    converted to the epoch value of 2023-03-01 00:00:00 UTC; and beyond the
    32-bit window around 2030 a leap day does not come back: 2104-02-29
    returns as 1968-01-22. *)
Lemma y2038Set_converts_2023_02_29 :
  y2038Set (mkCalendar 2023 2 29 0 0 0 (-1) 0 0 0 0 0 0 0) = Ok 1677628800 /\
  y2038Set (mkCalendar 2023 3 1 0 0 0 (-1) 0 0 0 0 0 0 0) = Ok 1677628800 /\
  (exists c', y2038Calendar idle_host 1677628800 (Some 0) (-1) = Ok c' /\
     (year c', month c', day c') = (2023, 3, 1)) /\
  (isLeapYear 2104 = true /\
   y2038Set (mkCalendar 2104 2 29 0 0 0 (-1) 0 0 0 0 0 0 0) = Ok (-61280896) /\
   exists c', y2038Calendar idle_host (-61280896) (Some 0) (-1) = Ok c' /\
     (year c', month c', day c') = (1968, 1, 22)).
Proof.
  split; [reflexivity|]. split; [reflexivity|]. split.
  - eexists. split; [vm_compute; reflexivity|reflexivity].
  - split; [reflexivity|]. split; [reflexivity|].
    eexists. split; [vm_compute; reflexivity|reflexivity].
Qed.

(** ** Moving a calendar to another zone *)

(** C10 (code defect).  The borrow across midnight does not keep the day
    within the month: for every calendar on the first day of a month that
    is moved west across midnight (hour plus zone difference below zero),
    [setTimeZone] leaves day 0 in the month it started in.  The witness is
    2023-03-01 00:30:00 in zone +1 moved to zone 0: 2023-03-00 23:30:00. *)
Theorem setTimeZone_borrow_leaves_day_zero (c : stCalendar) (destZone : Z) :
  day c = 1 -> 1 <= month c <= 12 -> 0 <= hour c <= 23 ->
  -12 <= timeZone c <= 12 -> 0 <= destZone <= 12 -> dst c <= 0 ->
  hour c + (destZone - timeZone c) < 0 ->
  exists c', setTimeZone c destZone = Ok c' /\
    day c' = 0 /\ month c' = month c /\ year c' = year c /\
    hour c' = hour c + (destZone - timeZone c) + 24.
Proof.
  intros Hd Hm Hh Hz Hdz Hdst Hneg.
  unfold setTimeZone.
  rewrite (to_int8_eq (destZone - timeZone c)) by lia.
  destruct (Z.gtb_spec (dst c) 0); [lia|].
  destruct (Z.gtb_spec (destZone - timeZone c) 0); [lia|].
  destruct (Z.ltb_spec (destZone - timeZone c) 0); [|lia].
  rewrite (to_int8_eq (hour c + (destZone - timeZone c))) by lia.
  destruct (Z.ltb_spec (hour c + (destZone - timeZone c)) 0); [|lia].
  cbn [set_hour day month].
  rewrite Hd. change (Int.to_int8 (1 - 1)) with 0. cbn [Z.ltb Z.compare bind].
  eexists. split; [reflexivity|].
  cbn [set_dst set_day set_hour day month year hour].
  repeat split. apply to_uint8_eq. lia.
Qed.

Lemma setTimeZone_borrow_leaves_day_zero_witness :
  exists c', setTimeZone (mkCalendar 2023 3 1 0 30 0 0 1 0 0 0 3 9 60) 0 = Ok c' /\
    day c' = 0 /\ month c' = 3 /\ year c' = 2023 /\
    hour c' = 0 + (0 - 1) + 24.
Proof.
  apply (setTimeZone_borrow_leaves_day_zero
           (mkCalendar 2023 3 1 0 30 0 0 1 0 0 0 3 9 60) 0);
    cbn [day month hour timeZone dst]; lia.
Defined.

(** ** Durations *)

(** The three divisions on a non-negative value. *)
Lemma duration_nonneg_value v :
  0 <= v <= 9223372036854775807 ->
  Int.to_uint64 (Z.quot v 86400) = v / 86400 /\
  Int.to_uint64 (Z.quot (Z.rem v 86400) 3600) = (v mod 86400) / 3600 /\
  Int.to_uint64 (Z.quot (Z.rem (Z.rem v 86400) 3600) 60)
    = ((v mod 86400) mod 3600) / 60 /\
  Int.to_uint64 (Z.rem (Z.rem (Z.rem v 86400) 3600) 60)
    = ((v mod 86400) mod 3600) mod 60.
Proof.
  intros Hv.
  rewrite (Z.rem_mod_nonneg v 86400) by lia.
  pose proof (Z.mod_pos_bound v 86400 ltac:(lia)).
  rewrite (Z.rem_mod_nonneg (v mod 86400) 3600) by lia.
  pose proof (Z.mod_pos_bound (v mod 86400) 3600 ltac:(lia)).
  rewrite (Z.rem_mod_nonneg ((v mod 86400) mod 3600) 60) by lia.
  pose proof (Z.mod_pos_bound ((v mod 86400) mod 3600) 60 ltac:(lia)).
  rewrite !Z.quot_div_nonneg by lia.
  repeat split; apply to_uint64_eq; Z.div_mod_to_equations; lia.
Qed.

Lemma duration_decomposition e :
  -9223372036854775808 < e <= 9223372036854775807 ->
  duration e =
    mkDuration (Z.abs e / 86400) ((Z.abs e mod 86400) / 3600)
               (((Z.abs e mod 86400) mod 3600) / 60)
               (((Z.abs e mod 86400) mod 3600) mod 60)
               (if e <? 0 then -1 else 1).
Proof.
  intros He. unfold duration.
  destruct (Z.ltb_spec e 0) as [Hneg|Hpos].
  - rewrite (to_int64_eq (- e)) by lia.
    destruct (duration_nonneg_value (- e) ltac:(lia)) as (-> & -> & -> & ->).
    rewrite (Z.abs_neq e) by lia. reflexivity.
  - destruct (duration_nonneg_value e ltac:(lia)) as (-> & -> & -> & ->).
    rewrite (Z.abs_eq e) by lia. reflexivity.
Qed.

Lemma recompose v :
  v / 86400 * 86400 + (v mod 86400) / 3600 * 3600
  + ((v mod 86400) mod 3600) / 60 * 60 + ((v mod 86400) mod 3600) mod 60 = v.
Proof. Z.div_mod_to_equations. lia. Qed.

(** C8 (amended).  For every epoch-seconds value [e] other than the least
    64-bit value, [duration] decomposes [|e|] by floor division by 86400,
    3600 and 60 with the last remainder as seconds, the sign is -1 for a
    negative [e] and +1 otherwise, [sign * (days * 86400 + hours * 3600 +
    minutes * 60 + seconds) = e], and [cTime::set] of that duration is [e];
    the delta of 95 days, 0 hours, 42 minutes and 22 seconds is formatted as
    D95#00:42:22, and that string is parsed and recomposed to the delta. *)
Theorem duration_set_round_trip (P : Platform) (e : Z) :
  -9223372036854775808 < e <= 9223372036854775807 ->
  let d := duration e in
  (days d = Z.abs e / 86400 /\
   hours d = (Z.abs e mod 86400) / 3600 /\
   minutes d = ((Z.abs e mod 86400) mod 3600) / 60 /\
   seconds d = ((Z.abs e mod 86400) mod 3600) mod 60 /\
   sign d = (if e <? 0 then -1 else 1)) /\
  sign d * (days d * 86400 + hours d * 3600 + minutes d * 60 + seconds d) = e /\
  set_duration d = e /\
  (duration (95 * 86400 + 0 * 3600 + 42 * 60 + 22) = mkDuration 95 0 42 22 1 /\
   toDurationString (95 * 86400 + 0 * 3600 + 42 * 60 + 22)
     = Ok "D95#00:42:22"%string /\
   fromDurationString "D95#00:42:22" = mkDuration 95 0 42 22 1 /\
   set_string P "D95#00:42:22" = Ok (95 * 86400 + 0 * 3600 + 42 * 60 + 22)).
Proof.
  intros He d. subst d. rewrite (duration_decomposition e He).
  cbn [days hours minutes seconds sign].
  pose proof (recompose (Z.abs e)) as Hsum.
  split; [repeat split|]. split; [|split].
  - rewrite Hsum. destruct (Z.ltb_spec e 0); lia.
  - unfold set_duration, set_time. cbn [days hours minutes seconds sign].
    rewrite Hsum.
    rewrite (to_uint64_eq (Z.abs e)) by lia.
    rewrite (to_int64_eq (Z.abs e)) by lia.
    destruct (Z.ltb_spec e 0).
    + cbn [Z.ltb Z.compare]. rewrite to_int64_eq by lia. lia.
    + cbn [Z.ltb Z.compare]. lia.
  - repeat split; vm_compute; reflexivity.
Qed.

Lemma duration_set_round_trip_witness :
  let d := duration (-8210542) in
  (days d = Z.abs (-8210542) / 86400 /\
   hours d = (Z.abs (-8210542) mod 86400) / 3600 /\
   minutes d = ((Z.abs (-8210542) mod 86400) mod 3600) / 60 /\
   seconds d = ((Z.abs (-8210542) mod 86400) mod 3600) mod 60 /\
   sign d = (if -8210542 <? 0 then -1 else 1)) /\
  sign d * (days d * 86400 + hours d * 3600 + minutes d * 60 + seconds d) = -8210542 /\
  set_duration d = -8210542 /\
  (duration (95 * 86400 + 0 * 3600 + 42 * 60 + 22) = mkDuration 95 0 42 22 1 /\
   toDurationString (95 * 86400 + 0 * 3600 + 42 * 60 + 22)
     = Ok "D95#00:42:22"%string /\
   fromDurationString "D95#00:42:22" = mkDuration 95 0 42 22 1 /\
   set_string idle_host "D95#00:42:22" = Ok (95 * 86400 + 0 * 3600 + 42 * 60 + 22)).
Proof.
  apply (duration_set_round_trip idle_host (-8210542)). lia.
Defined.

(** C8, the value the claim as stated overlooks: the least 64-bit value is
    its own negation, the magnitudes come out of a negative value, and the
    recomposition in the integers is not [e]. *)
Lemma duration_of_least_time :
  let e := -9223372036854775808 in
  let d := duration e in
  d = mkDuration 18446637321718384316 18446744073709551601
                 18446744073709551586 18446744073709551608 (-1) /\
  days d <> Z.abs e / 86400 /\
  sign d * (days d * 86400 + hours d * 3600 + minutes d * 60 + seconds d) <> e.
Proof.
  cbv zeta. split; [vm_compute; reflexivity|].
  split; vm_compute; discriminate.
Qed.

(** ** The textual codec *)

(** The token compared as a C string is the token compared as a string. *)
Lemma strcmp_eq_token a b c (lit : string) :
  lit = "DST"%string \/ lit = "STD"%string ->
  Text.strcmp_eq (String a (String b (String c (String Text.NUL EmptyString)))) lit
  = String.eqb (String a (String b (String c EmptyString))) lit.
Proof.
  intros Hlit. unfold Text.strcmp_eq.
  assert (El : Text.c_string lit = lit) by (destruct Hlit; subst; reflexivity).
  rewrite El. cbn [Text.c_string].
  destruct (Ascii.eqb_spec a Text.NUL) as [->|_].
  { destruct Hlit; subst; reflexivity. }
  destruct (Ascii.eqb_spec b Text.NUL) as [->|_].
  { destruct Hlit; subst; cbn;
      repeat match goal with
        | |- context [Ascii.eqb a ?x] => destruct (Ascii.eqb a x)
        end; reflexivity. }
  destruct (Ascii.eqb_spec c Text.NUL) as [->|_].
  { destruct Hlit; subst; cbn;
      repeat match goal with
        | |- context [Ascii.eqb a ?x] => destruct (Ascii.eqb a x)
        | |- context [Ascii.eqb b ?x] => destruct (Ascii.eqb b x)
        end; reflexivity. }
  reflexivity.
Qed.

Lemma char_at_get s i c : String.get i s = Some c -> Text.char_at s i = Ok c.
Proof. unfold Text.char_at. intros ->. reflexivity. Qed.

(** C3 (amended).  For every calendar string that does not start with 'D'
    and is long enough to hold the token at positions 20 to 22, [fromString]
    returns a calendar: the token "DST" gives dst = 1, the token "UTC" gives
    dst = -1, and every token other than "DST" and "STD" gives dst = -1 as
    well; no token makes the parse fail. *)
Theorem fromString_dst_token (dateString token : string) :
  Text.first_char dateString <> "D"%char ->
  dst_token dateString = Some token ->
  exists c, fromString dateString = Ok c /\
    (token = "DST"%string -> dst c = 1) /\
    (token = "UTC"%string -> dst c = -1) /\
    (token <> "DST"%string -> token <> "STD"%string -> dst c = -1).
Proof.
  intros HD Htok. unfold dst_token in Htok.
  destruct (String.get 20 dateString) as [a|] eqn:Ea; [|discriminate].
  destruct (String.get 21 dateString) as [b|] eqn:Eb; [|discriminate].
  destruct (String.get 22 dateString) as [c|] eqn:Ec; [|discriminate].
  injection Htok as <-.
  unfold fromString.
  destruct (Ascii.eqb_spec (Text.first_char dateString) "D") as [E|_];
    [contradiction|].
  cbv zeta.
  rewrite (char_at_get _ _ _ Ea), (char_at_get _ _ _ Eb), (char_at_get _ _ _ Ec).
  cbn [bind].
  rewrite !strcmp_eq_token by auto.
  eexists. split; [reflexivity|].
  cbn [dst set_dst set_year set_month set_day set_hour set_minute set_second
       set_timeZone].
  destruct (String.eqb_spec (String a (String b (String c EmptyString))) "DST")
    as [E|NE].
  - repeat split; intros; try reflexivity; congruence.
  - repeat split; intros; try reflexivity; congruence.
Qed.

Lemma fromString_dst_token_witness :
  exists c, fromString "2023-09-20#17:17:38#DST#+01:00" = Ok c /\
    ("DST"%string = "DST"%string -> dst c = 1) /\
    ("DST"%string = "UTC"%string -> dst c = -1) /\
    ("DST"%string <> "DST"%string -> "DST"%string <> "STD"%string -> dst c = -1).
Proof.
  apply (fromString_dst_token "2023-09-20#17:17:38#DST#+01:00" "DST").
  - vm_compute. discriminate.
  - reflexivity.
Defined.

(** C3, the claim as stated fails: the token "XYZ" is no parse error, the
    string is read exactly like the one with the token "UTC". *)
Lemma fromString_accepts_unknown_token :
  fromString "2023-09-20#17:17:38#XYZ#+01:00"
    = Ok (mkCalendar 2023 9 20 17 17 38 (-1) 1 (-1) 0 0 0 0 0) /\
  fromString "2023-09-20#17:17:38#XYZ#+01:00"
    = fromString "2023-09-20#17:17:38#UTC#+01:00".
Proof. split; vm_compute; reflexivity. Qed.

(** The second comparison overwrites what the first one stored. *)
Example fromString_STD :
  exists c, fromString "2023-09-20#17:17:38#STD#+01:00" = Ok c /\ dst c = -1.
Proof. eexists. split; [vm_compute; reflexivity|reflexivity]. Qed.

(** C4 (amended).  A string starting with 'D' given to the calendar parser
    returns [stCalendar_Invalid] in the reworked library (every field the
    sentinel of its type, the zone minutes and the picoseconds 0) and the
    initial calendar [stCalendar_Ini] in the first version; a string not
    starting with 'D' given to the duration parser returns [stDuration_Ini],
    the zero duration with sign +1, which [cTime::set] turns into the time
    value 0.  Nothing is thrown. *)
Theorem parse_of_wrong_kind (L : LibCppTime.LibOb)
    (dateString format durationString : string) :
  Text.first_char dateString = "D"%char ->
  Text.first_char durationString <> "D"%char ->
  LibCppTime.fromString L dateString format = LibCppTime.stCalendar_Invalid L /\
  fromString dateString = Ok stCalendar_Ini /\
  fromDurationString durationString = stDuration_Ini /\
  LibCppTime.fromDurationString durationString = stDuration_Ini /\
  set_duration (fromDurationString durationString) = 0.
Proof.
  intros HD HnD.
  unfold LibCppTime.fromString, fromString. rewrite HD.
  split; [reflexivity|]. split; [reflexivity|].
  unfold LibCppTime.fromDurationString, fromDurationString.
  destruct (Ascii.eqb_spec (Text.first_char durationString) "D") as [E|_];
    [contradiction|].
  repeat split.
Qed.

Lemma parse_of_wrong_kind_witness :
  LibCppTime.fromString sample_LibOb "D95#00:42:22" ""
    = LibCppTime.stCalendar_Invalid sample_LibOb /\
  fromString "D95#00:42:22" = Ok stCalendar_Ini /\
  fromDurationString "2023-09-20#17:17:38#DST#+01:00" = stDuration_Ini /\
  LibCppTime.fromDurationString "2023-09-20#17:17:38#DST#+01:00" = stDuration_Ini /\
  set_duration (fromDurationString "2023-09-20#17:17:38#DST#+01:00") = 0.
Proof.
  apply (parse_of_wrong_kind sample_LibOb "D95#00:42:22" ""
           "2023-09-20#17:17:38#DST#+01:00").
  - reflexivity.
  - vm_compute. discriminate.
Defined.

(** C4, the claim as stated fails: a calendar string given to the duration
    parser comes back as the zero duration, sign +1, that is the time
    value 0, and a duration string given to the first version of the
    calendar parser comes back as the initial calendar. *)
Lemma fromDurationString_returns_zero_duration :
  fromDurationString "2023-09-20#17:17:38#DST#+01:00" = mkDuration 0 0 0 0 1 /\
  set_duration (fromDurationString "2023-09-20#17:17:38#DST#+01:00") = 0 /\
  fromString "D95#00:42:22" = Ok (mkCalendar 0 0 0 0 0 0 0 0 (-1) 0 0 0 0 0).
Proof. repeat split. Qed.

(** * Further properties of the code *)

(** ** The block division and the overflow-safe converter *)

(** The floor modulo at every width: signed [T] and unsigned [uT] of
    [bits] bits, operands promoted to [int] where [T] is narrower. *)
Lemma unsignedModulo_value bits v m :
  0 < bits ->
  0 < m <= Int.max_signed bits ->
  Int.min_signed bits < v <= Int.max_signed bits ->
  unsignedModulo bits v m
  = Ok (if (v <? 0) && (v mod m =? 0) then v / m - 1 else v / m, v mod m).
Proof.
  unfold Int.max_signed, Int.min_signed. intros Hb Hm Hv.
  assert (HP : 0 < 2 ^ (bits - 1)) by (apply Z.pow_pos_nonneg; lia).
  assert (HP2 : 2 ^ (bits - 1) <= 2 ^ (Z.max bits Int.int_bits - 1))
    by (apply Z.pow_le_mono_r; unfold Int.int_bits; lia).
  assert (H2 : 2 ^ bits = 2 * 2 ^ (bits - 1)).
  { replace bits with (Z.succ (bits - 1)) at 1 by lia.
    rewrite Z.pow_succ_r by lia. reflexivity. }
  set (P := 2 ^ (bits - 1)) in *.
  assert (Wr : forall x, - P <= x <= P - 1 -> Int.wrap bits x = x).
  { intros x Hx. apply wrap_eq; [lia|].
    unfold Int.in_signed, Int.min_signed, Int.max_signed. fold P. lia. }
  assert (Uw : forall x, 0 <= x <= P - 1 -> Int.uwrap bits x = x).
  { intros x Hx. apply uwrap_eq.
    unfold Int.in_unsigned, Int.max_unsigned. rewrite H2. lia. }
  assert (Sg : forall x, - P <= x <= P - 1 ->
                 Int.in_signedb (Z.max bits Int.int_bits) x = true).
  { intros x Hx. apply in_signedb_true.
    unfold Int.in_signed, Int.min_signed, Int.max_signed. lia. }
  clearbody P. clear H2 HP2.
  unfold unsignedModulo.
  destruct (Z.eqb_spec m 0) as [->|_]; [lia|].
  rewrite (Wr m) by lia.
  unfold Int.div, Int.rem.
  destruct (Z.eqb_spec m 0) as [->|_]; [lia|].
  pose proof (Z.mod_pos_bound v m ltac:(lia)) as Hmod.
  pose proof (Z.div_mod v m ltac:(lia)) as Hdm.
  pose proof (Z.quot_rem' v m) as Hqr.
  destruct (Z_le_gt_dec 0 v) as [Hpos|Hneg].
  - (* a value that is not negative: truncation and floor agree *)
    rewrite Z.quot_div_nonneg, Z.rem_mod_nonneg by lia.
    pose proof (Z.div_pos v m ltac:(lia) ltac:(lia)) as Hd0.
    assert (Hdu : v / m <= v) by (apply Z.div_le_upper_bound; nia).
    rewrite (Sg (v / m)) by lia. cbn [bind].
    rewrite (Wr (v / m)), (Wr (v mod m)) by lia.
    destruct (Z.ltb_spec (v / m) 0); [lia|].
    destruct (Z.ltb_spec (v mod m) 0); [lia|].
    rewrite andb_false_r.
    destruct (Z.ltb_spec v 0); [lia|]. cbn [andb].
    rewrite (Uw (v mod m)) by lia. reflexivity.
  - destruct (Z.ltb_spec v 0) as [_|]; [|lia]. cbn [andb].
    assert (Hdl : v <= v / m < 0) by nia.
    destruct (Z.eqb_spec (v mod m) 0) as [Hz|Hnz].
    + (* a negative multiple of the modulo *)
      rewrite Hz in Hdm.
      assert (Eq : Z.quot v m = v / m).
      { rewrite Hdm at 1. rewrite Z.add_0_r, Z.mul_comm. apply Z.quot_mul. lia. }
      assert (Er : Z.rem v m = 0).
      { apply Z.rem_divide; [lia|]. apply Z.mod_divide; [lia|assumption]. }
      rewrite Eq, Er, (Sg (v / m)) by lia. cbn [bind].
      rewrite (Wr (v / m)), (Wr 0) by lia.
      destruct (Z.ltb_spec (v / m) 0); [|lia].
      cbn [Z.ltb Z.compare].
      rewrite (Wr (v / m - 1)) by lia.
      destruct (Z.eqb_spec (v / m - 1) 0); [lia|]. cbn [andb].
      rewrite (Uw 0) by lia. rewrite Hz. reflexivity.
    + (* a negative value that is no multiple *)
      assert (Hrb : - m < Z.rem v m <= 0).
      { pose proof (Z.rem_bound_pos (- v) m ltac:(lia) ltac:(lia)) as Hb'.
        rewrite Z.rem_opp_l in Hb' by lia. lia. }
      assert (Hrel : Z.quot v m = v / m + 1 /\ Z.rem v m = v mod m - m).
      { assert (Z.rem v m <> 0).
        { intros E. apply Hnz. apply Z.rem_divide in E; [|lia].
          apply Z.mod_divide; [lia|assumption]. }
        assert (m * (Z.quot v m - v / m - 1) = v mod m - m - Z.rem v m) by lia.
        assert (Z.quot v m - v / m - 1 = 0) by nia.
        lia. }
      destruct Hrel as [Eq Er]. rewrite Eq, Er.
      rewrite (Sg (v / m + 1)) by lia. cbn [bind].
      rewrite (Wr (v / m + 1)), (Wr (v mod m - m)) by lia.
      destruct (Z.ltb_spec (v / m + 1) 0) as [Hlt|Hge].
      * destruct (Z.ltb_spec (v mod m - m) 0); [|lia].
        replace (v / m + 1 - 1) with (v / m) by lia.
        replace (v mod m - m + m) with (v mod m) by lia.
        rewrite (Wr (v / m)), (Wr (v mod m)) by lia.
        destruct (Z.eqb_spec (v / m) 0); [lia|]. cbn [andb].
        rewrite (Uw (v mod m)) by lia. reflexivity.
      * assert (E0 : v / m + 1 = 0) by lia.
        rewrite E0. cbn [Z.eqb andb].
        destruct (Z.ltb_spec (v mod m - m) 0); [|lia].
        replace (v mod m - m + m) with (v mod m) by lia.
        rewrite (Wr (0 - 1)), (Wr (v mod m)) by lia.
        rewrite (Uw (v mod m)) by lia.
        f_equal. f_equal. lia.
Qed.

(** X1.  At every width (the instantiations for 8, 16, 32 and 64 bit), for a
    modulo between 1 and the greatest value of the signed type and every
    value other than the least one, [unsignedModulo] returns; the remainder
    is the one of the floor division ([0 <= remainder < modulo]); the
    divisor is the floor quotient, with [value = divisor * modulo +
    remainder], unless the value is a negative exact multiple of the
    modulo, where the divisor is one less than the floor quotient. *)
Theorem unsignedModulo_characterised (bits v m : Z) :
  0 < bits ->
  0 < m <= Int.max_signed bits ->
  Int.min_signed bits < v <= Int.max_signed bits ->
  exists divisor remainder,
    unsignedModulo bits v m = Ok (divisor, remainder) /\
    remainder = v mod m /\ 0 <= remainder < m /\
    (0 <= v \/ remainder <> 0 ->
       divisor = v / m /\ v = divisor * m + remainder) /\
    (v < 0 -> remainder = 0 -> divisor = v / m - 1).
Proof.
  intros Hb Hm Hv.
  rewrite (unsignedModulo_value bits v m Hb Hm Hv).
  pose proof (Z.mod_pos_bound v m ltac:(lia)) as Hmod.
  pose proof (Z.div_mod v m ltac:(lia)) as Hdm.
  eexists. eexists. split; [reflexivity|].
  split; [reflexivity|]. split; [assumption|]. split.
  - intros Hfloor.
    destruct (Z.ltb_spec v 0) as [Hneg|Hpos];
      destruct (Z.eqb_spec (v mod m) 0) as [Hz|Hnz]; cbn [andb]; lia.
  - intros Hneg Hz.
    destruct (Z.ltb_spec v 0) as [_|]; [|lia].
    destruct (Z.eqb_spec (v mod m) 0) as [_|]; [|lia]. reflexivity.
Qed.

Lemma unsignedModulo_characterised_witness :
  exists divisor remainder,
    unsignedModulo_i8 (-100) 7 = Ok (divisor, remainder) /\
    remainder = -100 mod 7 /\ 0 <= remainder < 7 /\
    (0 <= -100 \/ remainder <> 0 ->
       divisor = -100 / 7 /\ -100 = divisor * 7 + remainder) /\
    (-100 < 0 -> remainder = 0 -> divisor = -100 / 7 - 1).
Proof.
  apply (unsignedModulo_characterised 8 (-100) 7); vm_compute;
    intuition discriminate.
Defined.

(** Every second of a year lies in one month of the tables. *)
Lemma month_of_block il b :
  il = 0 \/ il = 1 -> 0 <= b < 31536000 ->
  exists mo tb dom,
    1 <= mo <= 12 /\
    table_at BibCpp_SECONDSTILLMONTH il (mo - 1) = Ok tb /\
    table_at DAYSOFMONTH il mo = Ok dom /\
    tb <= b < tb + dom * 86400.
Proof.
  intros Hil Hb. destruct Hil; subst il.
  - assert (C : b < 2678400 \/ 2678400 <= b < 5097600 \/ 5097600 <= b < 7776000 \/
                7776000 <= b < 10368000 \/ 10368000 <= b < 13046400 \/
                13046400 <= b < 15638400 \/ 15638400 <= b < 18316800 \/
                18316800 <= b < 20995200 \/ 20995200 <= b < 23587200 \/
                23587200 <= b < 26265600 \/ 26265600 <= b < 28857600 \/
                28857600 <= b) by lia.
    destruct C as [C|[C|[C|[C|[C|[C|[C|[C|[C|[C|[C|C]]]]]]]]]]].
    + exists 1, 0, 31. repeat split; try reflexivity; lia.
    + exists 2, 2678400, 28. repeat split; try reflexivity; lia.
    + exists 3, 5097600, 31. repeat split; try reflexivity; lia.
    + exists 4, 7776000, 30. repeat split; try reflexivity; lia.
    + exists 5, 10368000, 31. repeat split; try reflexivity; lia.
    + exists 6, 13046400, 30. repeat split; try reflexivity; lia.
    + exists 7, 15638400, 31. repeat split; try reflexivity; lia.
    + exists 8, 18316800, 31. repeat split; try reflexivity; lia.
    + exists 9, 20995200, 30. repeat split; try reflexivity; lia.
    + exists 10, 23587200, 31. repeat split; try reflexivity; lia.
    + exists 11, 26265600, 30. repeat split; try reflexivity; lia.
    + exists 12, 28857600, 31. repeat split; try reflexivity; lia.
  - assert (C : b < 2678400 \/ 2678400 <= b < 5184000 \/ 5184000 <= b < 7862400 \/
                7862400 <= b < 10454400 \/ 10454400 <= b < 13132800 \/
                13132800 <= b < 15724800 \/ 15724800 <= b < 18403200 \/
                18403200 <= b < 21081600 \/ 21081600 <= b < 23673600 \/
                23673600 <= b < 26352000 \/ 26352000 <= b < 28944000 \/
                28944000 <= b) by lia.
    destruct C as [C|[C|[C|[C|[C|[C|[C|[C|[C|[C|[C|C]]]]]]]]]]].
    + exists 1, 0, 31. repeat split; try reflexivity; lia.
    + exists 2, 2678400, 29. repeat split; try reflexivity; lia.
    + exists 3, 5184000, 31. repeat split; try reflexivity; lia.
    + exists 4, 7862400, 30. repeat split; try reflexivity; lia.
    + exists 5, 10454400, 31. repeat split; try reflexivity; lia.
    + exists 6, 13132800, 30. repeat split; try reflexivity; lia.
    + exists 7, 15724800, 31. repeat split; try reflexivity; lia.
    + exists 8, 18403200, 31. repeat split; try reflexivity; lia.
    + exists 9, 21081600, 30. repeat split; try reflexivity; lia.
    + exists 10, 23673600, 31. repeat split; try reflexivity; lia.
    + exists 11, 26352000, 30. repeat split; try reflexivity; lia.
    + exists 12, 28944000, 31. repeat split; try reflexivity; lia.
Qed.

(** What the break-down computes from a wall-clock second [T] of the 400
    years before or after 2001, block by block, whatever the day. *)
Lemma break_down_any T cal :
  -12622780800 < T < 12622780800 ->
  let b400 := T mod 12622780800 in
  let b100 := b400 mod 3155673600 in
  let b4 := b100 mod 126230400 in
  let b1 := b4 mod 31536000 in
  exists c mo tb dom,
    break_down T cal = Ok c /\
    year c = 2001 + 400 * (T / 12622780800) + 100 * (b400 / 3155673600)
             + 4 * (b100 / 126230400) + b4 / 31536000 /\
    1 <= mo <= 12 /\
    table_at BibCpp_SECONDSTILLMONTH (leapIndex (year c)) (mo - 1) = Ok tb /\
    table_at DAYSOFMONTH (leapIndex (year c)) mo = Ok dom /\
    tb <= b1 < tb + dom * 86400 /\
    month c = mo /\
    day c = (b1 - tb) / 86400 + 1 /\
    hour c = ((b1 - tb) mod 86400) / 3600 /\
    minute c = (((b1 - tb) mod 86400) mod 3600) / 60 /\
    second c = (((b1 - tb) mod 86400) mod 3600) mod 60 /\
    dayInYear c = b1 / 86400 + 1 /\
    dayInWeek c = (T mod 604800) / 86400 + 1 /\
    dst c = dst cal /\ timeZone c = timeZone cal /\
    calendarWeek c
    = Int.to_int8
        (Int.to_uint8
           ((if (T <? 0) && (T mod 604800 =? 0)
             then T / 604800 - 1 else T / 604800)
            - Z.quot ((T / 12622780800) * 146097 + (b400 / 3155673600) * 36524
                      + (b100 / 126230400) * 1461 + (b4 / 31536000) * 365) 7
            + 1)).
Proof.
  intros HT b400 b100 b4 b1.
  pose proof (Z.mod_pos_bound T 12622780800 ltac:(lia)) as H400.
  pose proof (Z.mod_pos_bound b400 3155673600 ltac:(lia)) as H100.
  pose proof (Z.mod_pos_bound b100 126230400 ltac:(lia)) as H4.
  pose proof (Z.mod_pos_bound b4 31536000 ltac:(lia)) as H1.
  fold b400 in H400. fold b100 in H100. fold b4 in H4. fold b1 in H1.
  set (k := T / 12622780800).
  set (j := b400 / 3155673600).
  set (i := b100 / 126230400).
  set (h := b4 / 31536000).
  assert (Hk : -1 <= k <= 0) by (subst k; Z.div_mod_to_equations; lia).
  assert (Hj : 0 <= j <= 4) by (subst j; Z.div_mod_to_equations; lia).
  assert (Hi : 0 <= i <= 24) by (subst i; Z.div_mod_to_equations; lia).
  assert (Hh : 0 <= h <= 4) by (subst h; Z.div_mod_to_equations; lia).
  set (Y := 2001 + 400 * k + 100 * j + 4 * i + h).
  assert (Hil : leapIndex Y = 0 \/ leapIndex Y = 1)
    by (unfold leapIndex; destruct (isLeapYear Y); auto).
  destruct (month_of_block (leapIndex Y) b1 Hil H1) as (mo & tb & dom & Hmo & Htb & Hdom & Hb).
  destruct (month_tables _ _ _ _ Hil Hmo Htb Hdom) as (Htb0 & Htbm & Hdomb & Hend).
  set (bM := b1 - tb) in *.
  assert (HbM : 0 <= bM < 2678400) by (subst bM; lia).
  pose proof (Z.mod_pos_bound bM 86400 ltac:(lia)) as HbD.
  pose proof (Z.mod_pos_bound (bM mod 86400) 3600 ltac:(lia)) as HbH.
  pose proof (Z.mod_pos_bound T 604800 ltac:(lia)) as HbW.
  assert (E400 : unsignedModulo_i64 T BibCpp_SECONDSPER400YEARS = Ok (k, b400)).
  { constants. apply unsignedModulo_i64_floor; try lia.
    fold b400. destruct (Z_le_gt_dec 0 T); [left; lia|right].
    subst b400. Z.div_mod_to_equations. lia. }
  assert (E100 : unsignedModulo_i64 (Int.to_int64 b400) BibCpp_SECONDSPER100YEARS
                 = Ok (j, b100)).
  { constants. rewrite to_int64_eq by lia. apply unsignedModulo_i64_floor; lia. }
  assert (E4 : unsignedModulo_i64 (Int.to_int64 b100) BibCpp_SECONDSPER4YEARS
               = Ok (i, b4)).
  { constants. rewrite to_int64_eq by lia. apply unsignedModulo_i64_floor; lia. }
  assert (E1 : unsignedModulo_i64 (Int.to_int64 b4) BibCpp_SECONDSPERNORMALYEAR
               = Ok (h, b1)).
  { constants. rewrite to_int64_eq by lia. apply unsignedModulo_i64_floor; lia. }
  assert (EY : Int.to_int32
                 (Int.to_int32 (Int.to_int64 (k + 5)) * 400 + Int.to_int32 j * 100
                  + Int.to_int32 i * 4 + Int.to_int32 (Int.to_int64 (h + 1))) = Y).
  { rewrite (to_int64_eq (k + 5)), (to_int64_eq (h + 1)) by lia.
    rewrite (to_int32_eq (k + 5)), (to_int32_eq j), (to_int32_eq i),
      (to_int32_eq (h + 1)) by lia.
    rewrite to_int32_eq by lia. subst Y. lia. }
  assert (EM : month_scan (leapIndex Y) b1 12 = Ok (mo - 1))
    by (apply (month_scan_finds _ _ tb dom); assumption).
  assert (EbM : Int.to_int64 (Int.to_uint64 (b1 - tb)) = bM).
  { fold bM. rewrite to_uint64_eq by lia. apply to_int64_eq. lia. }
  assert (ED : unsignedModulo_i64 bM BibCpp_SECONDSPERDAY
               = Ok (bM / 86400, bM mod 86400)).
  { constants. apply unsignedModulo_i64_floor; lia. }
  assert (EH : unsignedModulo_i64 (Int.to_int64 (bM mod 86400)) BibCpp_SECONDSPERHOUR
               = Ok ((bM mod 86400) / 3600, (bM mod 86400) mod 3600)).
  { constants. rewrite to_int64_eq by lia. apply unsignedModulo_i64_floor; lia. }
  assert (EMi : unsignedModulo_i64 (Int.to_int64 ((bM mod 86400) mod 3600))
                  BibCpp_SECONDSPERMINUTE
                = Ok (((bM mod 86400) mod 3600) / 60, ((bM mod 86400) mod 3600) mod 60)).
  { constants. rewrite to_int64_eq by lia. apply unsignedModulo_i64_floor; lia. }
  assert (EDy : unsignedModulo_i64 (Int.to_int64 b1) BibCpp_SECONDSPERDAY
                = Ok (b1 / 86400, b1 mod 86400)).
  { constants. rewrite to_int64_eq by lia. apply unsignedModulo_i64_floor; lia. }
  assert (EW : unsignedModulo_i64 T BibCpp_SECONDSPERWEEK
               = Ok (if (T <? 0) && (T mod 604800 =? 0)
                     then T / 604800 - 1 else T / 604800, T mod 604800)).
  { constants. apply (unsignedModulo_value 64); [lia| |];
      unfold Int.max_signed, Int.min_signed; simpl; lia. }
  assert (EDays :
    Int.to_int64
      (k * BibCpp_DAYSPER400YEARS
       + Int.to_int32 (Int.to_int32 j * BibCpp_DAYSPER100YEARS)
       + i * BibCpp_DAYSPER4YEARS
       + Int.to_int32 (Int.to_int32 h * BibCpp_DAYSPERNORMALYEAR))
    = k * 146097 + j * 36524 + i * 1461 + h * 365).
  { constants. rewrite (to_int32_eq j), (to_int32_eq h) by lia.
    rewrite (to_int32_eq (j * 36524)), (to_int32_eq (h * 365)) by lia.
    apply to_int64_eq. lia. }
  assert (Edw : unsignedModulo_i64 (Int.to_int64 (T mod 604800))
                  BibCpp_SECONDSPERDAY
                = Ok ((T mod 604800) / 86400, (T mod 604800) mod 86400)).
  { constants. rewrite to_int64_eq by lia. apply unsignedModulo_i64_floor; lia. }
  unfold break_down.
  rewrite E400. cbn [bind]. cbv beta iota zeta.
  rewrite E100. cbn [bind]. cbv beta iota zeta.
  rewrite E4. cbn [bind]. cbv beta iota zeta.
  rewrite E1. cbn [bind]. cbv beta iota zeta.
  rewrite EY, EM. cbn [bind].
  rewrite Htb. cbn [bind].
  rewrite EbM, ED. cbn [bind]. cbv beta iota zeta.
  rewrite EH. cbn [bind]. cbv beta iota zeta.
  rewrite EMi. cbn [bind]. cbv beta iota zeta.
  rewrite EDy. cbn [bind]. cbv beta iota zeta.
  rewrite EW. cbn [bind]. cbv beta iota zeta.
  rewrite EDays.
  rewrite Edw. cbn [bind]. cbv beta iota zeta.
  eexists. exists mo, tb, dom. split; [reflexivity|].
  cbn [year month day hour minute second dst timeZone dayInYear dayInWeek
       calendarWeek set_year set_month set_day set_hour set_minute set_second
       set_dayInYear set_calendarWeek set_dayInWeek].
  assert (Hd : 0 <= bM / 86400 <= 30) by (Z.div_mod_to_equations; lia).
  assert (Hhh : 0 <= (bM mod 86400) / 3600 <= 23) by (Z.div_mod_to_equations; lia).
  assert (Hmi : 0 <= ((bM mod 86400) mod 3600) / 60 <= 59)
    by (Z.div_mod_to_equations; lia).
  pose proof (Z.mod_pos_bound ((bM mod 86400) mod 3600) 60 ltac:(lia)) as Hss.
  assert (Hdy : 0 <= b1 / 86400 <= 364) by (Z.div_mod_to_equations; lia).
  assert (Hdw : 0 <= (T mod 604800) / 86400 <= 6) by (Z.div_mod_to_equations; lia).
  fold bM.
  repeat split; try assumption; try reflexivity; try lia.
  - rewrite to_uint8_eq; lia.
  - rewrite to_uint8_eq; lia.
  - rewrite to_uint8_eq; lia.
  - rewrite to_uint8_eq; lia.
  - rewrite to_uint8_eq; lia.
  - rewrite (to_int64_eq (b1 / 86400 + 1)) by lia. rewrite to_int16_eq; lia.
  - rewrite to_uint8_eq; lia.
Qed.

(** The host's zone is an [int8_t]. *)
Lemma localTimeZone_range P : -128 <= localTimeZone P <= 127.
Proof.
  unfold localTimeZone.
  destruct (mktime P (gmtime_s P (clock P))) as [gt gtm].
  destruct (mktime P (localtime_s P (clock P))) as [lt ltm].
  cbv zeta.
  destruct (tm_isdst gt >? 0); destruct (tm_isdst lt >? 0);
    apply to_int8_range.
Qed.

(** The wall-clock second when nothing but the first conversion wraps. *)
Lemma wall_seconds_value e z :
  -128 <= z <= 127 ->
  wall_seconds_2001 e z = Int.to_int32 (e - 1893456000) + 915148800 + z * 3600.
Proof.
  intros Hz. unfold wall_seconds_2001. cbv zeta. constants.
  rewrite to_int32_sub_l.
  pose proof (to_int32_range (e - 1893456000)) as Hr.
  rewrite (to_int64_eq (Int.to_int32 (e - 1893456000))) by lia.
  rewrite (to_int64_eq (Int.to_int32 (e - 1893456000) + 915148800)) by lia.
  apply to_int64_eq. lia.
Qed.

(** The relative zone of a request, and the calendar the break-down starts
    from. *)
Lemma y2038Calendar_as_break_down P e req dstp :
  (forall z, req = Some z -> -128 <= z <= 127) ->
  exists rz cal,
    -128 <= rz <= 127 /\
    dst cal = dstp /\
    (forall z, req = Some z -> timeZone cal = z) /\
    (forall z, req = Some z -> dstp <= 0 -> rz = z) /\
    y2038Calendar P e req dstp = break_down (wall_seconds_2001 e rz) cal.
Proof.
  intros Hreq. destruct req as [z|].
  - specialize (Hreq z eq_refl).
    exists (if dstp >? 0 then Int.to_int8 (z - 1) else z),
           (set_timeZone z (set_dst dstp stCalendar_Ini)).
    split.
    { destruct (dstp >? 0); [apply to_int8_range|assumption]. }
    split; [reflexivity|]. split.
    { intros z' E. injection E as <-. reflexivity. }
    split.
    { intros z' E Hd. injection E as <-.
      destruct (Z.gtb_spec dstp 0); [lia|reflexivity]. }
    apply y2038Calendar_explicit.
  - exists (if Int.to_int8 (tm_isdst (localtime_s P (clock P))) >? 0
            then Int.to_int8 (localTimeZone P + 1) else localTimeZone P),
           (set_timeZone (localTimeZone P) (set_dst dstp stCalendar_Ini)).
    split.
    { destruct (_ >? 0); [apply to_int8_range|apply localTimeZone_range]. }
    split; [reflexivity|]. split; [discriminate|]. split; [discriminate|].
    apply y2038Calendar_local.
Qed.

(** X2.  For every epoch value and every zone request (none, or a zone that
    is an [int8_t]), [y2038Calendar] returns a calendar with a date that
    exists: the year lies in 1961..2098, the month in 1..12, the day in
    1..days of that month of that year, hour, minute and second are in
    range, dayInYear is the day count of the date and never exceeds 365,
    dayInWeek lies in 1..7, and dst is the argument passed. *)
Theorem y2038Calendar_valid_date (P : Platform) (e : Z) (req : zoneRequest) (dstp : Z) :
  (forall z, req = Some z -> -128 <= z <= 127) ->
  exists c dom tb,
    y2038Calendar P e req dstp = Ok c /\
    1961 <= year c <= 2098 /\
    1 <= month c <= 12 /\
    table_at DAYSOFMONTH (leapIndex (year c)) (month c) = Ok dom /\
    1 <= day c <= dom /\
    0 <= hour c <= 23 /\ 0 <= minute c <= 59 /\ 0 <= second c <= 59 /\
    table_at BibCpp_SECONDSTILLMONTH (leapIndex (year c)) (month c - 1) = Ok tb /\
    dayInYear c = tb / 86400 + day c /\
    1 <= dayInYear c <= 365 /\
    1 <= dayInWeek c <= 7 /\
    dst c = dstp.
Proof.
  intros Hreq.
  destruct (y2038Calendar_as_break_down P e req dstp Hreq)
    as (rz & cal & Hrz & Hdst & _ & _ & E).
  rewrite E.
  pose proof (wall_seconds_value e rz Hrz) as HT.
  pose proof (to_int32_range (e - 1893456000)) as Hr.
  set (T := wall_seconds_2001 e rz) in *.
  assert (HTb : -1232795648 <= T <= 3063089647) by lia.
  destruct (break_down_any T cal ltac:(lia))
    as (c & mo & tb & dom & Ebd & Fy & Hmo & Htb & Hdom & Hb & Fmo & Fd & Fh & Fmi
        & Fs & Fdy & Fdw & Fdst & Fz & Fcw).
  assert (Hil : leapIndex (year c) = 0 \/ leapIndex (year c) = 1)
    by (unfold leapIndex; destruct (isLeapYear (year c)); auto).
  destruct (month_tables _ _ _ _ Hil Hmo Htb Hdom) as (Htb0 & Htbm & Hdomb & Hend).
  exists c, dom, tb. rewrite <- Fmo in *.
  split; [assumption|].
  split; [rewrite Fy; clear - HTb; Z.div_mod_to_equations; lia|].
  split; [assumption|]. split; [assumption|].
  split; [rewrite Fd; clear - Hb Hdomb Htb0; Z.div_mod_to_equations; lia|].
  split; [rewrite Fh; clear; Z.div_mod_to_equations; lia|].
  split; [rewrite Fmi; clear; Z.div_mod_to_equations; lia|].
  split; [rewrite Fs; clear; Z.div_mod_to_equations; lia|].
  split; [assumption|].
  split; [rewrite Fdy, Fd; clear - Hb Htbm Htb0; Z.div_mod_to_equations; lia|].
  split; [rewrite Fdy; clear; Z.div_mod_to_equations; lia|].
  split; [rewrite Fdw; clear; Z.div_mod_to_equations; lia|].
  congruence.
Qed.

Lemma y2038Calendar_valid_date_witness :
  exists c dom tb,
    y2038Calendar idle_host 1695214956 (Some 1) 0 = Ok c /\
    1961 <= year c <= 2098 /\
    1 <= month c <= 12 /\
    table_at DAYSOFMONTH (leapIndex (year c)) (month c) = Ok dom /\
    1 <= day c <= dom /\
    0 <= hour c <= 23 /\ 0 <= minute c <= 59 /\ 0 <= second c <= 59 /\
    table_at BibCpp_SECONDSTILLMONTH (leapIndex (year c)) (month c - 1) = Ok tb /\
    dayInYear c = tb / 86400 + day c /\
    1 <= dayInYear c <= 365 /\
    1 <= dayInWeek c <= 7 /\
    dst c = 0.
Proof.
  apply (y2038Calendar_valid_date idle_host 1695214956 (Some 1) 0).
  intros z E. injection E as <-. lia.
Defined.

(** The day within the week of seconds is the day count modulo 7. *)
Lemma day_of_week_index T : (T mod 604800) / 86400 = (T / 86400) mod 7.
Proof.
  change 604800 with (86400 * 7).
  rewrite Z.rem_mul_r by lia.
  rewrite Z.mul_comm, Z.div_add by lia.
  rewrite Z.div_small by (apply Z.mod_pos_bound; lia).
  reflexivity.
Qed.

(** X3.  For an epoch value in the 32-bit window around 2030
    (-254027648 .. 4040939647), an explicit zone and dst not DaylightTime,
    the calendar of [y2038Calendar] carries the weekday and the time of day
    of the wall-clock second [T = e - 978307200 + zone * 3600] counted from
    Monday 2001-01-01: dayInWeek is [(T / 86400) mod 7 + 1], and hour,
    minute and second recompose to [T mod 86400]. *)
Theorem y2038Calendar_weekday_and_time (P : Platform) (e z dstp : Z) :
  -254027648 <= e <= 4040939647 ->
  -128 <= z <= 127 -> dstp <= 0 ->
  let T := e - 978307200 + z * 3600 in
  exists c,
    y2038Calendar P e (Some z) dstp = Ok c /\
    dayInWeek c = (T / 86400) mod 7 + 1 /\
    hour c * 3600 + minute c * 60 + second c = T mod 86400.
Proof.
  intros He Hz Hd T.
  rewrite y2038Calendar_explicit.
  destruct (Z.gtb_spec dstp 0) as [Hgt|_]; [lia|].
  pose proof (wall_seconds_value e z Hz) as HT.
  rewrite (to_int32_eq (e - 1893456000)) in HT by lia.
  replace (e - 1893456000 + 915148800 + z * 3600) with T in HT by (subst T; lia).
  rewrite HT.
  assert (HTb : -1232795648 <= T <= 3063089647) by (subst T; lia).
  destruct (break_down_any T (set_timeZone z (set_dst dstp stCalendar_Ini)) ltac:(lia))
    as (c & mo & tb & dom & Ebd & Fy & Hmo & Htb & Hdom & Hb & Fmo & Fd & Fh & Fmi
        & Fs & Fdy & Fdw & Fdst & Fz & Fcw).
  assert (Hil : leapIndex (year c) = 0 \/ leapIndex (year c) = 1)
    by (unfold leapIndex; destruct (isLeapYear (year c)); auto).
  destruct (month_tables _ _ _ _ Hil Hmo Htb Hdom) as (Htb0 & Htbm & Hdomb & Hend).
  exists c. split; [assumption|]. split.
  - rewrite Fdw, day_of_week_index. reflexivity.
  - rewrite Fh, Fmi, Fs. clear - Htbm. Z.div_mod_to_equations. lia.
Qed.

Lemma y2038Calendar_weekday_and_time_witness :
  let T := 1695214956 - 978307200 + 2 * 3600 in
  exists c,
    y2038Calendar idle_host 1695214956 (Some 2) (-1) = Ok c /\
    dayInWeek c = (T / 86400) mod 7 + 1 /\
    hour c * 3600 + minute c * 60 + second c = T mod 86400.
Proof.
  apply (y2038Calendar_weekday_and_time idle_host 1695214956 2 (-1)); lia.
Defined.

(** X4.  Epoch to calendar and back: with an explicit zone and dst not
    DaylightTime, whenever the wall-clock second is not on the 366th day of
    a leap year (its offset in the 400 year block is below four 100 year
    blocks, and its offset in the 4 year block below four normal years),
    [y2038Set] of the calendar [y2038Calendar] returns is the epoch value
    converted to 32 bit. *)
Theorem y2038_epoch_round_trip (P : Platform) (e z dstp : Z) :
  -128 <= z <= 127 -> dstp <= 0 ->
  let T := wall_seconds_2001 e z in
  T mod BibCpp_SECONDSPER400YEARS < 4 * BibCpp_SECONDSPER100YEARS ->
  ((T mod BibCpp_SECONDSPER400YEARS) mod BibCpp_SECONDSPER100YEARS)
    mod BibCpp_SECONDSPER4YEARS < 4 * BibCpp_SECONDSPERNORMALYEAR ->
  exists c,
    y2038Calendar P e (Some z) dstp = Ok c /\
    y2038Set c = Ok (Int.to_int32 e).
Proof.
  intros Hz Hd T H400 H4. constants.
  rewrite y2038Calendar_explicit.
  destruct (Z.gtb_spec dstp 0) as [Hgt|_]; [lia|].
  pose proof (wall_seconds_value e z Hz) as HT. fold T in HT.
  pose proof (to_int32_range (e - 1893456000)) as Hr.
  assert (HTb : -1232795648 <= T <= 3063089647) by lia.
  destruct (break_down_any T (set_timeZone z (set_dst dstp stCalendar_Ini)) ltac:(lia))
    as (c & mo & tb & dom & Ebd & Fy & Hmo & Htb & Hdom & Hb & Fmo & Fd & Fh & Fmi
        & Fs & Fdy & Fdw & Fdst & Fz & Fcw).
  cbn [dst timeZone set_timeZone set_dst] in Fdst, Fz.
  assert (Hil : leapIndex (year c) = 0 \/ leapIndex (year c) = 1)
    by (unfold leapIndex; destruct (isLeapYear (year c)); auto).
  destruct (month_tables _ _ _ _ Hil Hmo Htb Hdom) as (Htb0 & Htbm & Hdomb & Hend).
  exists c. split; [assumption|].
  set (b400 := T mod 12622780800) in *.
  set (b100 := b400 mod 3155673600) in *.
  set (b4 := b100 mod 126230400) in *.
  set (b1 := b4 mod 31536000) in *.
  rewrite (y2038Set_value c (T / 12622780800) (b400 / 3155673600)
             (b100 / 126230400) (b4 / 31536000) tb).
  - assert (Edev : UTCdeviation c = z).
    { unfold UTCdeviation. cbv zeta. rewrite Fdst, Fz.
      destruct (Z.gtb_spec dstp 0); [lia|reflexivity]. }
    rewrite Edev, Fd, Fh, Fmi, Fs.
    replace (Int.to_int32 e)
      with (Int.to_int32 (Int.to_int32 (e - 1893456000) + 1893456000))
      by (rewrite to_int32_add_l; f_equal; lia).
    apply f_equal. apply f_equal.
    subst b1 b4 b100 b400. clear - HT Htbm. Z.div_mod_to_equations. lia.
  - lia.
  - subst b400. clear - HTb. Z.div_mod_to_equations. lia.
  - subst b400. clear - H400. Z.div_mod_to_equations. lia.
  - subst b100. clear. Z.div_mod_to_equations. lia.
  - subst b4. clear - H4. Z.div_mod_to_equations. lia.
  - subst b4 b100 b400. clear - HTb. Z.div_mod_to_equations. lia.
  - rewrite Fmo. assumption.
Qed.

Lemma y2038_epoch_round_trip_witness :
  exists c,
    y2038Calendar idle_host (-1) (Some 5) (-1) = Ok c /\
    y2038Set c = Ok (Int.to_int32 (-1)).
Proof.
  apply (y2038_epoch_round_trip idle_host (-1) 5 (-1)); try lia;
    vm_compute; reflexivity.
Defined.

(** X18.  The calendar week of [y2038Calendar] from 2001 on: for an explicit
    zone, dst not DaylightTime and a wall-clock second [T >= 0] that is not
    on the 366th day of a leap year, calendarWeek counts the weeks from
    Monday to Sunday beginning with the week that holds January 1 as week
    1: with [january1] the day number of January 1 counted from Monday
    2001-01-01, calendarWeek is [(january1 mod 7 + dayInYear - 1) / 7 + 1],
    a value from 1 to 53 and never 0. *)
Theorem y2038Calendar_calendar_week (P : Platform) (e z dstp : Z) :
  -128 <= z <= 127 -> dstp <= 0 ->
  let T := wall_seconds_2001 e z in
  0 <= T ->
  T mod BibCpp_SECONDSPER4YEARS < 4 * BibCpp_SECONDSPERNORMALYEAR ->
  exists c,
    y2038Calendar P e (Some z) dstp = Ok c /\
    let january1 := T / 86400 - (dayInYear c - 1) in
    calendarWeek c = (january1 mod 7 + dayInYear c - 1) / 7 + 1 /\
    1 <= calendarWeek c <= 53.
Proof.
  intros Hz Hd T HT0 H4. constants.
  rewrite y2038Calendar_explicit.
  destruct (Z.gtb_spec dstp 0) as [Hgt|_]; [lia|].
  pose proof (wall_seconds_value e z Hz) as HT. fold T in HT.
  pose proof (to_int32_range (e - 1893456000)) as Hr.
  assert (HTb : 0 <= T <= 3063089647) by lia.
  destruct (break_down_any T (set_timeZone z (set_dst dstp stCalendar_Ini)) ltac:(lia))
    as (c & mo & tb & dom & Ebd & Fy & Hmo & Htb & Hdom & Hb & Fmo & Fd & Fh & Fmi
        & Fs & Fdy & Fdw & Fdst & Fz & Fcw).
  exists c. split; [assumption|]. cbv zeta.
  rewrite Fcw, Fdy.
  destruct (Z.ltb_spec T 0) as [|_]; [lia|]. cbn [andb].
  clear - HTb H4.
  rewrite (Z.mod_small T 12622780800) by lia.
  rewrite (Z.div_small T 12622780800) by lia.
  rewrite (Z.mod_small T 3155673600) by lia.
  rewrite (Z.div_small T 3155673600) by lia.
  set (i := T / 126230400).
  set (b4 := T mod 126230400) in *.
  set (h := b4 / 31536000).
  set (b1 := b4 mod 31536000).
  assert (Hb4 : 0 <= b4 < 126230400) by (subst b4; apply Z.mod_pos_bound; lia).
  assert (Hi : 0 <= i <= 24) by (subst i; Z.div_mod_to_equations; lia).
  assert (Hh : 0 <= h <= 3) by (subst h; Z.div_mod_to_equations; lia).
  assert (Hb1 : 0 <= b1 < 31536000) by (subst b1; apply Z.mod_pos_bound; lia).
  assert (ET : T = (i * 1461 + h * 365) * 86400 + b1)
    by (subst i h b1 b4; Z.div_mod_to_equations; lia).
  replace (0 * 146097 + 0 * 36524 + i * 1461 + h * 365)
    with (i * 1461 + h * 365) by lia.
  set (D := i * 1461 + h * 365) in *.
  assert (HD : 0 <= D <= 37620) by (subst D; lia).
  rewrite (Z.quot_div_nonneg D 7) by lia.
  assert (E1 : T / 604800 = (D + b1 / 86400) / 7)
    by (rewrite ET; Z.div_mod_to_equations; lia).
  assert (E2 : T / 86400 - (b1 / 86400 + 1 - 1) = D)
    by (rewrite ET; Z.div_mod_to_equations; lia).
  rewrite E1, E2.
  assert (Hday : 0 <= b1 / 86400 <= 364) by (Z.div_mod_to_equations; lia).
  assert (Ecw : (D + b1 / 86400) / 7 - D / 7 + 1
                = (D mod 7 + (b1 / 86400 + 1) - 1) / 7 + 1)
    by (Z.div_mod_to_equations; lia).
  assert (Hcw : 1 <= (D mod 7 + (b1 / 86400 + 1) - 1) / 7 + 1 <= 53)
    by (Z.div_mod_to_equations; lia).
  rewrite Ecw, to_uint8_eq, to_int8_eq by lia.
  split; [reflexivity|lia].
Qed.

Lemma y2038Calendar_calendar_week_witness :
  exists c,
    y2038Calendar idle_host 1695214956 (Some 2) (-1) = Ok c /\
    let january1 := wall_seconds_2001 1695214956 2 / 86400 - (dayInYear c - 1) in
    calendarWeek c = (january1 mod 7 + dayInYear c - 1) / 7 + 1 /\
    1 <= calendarWeek c <= 53.
Proof.
  apply (y2038Calendar_calendar_week idle_host 1695214956 2 (-1)); try lia;
    vm_compute; intuition discriminate.
Defined.

(** X5.  Calendar to epoch and back: for every date of the years 1962 to
    2097 that exists and is not the 366th day of its year, with hour, minute
    and second in range, a zone from -12 to 12 and dst 0 or -1, [y2038Set]
    returns an epoch value from which [y2038Calendar], asked for the
    calendar's zone and dst, returns the same year, month, day, hour,
    minute, second, dst and zone, with dayInYear the day count of the date;
    converting that calendar again gives the same epoch value. *)
Theorem y2038_calendar_round_trip (P : Platform) (c : stCalendar) (tb dom : Z) :
  1962 <= year c <= 2097 -> 1 <= month c <= 12 ->
  table_at BibCpp_SECONDSTILLMONTH (leapIndex (year c)) (month c - 1) = Ok tb ->
  table_at DAYSOFMONTH (leapIndex (year c)) (month c) = Ok dom ->
  1 <= day c <= dom ->
  tb / 86400 + day c <= 365 ->
  0 <= hour c <= 23 -> 0 <= minute c <= 59 -> 0 <= second c <= 59 ->
  -12 <= timeZone c <= 12 -> dst c = 0 \/ dst c = -1 ->
  exists e c',
    y2038Set c = Ok e /\
    y2038Calendar P e (Some (timeZone c)) (dst c) = Ok c' /\
    year c' = year c /\ month c' = month c /\ day c' = day c /\
    hour c' = hour c /\ minute c' = minute c /\ second c' = second c /\
    dst c' = dst c /\ timeZone c' = timeZone c /\
    dayInYear c' = tb / 86400 + day c /\
    y2038Set c' = Ok e.
Proof. apply calendar_round_trip. Qed.

Lemma y2038_calendar_round_trip_witness :
  let c := mkCalendar 2023 9 20 17 17 38 0 1 0 0 0 0 0 0 in
  exists e c',
    y2038Set c = Ok e /\
    y2038Calendar idle_host e (Some (timeZone c)) (dst c) = Ok c' /\
    year c' = year c /\ month c' = month c /\ day c' = day c /\
    hour c' = hour c /\ minute c' = minute c /\ second c' = second c /\
    dst c' = dst c /\ timeZone c' = timeZone c /\
    dayInYear c' = 20995200 / 86400 + day c /\
    y2038Set c' = Ok e.
Proof.
  cbv zeta.
  apply (y2038_calendar_round_trip idle_host
           (mkCalendar 2023 9 20 17 17 38 0 1 0 0 0 0 0 0) 20995200 30);
    cbn [year month day hour minute second dst timeZone];
    try reflexivity; try lia.
  vm_compute. discriminate.
Defined.

(** ** [y2038Set] and the month table *)

(** X6.  [y2038Set] checks nothing but needs the month as a table index:
    with a month from 1 to 12 it returns a 32-bit value for every calendar,
    whatever the other fields hold; with any other month it reads
    [BibCpp_SECONDSTILLMONTH] outside its bounds. *)
Theorem y2038Set_month_bounds (c : stCalendar) :
  (1 <= month c <= 12 ->
   exists e, y2038Set c = Ok e /\ -2147483648 <= e <= 2147483647) /\
  (month c < 1 \/ 12 < month c -> y2038Set c = Fault OutOfBounds).
Proof.
  unfold y2038Set. cbv zeta.
  set (y := Int.to_int64 (Int.to_int32 (year c - 2001))).
  assert (Hy : -2147483648 <= y <= 2147483647).
  { subst y. pose proof (to_int32_range (year c - 2001)).
    rewrite to_int64_eq by lia. assumption. }
  destruct (unsignedModulo_i64_remainder y 400 ltac:(lia) ltac:(lia)) as (k & ->).
  cbn [bind]. cbv beta iota zeta.
  pose proof (Z.mod_pos_bound y 400 ltac:(lia)) as H400.
  rewrite (to_int64_eq (y mod 400)) by lia.
  destruct (unsignedModulo_i64_remainder (y mod 400) 100 ltac:(lia) ltac:(lia))
    as (j & ->).
  cbn [bind]. cbv beta iota zeta.
  pose proof (Z.mod_pos_bound (y mod 400) 100 ltac:(lia)) as H100.
  rewrite (to_int64_eq ((y mod 400) mod 100)) by lia.
  destruct (unsignedModulo_i64_remainder ((y mod 400) mod 100) 4 ltac:(lia)
              ltac:(lia)) as (i & ->).
  cbn [bind]. cbv beta iota zeta.
  assert (Hil : leapIndex (year c) = 0 \/ leapIndex (year c) = 1)
    by (unfold leapIndex; destruct (isLeapYear (year c)); auto).
  split.
  - intros Hmo.
    assert (Ht : exists tb,
      table_at BibCpp_SECONDSTILLMONTH (leapIndex (year c)) (month c - 1) = Ok tb).
    { revert Hmo. generalize (month c). intros mo Hmo.
      destruct Hil as [-> | ->]; month_cases mo Hc; eexists; reflexivity. }
    destruct Ht as (tb & ->). cbn [bind].
    eexists. split; [reflexivity|]. apply to_int32_range.
  - intros Hmo.
    assert (Ht :
      table_at BibCpp_SECONDSTILLMONTH (leapIndex (year c)) (month c - 1)
      = Fault OutOfBounds).
    { unfold table_at.
      destruct (Z.ltb_spec (month c - 1) 0) as [Hneg|Hpos].
      - rewrite orb_true_r. reflexivity.
      - assert (Hbig : (12 <= Z.to_nat (month c - 1))%nat) by lia.
        destruct Hil as [-> | ->]; cbn [orb Z.ltb Z.compare];
          match goal with
          | |- context [nth_error BibCpp_SECONDSTILLMONTH ?n] =>
              let r := eval vm_compute in (nth_error BibCpp_SECONDSTILLMONTH n) in
              change (nth_error BibCpp_SECONDSTILLMONTH n) with r
          end; cbv beta iota;
          match goal with
          | |- context [nth_error ?row ?n] =>
              assert (E : nth_error row n = None)
                by (apply nth_error_None; cbn [List.length]; lia);
              rewrite E
          end; reflexivity. }
    rewrite Ht. reflexivity.
Qed.

(** ** [setTimeZone] *)

(** Every month of the day table has between 28 and 31 days. *)
Lemma days_of_month il mo :
  il = 0 \/ il = 1 -> 1 <= mo <= 12 ->
  exists dom, table_at DAYSOFMONTH il mo = Ok dom /\ 28 <= dom <= 31.
Proof.
  intros Hil Hmo.
  destruct Hil; subst il; month_cases mo Hc;
    eexists; (split; [reflexivity|lia]).
Qed.

Lemma setTimeZone_fields (c : stCalendar) (destZone dom : Z) :
  1 <= month c <= 12 ->
  table_at DAYSOFMONTH (leapIndex (year c)) (month c) = Ok dom ->
  1 <= day c <= dom ->
  0 <= hour c <= 23 ->
  -2147483648 < year c < 2147483647 ->
  let diff := diffHours c destZone in
  -24 <= diff <= 24 ->
  2 <= day c \/ 0 <= hour c + diff ->
  exists c',
    setTimeZone c destZone = Ok c' /\
    0 <= hour c' <= 23 /\ 1 <= month c' <= 12 /\
    (exists dom',
       table_at DAYSOFMONTH (leapIndex (year c')) (month c') = Ok dom' /\
       1 <= day c' <= dom') /\
    (month c' = month c ->
       year c' = year c /\
       day c' * 24 + hour c' = day c * 24 + hour c + diff) /\
    (month c' <> month c ->
       day c = dom /\ day c' = 1 /\ hour c' = hour c + diff - 24 /\
       ((month c' = month c + 1 /\ year c' = year c) \/
        (month c = 12 /\ month c' = 1 /\ year c' = year c + 1))) /\
    minute c' = minute c /\ second c' = second c /\ timeZone c' = timeZone c /\
    (diff <> 0 -> dst c' = 0).
Proof.
  intros Hmo Hdom Hd Hh Hy diff Hdiff Hborrow.
  assert (Hil : leapIndex (year c) = 0 \/ leapIndex (year c) = 1)
    by (unfold leapIndex; destruct (isLeapYear (year c)); auto).
  destruct (days_of_month _ _ Hil Hmo) as (dom0 & Edom0 & Hdomb).
  rewrite Hdom in Edom0. injection Edom0 as <-.
  unfold setTimeZone. cbv zeta.
  change (if dst c >? 0
          then Int.to_int8 (Int.to_int8 (destZone - timeZone c) + 1)
          else Int.to_int8 (destZone - timeZone c)) with (diffHours c destZone).
  fold diff.
  clearbody diff.
  rewrite (to_int8_eq (hour c + diff)) by lia.
  destruct (Z.gtb_spec diff 0) as [Hpos|Hnpos].
  - (* to the east *)
    destruct (Z.gtb_spec (hour c + diff) 23) as [Hover|Hin].
    + cbn [set_hour day month year].
      rewrite (to_int8_eq (month c)) by lia.
      rewrite Hdom. cbn [bind].
      rewrite (to_int8_eq (day c + 1)) by lia.
      destruct (Z.gtb_spec (day c + 1) dom) as [Hlast|Hmid].
      * rewrite (to_int8_eq (month c + 1)) by lia.
        destruct (Z.gtb_spec (month c + 1) 12) as [Hdec|Hmon].
        -- (* the last day of the year *)
           cbn [bind]. eexists. split; [reflexivity|].
           cbn [year month day hour minute second dst timeZone
                set_year set_month set_day set_hour set_dst].
           rewrite (to_uint8_eq (hour c + diff - 24)) by lia.
           rewrite (to_int32_eq (year c + 1)) by lia.
           split; [lia|]. split; [lia|]. split.
           { exists 31. split; [|change (Int.to_uint8 1) with 1; lia].
             unfold leapIndex. destruct (isLeapYear (year c + 1)); reflexivity. }
           split; [intros; exfalso; lia|].
           split.
           { intros _. change (Int.to_uint8 1) with 1.
             repeat split; lia. }
           repeat split; reflexivity.
        -- (* the last day of a month *)
           cbn [bind]. eexists. split; [reflexivity|].
           cbn [year month day hour minute second dst timeZone
                set_year set_month set_day set_hour set_dst].
           rewrite (to_uint8_eq (hour c + diff - 24)) by lia.
           rewrite (to_uint8_eq (month c + 1)) by lia.
           change (Int.to_uint8 1) with 1.
           split; [lia|]. split; [lia|]. split.
           { destruct (days_of_month (leapIndex (year c)) (month c + 1) Hil ltac:(lia))
               as (dom' & E' & Hb').
             exists dom'. split; [assumption|lia]. }
           split; [intros; exfalso; lia|].
           split.
           { intros _. repeat split; lia. }
           repeat split; reflexivity.
      * cbn [bind]. eexists. split; [reflexivity|].
        cbn [year month day hour minute second dst timeZone
             set_year set_month set_day set_hour set_dst].
        rewrite (to_uint8_eq (hour c + diff - 24)) by lia.
        rewrite (to_uint8_eq (day c + 1)) by lia.
        split; [lia|]. split; [lia|]. split.
        { exists dom. split; [assumption|lia]. }
        split; [intros _; split; lia|].
        split; [intros Hne; exfalso; apply Hne; reflexivity|].
        repeat split; reflexivity.
    + cbn [bind]. eexists. split; [reflexivity|].
      cbn [year month day hour minute second dst timeZone
           set_year set_month set_day set_hour set_dst].
      rewrite (to_uint8_eq (hour c + diff)) by lia.
      split; [lia|]. split; [lia|]. split.
      { exists dom. split; [assumption|lia]. }
      split; [intros _; split; lia|].
      split; [intros Hne; exfalso; apply Hne; reflexivity|].
      repeat split; reflexivity.
  - destruct (Z.ltb_spec diff 0) as [Hneg|Hzero].
    + (* to the west *)
      destruct (Z.ltb_spec (hour c + diff) 0) as [Hunder|Hin].
      * cbn [set_hour day month year].
        rewrite (to_int8_eq (day c - 1)) by lia.
        destruct (Z.ltb_spec (day c - 1) 0) as [Hb|Hb]; [lia|].
        cbn [bind]. eexists. split; [reflexivity|].
        cbn [year month day hour minute second dst timeZone
             set_year set_month set_day set_hour set_dst].
        rewrite (to_uint8_eq (hour c + diff + 24)) by lia.
        rewrite (to_uint8_eq (day c - 1)) by lia.
        split; [lia|]. split; [lia|]. split.
        { exists dom. split; [assumption|lia]. }
        split; [intros _; split; lia|].
        split; [intros Hne; exfalso; apply Hne; reflexivity|].
        repeat split; reflexivity.
      * cbn [bind]. eexists. split; [reflexivity|].
        cbn [year month day hour minute second dst timeZone
             set_year set_month set_day set_hour set_dst].
        rewrite (to_uint8_eq (hour c + diff)) by lia.
        split; [lia|]. split; [lia|]. split.
        { exists dom. split; [assumption|lia]. }
        split; [intros _; split; lia|].
        split; [intros Hne; exfalso; apply Hne; reflexivity|].
        repeat split; reflexivity.
    + (* the same zone *)
      assert (diff = 0) by lia. subst diff.
      eexists. split; [reflexivity|].
      split; [lia|]. split; [lia|]. split.
      { exists dom. split; [assumption|lia]. }
      split; [intros _; split; lia|].
      split; [intros Hne; exfalso; apply Hne; reflexivity|].
      repeat split; try reflexivity. intros Hne. exfalso. apply Hne. reflexivity.
Qed.

(** X7.  [setTimeZone] keeps a calendar valid when it moves it by at most 24
    hours and does not have to borrow from the first day of a month: the
    hour stays in 0..23, the day within the month, the month in 1..12;
    within a month day and hour advance by the hour difference; across the
    end of a month the date becomes the first of the next month, of January
    of the next year after December; minute, second and the timeZone field
    are left as they are, and dst becomes 0 when the difference is not
    zero. *)
Theorem setTimeZone_keeps_valid (c : stCalendar) (destZone dom : Z) :
  1 <= month c <= 12 ->
  table_at DAYSOFMONTH (leapIndex (year c)) (month c) = Ok dom ->
  1 <= day c <= dom ->
  0 <= hour c <= 23 ->
  -2147483648 < year c < 2147483647 ->
  let diff := diffHours c destZone in
  -24 <= diff <= 24 ->
  2 <= day c \/ 0 <= hour c + diff ->
  exists c',
    setTimeZone c destZone = Ok c' /\
    0 <= hour c' <= 23 /\ 1 <= month c' <= 12 /\
    (exists dom',
       table_at DAYSOFMONTH (leapIndex (year c')) (month c') = Ok dom' /\
       1 <= day c' <= dom') /\
    (month c' = month c ->
       year c' = year c /\
       day c' * 24 + hour c' = day c * 24 + hour c + diff) /\
    (month c' <> month c ->
       day c = dom /\ day c' = 1 /\ hour c' = hour c + diff - 24 /\
       ((month c' = month c + 1 /\ year c' = year c) \/
        (month c = 12 /\ month c' = 1 /\ year c' = year c + 1))) /\
    minute c' = minute c /\ second c' = second c /\ timeZone c' = timeZone c /\
    (diff <> 0 -> dst c' = 0).
Proof. apply setTimeZone_fields. Qed.

Lemma setTimeZone_keeps_valid_witness :
  let c := mkCalendar 2023 12 31 23 30 0 1 1 0 0 0 7 52 365 in
  let diff := diffHours c 5 in
  exists c',
    setTimeZone c 5 = Ok c' /\
    0 <= hour c' <= 23 /\ 1 <= month c' <= 12 /\
    (exists dom',
       table_at DAYSOFMONTH (leapIndex (year c')) (month c') = Ok dom' /\
       1 <= day c' <= dom') /\
    (month c' = month c ->
       year c' = year c /\
       day c' * 24 + hour c' = day c * 24 + hour c + diff) /\
    (month c' <> month c ->
       day c = 31 /\ day c' = 1 /\ hour c' = hour c + diff - 24 /\
       ((month c' = month c + 1 /\ year c' = year c) \/
        (month c = 12 /\ month c' = 1 /\ year c' = year c + 1))) /\
    minute c' = minute c /\ second c' = second c /\ timeZone c' = timeZone c /\
    (diff <> 0 -> dst c' = 0).
Proof.
  cbv zeta.
  apply (setTimeZone_keeps_valid
           (mkCalendar 2023 12 31 23 30 0 1 1 0 0 0 7 52 365) 5 31);
    cbn [year month day hour minute second dst timeZone];
    try reflexivity; try lia; vm_compute; intuition discriminate.
Defined.

Lemma isLeapYear_mod Y :
  isLeapYear Y = ((Y mod 4 =? 0) && negb (Y mod 100 =? 0)) || (Y mod 400 =? 0).
Proof.
  unfold isLeapYear.
  assert (H : forall m, 0 < m -> (Z.rem Y m =? 0) = (Y mod m =? 0)).
  { intros m Hm.
    destruct (Z.eqb_spec (Z.rem Y m) 0) as [E|E];
      destruct (Z.eqb_spec (Y mod m) 0) as [E'|E']; try reflexivity; exfalso.
    - apply E'. apply Z.rem_divide in E; [|lia]. apply Z.mod_divide; [lia|exact E].
    - apply E. apply Z.mod_divide in E'; [|lia]. apply Z.rem_divide; [lia|exact E']. }
  rewrite !H by lia. reflexivity.
Qed.

Lemma year_step Y :
  year_seconds (Y + 1) = year_seconds Y + (365 + leapIndex Y) * 86400.
Proof.
  unfold year_seconds, leapIndex. rewrite isLeapYear_mod. cbv zeta.
  replace (Y + 1 - 2001) with (Y - 2001 + 1) by lia.
  set (y := Y - 2001).
  replace Y with (y + 2001) by (subst y; lia).
  clearbody y.
  destruct (Z.eqb_spec ((y + 2001) mod 4) 0) as [E4|E4];
    destruct (Z.eqb_spec ((y + 2001) mod 100) 0) as [E100|E100];
    destruct (Z.eqb_spec ((y + 2001) mod 400) 0) as [E400|E400];
    cbn [andb orb negb];
    Z.div_mod_to_equations; lia.
Qed.

(** [y2038Set] as the seconds to the first of January plus the offset into
    the year, for the years the block division is exact on. *)
Lemma y2038Set_wall c tb :
  1602 <= year c <= 2000000000 ->
  table_at BibCpp_SECONDSTILLMONTH (leapIndex (year c)) (month c - 1) = Ok tb ->
  y2038Set c =
    Ok (Int.to_int32
          (year_seconds (year c)
           + tb + (day c - 1) * 86400 + hour c * 3600 + minute c * 60 + second c
           - UTCdeviation c * 3600 + 978307200)).
Proof.
  intros HY Htb.
  pose proof (year_blocks (year c)) as HB. cbv zeta in HB.
  destruct HB as (EY & Hj & Hi & Hh).
  unfold year_seconds. cbv zeta.
  set (k := (year c - 2001) / 400) in *.
  set (j := ((year c - 2001) mod 400) / 100) in *.
  set (i := (((year c - 2001) mod 400) mod 100) / 4) in *.
  set (h := (((year c - 2001) mod 400) mod 100) mod 4) in *.
  apply (y2038Set_value c k j i h tb); try assumption; lia.
Qed.

(** The months follow one another in the table of seconds. *)
Lemma next_month il mo tb dom :
  il = 0 \/ il = 1 -> 1 <= mo <= 11 ->
  table_at BibCpp_SECONDSTILLMONTH il (mo - 1) = Ok tb ->
  table_at DAYSOFMONTH il mo = Ok dom ->
  table_at BibCpp_SECONDSTILLMONTH il (mo + 1 - 1) = Ok (tb + dom * 86400).
Proof.
  intros Hil Hmo Htb Hdom.
  destruct Hil; subst il;
    month_cases mo Hc; try lia;
    vm_compute in Htb; vm_compute in Hdom;
    injection Htb as <-; injection Hdom as <-; reflexivity.
Qed.

Lemma december il tb :
  il = 0 \/ il = 1 ->
  table_at BibCpp_SECONDSTILLMONTH il (12 - 1) = Ok tb ->
  tb + 31 * 86400 = (365 + il) * 86400.
Proof.
  intros Hil Htb. destruct Hil; subst il; vm_compute in Htb;
    injection Htb as <-; reflexivity.
Qed.

Lemma january il : il = 0 \/ il = 1 ->
  table_at BibCpp_SECONDSTILLMONTH il (1 - 1) = Ok 0.
Proof. intros [->| ->]; reflexivity. Qed.

Lemma leapIndex_cases Y : leapIndex Y = 0 \/ leapIndex Y = 1.
Proof. unfold leapIndex; destruct (isLeapYear Y); auto. Qed.

Lemma setTimeZone_instant (c : stCalendar) (destZone dom tb : Z) :
  1602 <= year c < 2000000000 ->
  1 <= month c <= 12 ->
  table_at BibCpp_SECONDSTILLMONTH (leapIndex (year c)) (month c - 1) = Ok tb ->
  table_at DAYSOFMONTH (leapIndex (year c)) (month c) = Ok dom ->
  1 <= day c <= dom ->
  0 <= hour c <= 23 ->
  let diff := diffHours c destZone in
  -24 <= diff <= 24 -> diff <> 0 ->
  2 <= day c \/ 0 <= hour c + diff ->
  exists e c',
    y2038Set c = Ok e /\
    setTimeZone c destZone = Ok c' /\
    forall zone,
      y2038Set (set_timeZone zone c')
      = Ok (Int.to_int32 (e + (diff + UTCdeviation c - zone) * 3600)).
Proof.
  intros HY Hmo Htb Hdom Hd Hh diff Hdiff Hnz Hborrow.
  destruct (setTimeZone_fields c destZone dom Hmo Hdom Hd Hh ltac:(lia)
              Hdiff Hborrow)
    as (c' & Eset & Hh' & Hmo' & _ & Hsame & Hcarry & Emi & Es & Ez & Hdst).
  fold diff in Hsame, Hcarry, Hdst.
  specialize (Hdst Hnz).
  rewrite (y2038Set_wall c tb ltac:(lia) Htb).
  eexists. exists c'. split; [reflexivity|]. split; [exact Eset|].
  intros zone.
  assert (Edev : UTCdeviation (set_timeZone zone c') = zone).
  { unfold UTCdeviation. cbn [timeZone dst set_timeZone]. rewrite Hdst.
    reflexivity. }
  pose proof (leapIndex_cases (year c)) as Hil.
  destruct (Z.eq_dec (month c') (month c)) as [Em|Em].
  - destruct (Hsame Em) as (Ey & Eday).
    rewrite (y2038Set_wall (set_timeZone zone c') tb);
      cbn [year month day hour minute second set_timeZone];
      [|lia|rewrite Ey, Em; exact Htb].
    rewrite Edev, Ey, Emi, Es, to_int32_add_l.
    apply f_equal. apply f_equal. lia.
  - destruct (Hcarry Em) as (Elast & Eday & Ehour & [(Enext & Ey)|(Edec & Ejan & Ey)]).
    + rewrite (y2038Set_wall (set_timeZone zone c') (tb + dom * 86400));
        cbn [year month day hour minute second set_timeZone];
        [|lia|rewrite Ey, Enext; apply (next_month _ _ _ _ Hil); try assumption; lia].
      rewrite Edev, Ey, Emi, Es, Eday, Ehour, to_int32_add_l.
      apply f_equal. apply f_equal. lia.
    + rewrite (y2038Set_wall (set_timeZone zone c') 0);
        cbn [year month day hour minute second set_timeZone];
        [|lia|rewrite Ejan; apply january, leapIndex_cases].
      rewrite Edev, Ey, Emi, Es, Eday, Ehour, to_int32_add_l, year_step.
      rewrite Edec in Htb, Hdom.
      pose proof (december _ _ Hil Htb) as Hdecember.
      assert (dom = 31).
      { destruct Hil as [E|E]; rewrite E in Hdom; vm_compute in Hdom;
          injection Hdom as <-; reflexivity. }
      apply f_equal. apply f_equal. lia.
Qed.

(** X8.  [setTimeZone] moves the wall clock but leaves the timeZone field, so
    the calendar stands for another instant afterwards: for an existing
    date of a year from 1602 on, a difference of at most 24 hours that is
    not zero and needs no borrow from the first day of a month, [y2038Set]
    of the result is the epoch value of the calendar before plus
    (UTCdeviation + difference - timeZone) hours in 32-bit arithmetic; it
    is the epoch value of the calendar before once UTCdeviation +
    difference is stored as the zone. *)
Theorem setTimeZone_shifts_instant (c : stCalendar) (destZone dom tb : Z) :
  1602 <= year c < 2000000000 ->
  1 <= month c <= 12 ->
  table_at BibCpp_SECONDSTILLMONTH (leapIndex (year c)) (month c - 1) = Ok tb ->
  table_at DAYSOFMONTH (leapIndex (year c)) (month c) = Ok dom ->
  1 <= day c <= dom ->
  0 <= hour c <= 23 ->
  let diff := diffHours c destZone in
  -24 <= diff <= 24 -> diff <> 0 ->
  2 <= day c \/ 0 <= hour c + diff ->
  exists e c',
    y2038Set c = Ok e /\
    setTimeZone c destZone = Ok c' /\
    y2038Set c' = Ok (Int.to_int32 (e + (UTCdeviation c + diff - timeZone c) * 3600)) /\
    y2038Set (set_timeZone (UTCdeviation c + diff) c') = Ok e.
Proof.
  intros HY Hmo Htb Hdom Hd Hh diff Hdiff Hnz Hborrow.
  destruct (setTimeZone_instant c destZone dom tb HY Hmo Htb Hdom Hd Hh Hdiff
              Hnz Hborrow) as (e & c' & Ee & Eset & Hzone).
  fold diff in Hzone.
  destruct (setTimeZone_fields c destZone dom Hmo Hdom Hd Hh ltac:(lia)
              Hdiff Hborrow)
    as (c2 & Eset2 & _ & _ & _ & _ & _ & _ & _ & Ez & _).
  rewrite Eset in Eset2. injection Eset2 as <-.
  exists e, c'. split; [exact Ee|]. split; [exact Eset|]. split.
  - rewrite (y2038Set_ext (set_timeZone (timeZone c) c') c')
      by (cbn [year month day hour minute second dst timeZone set_timeZone];
          congruence).
    rewrite Hzone. apply f_equal. apply f_equal. lia.
  - rewrite Hzone.
    replace ((diff + UTCdeviation c - (UTCdeviation c + diff)) * 3600) with 0 by lia.
    rewrite Z.add_0_r.
    rewrite (y2038Set_wall c tb ltac:(lia) Htb) in Ee. injection Ee as <-.
    rewrite to_int32_idem. reflexivity.
Qed.

Lemma setTimeZone_shifts_instant_witness :
  let c := mkCalendar 2023 12 31 23 30 0 0 1 0 0 0 7 52 365 in
  let diff := diffHours c 5 in
  exists e c',
    y2038Set c = Ok e /\
    setTimeZone c 5 = Ok c' /\
    y2038Set c' = Ok (Int.to_int32 (e + (UTCdeviation c + diff - timeZone c) * 3600)) /\
    y2038Set (set_timeZone (UTCdeviation c + diff) c') = Ok e.
Proof.
  cbv zeta.
  apply (setTimeZone_shifts_instant
           (mkCalendar 2023 12 31 23 30 0 0 1 0 0 0 7 52 365) 5 31 28857600);
    cbn [year month day hour minute second dst timeZone];
    try reflexivity; try lia; vm_compute; intuition discriminate.
Defined.

(** ** Durations and the operators *)

(** X9.  [duration] after [cTime::set(stDuration)] normalises: for amounts
    that are not negative and add up to at most 2^63 - 1 seconds, the
    result holds the days, the hours below 24 and the minutes and seconds
    below 60 of the total, with sign -1 exactly when the given sign is
    negative and the total is not zero; a duration that is normalised
    already comes back unchanged. *)
Theorem duration_of_set_duration (d : stDuration) :
  0 <= days d -> 0 <= hours d -> 0 <= minutes d -> 0 <= seconds d ->
  let T := days d * 86400 + hours d * 3600 + minutes d * 60 + seconds d in
  T <= 9223372036854775807 ->
  duration (set_duration d)
  = mkDuration (T / 86400) ((T mod 86400) / 3600)
               (((T mod 86400) mod 3600) / 60)
               (((T mod 86400) mod 3600) mod 60)
               (if (sign d <? 0) && (0 <? T) then -1 else 1) /\
  (hours d < 24 -> minutes d < 60 -> seconds d < 60 ->
   sign d = 1 \/ (sign d = -1 /\ 0 < T) ->
   duration (set_duration d) = d).
Proof.
  intros Hd Hh Hm Hs T HT.
  assert (Eset : set_duration d = if sign d <? 0 then - T else T).
  { unfold set_duration, set_time. fold T.
    rewrite (to_uint64_eq T), (to_int64_eq T) by lia.
    destruct (sign d <? 0); [apply to_int64_eq; lia|reflexivity]. }
  assert (Edur : duration (set_duration d)
    = mkDuration (T / 86400) ((T mod 86400) / 3600)
               (((T mod 86400) mod 3600) / 60)
               (((T mod 86400) mod 3600) mod 60)
               (if (sign d <? 0) && (0 <? T) then -1 else 1)).
  { rewrite Eset.
    destruct (Z.ltb_spec (sign d) 0) as [Hneg|Hpos]; cbn [andb].
    - rewrite duration_decomposition by lia.
      rewrite Z.abs_opp, (Z.abs_eq T) by lia.
      destruct (Z.ltb_spec (- T) 0); destruct (Z.ltb_spec 0 T);
        try lia; reflexivity.
    - rewrite duration_decomposition by lia.
      rewrite (Z.abs_eq T) by lia.
      destruct (Z.ltb_spec T 0); [lia|reflexivity]. }
  split; [exact Edur|].
  intros Hh' Hm' Hs' Hsign. rewrite Edur.
  assert (E1 : T / 86400 = days d) by (subst T; Z.div_mod_to_equations; lia).
  assert (E2 : (T mod 86400) / 3600 = hours d)
    by (subst T; Z.div_mod_to_equations; lia).
  assert (E3 : ((T mod 86400) mod 3600) / 60 = minutes d)
    by (subst T; Z.div_mod_to_equations; lia).
  assert (E4 : ((T mod 86400) mod 3600) mod 60 = seconds d)
    by (subst T; Z.div_mod_to_equations; lia).
  rewrite E1, E2, E3, E4.
  destruct d as [dd dh dm ds dsg]. cbn [days hours minutes seconds sign] in *.
  f_equal.
  destruct Hsign as [->|(-> & Hpos)]; [reflexivity|].
  destruct (Z.ltb_spec 0 T); [reflexivity|lia].
Qed.

Lemma duration_of_set_duration_witness :
  duration (set_duration (mkDuration 1 30 90 4000 (-1)))
  = mkDuration 2 8 36 40 (-1) /\
  (30 < 24 -> 90 < 60 -> 4000 < 60 ->
   -1 = 1 \/ (-1 = -1 /\ 0 < 1 * 86400 + 30 * 3600 + 90 * 60 + 4000) ->
   duration (set_duration (mkDuration 1 30 90 4000 (-1)))
   = mkDuration 1 30 90 4000 (-1)).
Proof.
  apply (duration_of_set_duration (mkDuration 1 30 90 4000 (-1)));
    cbn [days hours minutes seconds]; lia.
Defined.

(** X10.  The operators on two representable time values, sums and
    differences wrapping around: [(a - b) + b] and [(a + b) - b] are [a],
    and [a - b == 0] holds exactly when [a == b]; when the difference is
    representable, [cTime::set] of the duration of [a - b] is [a - b], and
    the durations of [a - b] and [b - a] have the same days, hours, minutes
    and seconds, the first with the sign -1 exactly when [a < b], the
    second exactly when [a > b]. *)
Theorem operator_minus_then_plus (a b : Z) :
  -9223372036854775808 <= a <= 9223372036854775807 ->
  -9223372036854775808 <= b <= 9223372036854775807 ->
  operator_plus (operator_minus a b) b = a /\
  operator_minus (operator_plus a b) b = a /\
  operator_eq (operator_minus a b) 0 = operator_eq a b /\
  (-9223372036854775808 < a - b < 9223372036854775808 ->
   let d := duration (operator_minus a b) in
   let d' := duration (operator_minus b a) in
   set_duration d = a - b /\
   days d' = days d /\ hours d' = hours d /\ minutes d' = minutes d /\
   seconds d' = seconds d /\
   sign d = (if operator_lt a b then -1 else 1) /\
   sign d' = (if operator_gt a b then -1 else 1)).
Proof.
  intros Ha Hb.
  unfold operator_plus, operator_minus, operator_eq, operator_lt, operator_gt,
    set_time.
  rewrite Z.gtb_ltb.
  split; [|split; [|split]].
  - rewrite to_int64_add_l. replace (a - b + b) with a by lia.
    apply to_int64_eq. lia.
  - rewrite to_int64_sub_l. replace (a + b - b) with a by lia.
    apply to_int64_eq. lia.
  - destruct (Z.eqb_spec a b) as [->|Hne].
    + rewrite Z.sub_diag. reflexivity.
    + apply Z.eqb_neq. intros E.
      pose proof (wrap_diff 64 (a - b) ltac:(lia)) as Hk.
      fold (Int.to_int64 (a - b)) in Hk. rewrite E in Hk.
      change (2 ^ 64) with 18446744073709551616 in Hk.
      Z.div_mod_to_equations. lia.
  - intros Hab. cbv zeta.
    rewrite (to_int64_eq (a - b)), (to_int64_eq (b - a)) by lia.
    rewrite !duration_decomposition by lia.
    cbn [days hours minutes seconds sign].
    replace (Z.abs (b - a)) with (Z.abs (a - b)) by lia.
    split.
    { unfold set_duration, set_time. cbn [days hours minutes seconds sign].
      rewrite (recompose (Z.abs (a - b))).
      rewrite (to_uint64_eq (Z.abs (a - b))), (to_int64_eq (Z.abs (a - b))) by lia.
      destruct (Z.ltb_spec (a - b) 0).
      - cbn [Z.ltb Z.compare]. rewrite to_int64_eq by lia. lia.
      - cbn [Z.ltb Z.compare]. lia. }
    repeat split.
    + destruct (Z.ltb_spec (a - b) 0); destruct (Z.ltb_spec a b); lia.
    + destruct (Z.ltb_spec (b - a) 0); destruct (Z.ltb_spec b a); lia.
Qed.

Lemma operator_minus_then_plus_witness :
  operator_plus (operator_minus 1703440800 1695230258) 1695230258 = 1703440800 /\
  operator_minus (operator_plus 1703440800 1695230258) 1695230258 = 1703440800 /\
  operator_eq (operator_minus 1703440800 1695230258) 0
    = operator_eq 1703440800 1695230258 /\
  (-9223372036854775808 < 1703440800 - 1695230258 < 9223372036854775808 ->
   let d := duration (operator_minus 1703440800 1695230258) in
   let d' := duration (operator_minus 1695230258 1703440800) in
   set_duration d = 1703440800 - 1695230258 /\
   days d' = days d /\ hours d' = hours d /\ minutes d' = minutes d /\
   seconds d' = seconds d /\
   sign d = (if operator_lt 1703440800 1695230258 then -1 else 1) /\
   sign d' = (if operator_gt 1703440800 1695230258 then -1 else 1)).
Proof.
  apply (operator_minus_then_plus 1703440800 1695230258); lia.
Defined.

(** ** The native converter *)

Lemma to_uint8_range x : 0 <= Int.to_uint8 x <= 255.
Proof.
  unfold Int.to_uint8, Int.uwrap. change (2 ^ 8) with 256.
  pose proof (Z.mod_pos_bound x 256 ltac:(lia)). lia.
Qed.

Lemma calendar_labels (P : Platform) (t : Z) (request : zoneRequest) :
  let c := calendar P t request in
  let local := calendar P t None in
  1 <= dayInWeek c <= 255 /\
  match request with
  | None =>
      timeZone c = localTimeZone P /\
      dst c = Int.to_int8 (tm_isdst (localtime_s P t))
  | Some z =>
      dst c = -1 /\
      timeZone c
      = if z =? -128
        then (if tm_isdst (localtime_s P t) >? 0
              then Int.to_int8 (timeZone local + 1) else timeZone local)
        else z
  end.
Proof.
  cbv zeta.
  unfold calendar. destruct request as [z|]; cbv zeta.
  - change (Int.to_int8 128) with (-128).
    cbn [year month day hour minute second dst timeZone dayInWeek
         set_year set_month set_day set_hour set_minute set_second set_dst
         set_timeZone set_dayInWeek set_dayInYear stCalendar_Ini tm_isdst tm_wday].
    split.
    + match goal with
      | |- context [Int.to_uint8 ?w =? 0] =>
          pose proof (to_uint8_range w);
          destruct (Z.eqb_spec (Int.to_uint8 w) 0)
      end; cbn [dayInWeek set_dayInWeek set_dayInYear]; lia.
    + match goal with
      | |- context [Int.to_uint8 ?w =? 0] => destruct (Int.to_uint8 w =? 0)
      end; cbn [dst timeZone set_dayInWeek set_dayInYear];
      (split; [reflexivity|]);
      match goal with
      | |- context [Int.to_uint8 ?w =? 0] => destruct (Int.to_uint8 w =? 0)
      end; cbn [dst timeZone set_dayInWeek set_dayInYear]; reflexivity.
  - cbn [year month day hour minute second dst timeZone dayInWeek
         set_year set_month set_day set_hour set_minute set_second set_dst
         set_timeZone set_dayInWeek set_dayInYear stCalendar_Ini tm_isdst tm_wday].
    match goal with
    | |- context [Int.to_uint8 ?w =? 0] =>
        pose proof (to_uint8_range w);
        destruct (Z.eqb_spec (Int.to_uint8 w) 0)
    end; cbn [dst timeZone dayInWeek set_dayInWeek set_dayInYear];
    (split; [lia|split; reflexivity]).
Qed.

(** X12.  The zone labels of [calendar]: without a request the calendar
    carries the local zone and the DST flag of the host; for
    [cTime::asUTC] (the value -128) it carries the UTC deviation of that
    default calendar and dst -1; for any other requested zone it carries
    that zone and dst -1; dayInWeek is never 0. *)
Theorem calendar_requested_zone (P : Platform) (t : Z) :
  -128 <= tm_isdst (localtime_s P t) <= 127 ->
  (timeZone (calendar P t None) = localTimeZone P /\
   dst (calendar P t None) = tm_isdst (localtime_s P t)) /\
  (timeZone (calendar P t (Some (-128))) = UTCdeviation (calendar P t None) /\
   dst (calendar P t (Some (-128))) = -1) /\
  (forall z, z <> -128 ->
     timeZone (calendar P t (Some z)) = z /\ dst (calendar P t (Some z)) = -1) /\
  (forall request, 1 <= dayInWeek (calendar P t request) <= 255).
Proof.
  intros Hdst.
  pose proof (calendar_labels P t None) as HN. cbv zeta in HN.
  destruct HN as (_ & EzN & EdN).
  rewrite (to_int8_eq _ Hdst) in EdN.
  split; [split; assumption|]. split; [|split].
  - pose proof (calendar_labels P t (Some (-128))) as HA. cbv zeta in HA.
    destruct HA as (_ & Ed & Ez). change (-128 =? -128) with true in Ez.
    cbv iota in Ez. split; [|exact Ed].
    rewrite Ez. unfold UTCdeviation. cbv zeta. rewrite EdN. reflexivity.
  - intros z Hz.
    pose proof (calendar_labels P t (Some z)) as HZ. cbv zeta in HZ.
    destruct HZ as (_ & Ed & Ez).
    destruct (Z.eqb_spec z (-128)); [contradiction|]. split; assumption.
  - intros request. apply (calendar_labels P t request).
Qed.

Lemma calendar_requested_zone_witness :
  (timeZone (calendar east_host 0 None) = localTimeZone east_host /\
   dst (calendar east_host 0 None) = tm_isdst (localtime_s east_host 0)) /\
  (timeZone (calendar east_host 0 (Some (-128)))
   = UTCdeviation (calendar east_host 0 None) /\
   dst (calendar east_host 0 (Some (-128))) = -1) /\
  (forall z, z <> -128 ->
     timeZone (calendar east_host 0 (Some z)) = z /\
     dst (calendar east_host 0 (Some z)) = -1) /\
  (forall request, 1 <= dayInWeek (calendar east_host 0 request) <= 255).
Proof.
  apply (calendar_requested_zone east_host 0).
  cbn [localtime_s east_host tm_isdst]. lia.
Defined.

(** X11.  [cTime::set(stCalendar)] after [calendar()] is not the identity: on
    a host whose [mktime] maps the local break-down of [t] back to [t], the
    time value set from the calendar of [t] is [t] plus twice the local
    zone plus the DST hour, in hours; the zone of the calendar is added to
    the offset of the host, not subtracted from it. *)
Theorem set_calendar_of_calendar (P : Platform) (t : Z) (lt' : tm) :
  let lt := localtime_s P t in
  0 <= tm_sec lt <= 255 -> 0 <= tm_min lt <= 255 -> 0 <= tm_hour lt <= 255 ->
  0 <= tm_mday lt <= 255 -> 0 <= tm_mon lt <= 254 ->
  -2147483648 <= tm_year lt <= 2147483647 - 1900 ->
  -128 <= tm_isdst lt <= 127 ->
  -9223372036854775808 <= t <= 9223372036854775807 ->
  mktime P (mkTm (tm_sec lt) (tm_min lt) (tm_hour lt) (tm_mday lt) (tm_mon lt)
                 (tm_year lt) 0 0 (tm_isdst lt)) = (lt', t) ->
  set_calendar P (calendar P t None)
  = Int.to_int64
      (t + (2 * localTimeZone P + (if tm_isdst lt' =? 0 then 0 else 1)) * 3600).
Proof.
  intros lt Hsec Hmin Hhour Hmday Hmon Hyear Hdst Ht Hmk.
  unfold set_calendar, calendar. fold lt. cbv zeta.
  cbn [year month day hour minute second dst timeZone
       set_year set_month set_day set_hour set_minute set_second set_dst
       set_timeZone set_dayInWeek set_dayInYear stCalendar_Ini].
  assert (Hfields : forall w : stCalendar,
    year w = Int.to_int32 (tm_year lt + 1900) ->
    month w = Int.to_uint8 (tm_mon lt + 1) ->
    day w = Int.to_uint8 (tm_mday lt) -> hour w = Int.to_uint8 (tm_hour lt) ->
    minute w = Int.to_uint8 (tm_min lt) -> second w = Int.to_uint8 (tm_sec lt) ->
    dst w = Int.to_int8 (tm_isdst lt) -> timeZone w = localTimeZone P ->
    (let '(tmCalendar, timeValue) :=
       mktime P
         (mkTm (Int.to_int32 (second w)) (Int.to_int32 (minute w))
               (Int.to_int32 (hour w)) (Int.to_int32 (day w))
               (Int.to_int32 (month w - 1)) (Int.to_int32 (year w - 1900))
               (tm_wday tm_Ini) (tm_yday tm_Ini) (dst w)) in
     set_time
       (Int.to_int64
          (timeValue
           + Int.to_int32
               (Int.to_int32
                  (localTimeZone P
                   + (if negb (tm_isdst tmCalendar =? 0) then 1 else 0)
                   + timeZone w) * LibCpp_SECONDSPERHOUR))))
    = Int.to_int64
        (t + (2 * localTimeZone P + (if tm_isdst lt' =? 0 then 0 else 1)) * 3600)).
  { intros w -> -> -> -> -> -> -> ->.
    rewrite (to_uint8_eq (tm_sec lt)), (to_uint8_eq (tm_min lt)),
      (to_uint8_eq (tm_hour lt)), (to_uint8_eq (tm_mday lt)),
      (to_uint8_eq (tm_mon lt + 1)), (to_int32_eq (tm_year lt + 1900)),
      (to_int8_eq (tm_isdst lt)) by lia.
    rewrite (to_int32_eq (tm_sec lt)), (to_int32_eq (tm_min lt)),
      (to_int32_eq (tm_hour lt)), (to_int32_eq (tm_mday lt)) by lia.
    replace (tm_mon lt + 1 - 1) with (tm_mon lt) by lia.
    replace (tm_year lt + 1900 - 1900) with (tm_year lt) by lia.
    rewrite (to_int32_eq (tm_mon lt)), (to_int32_eq (tm_year lt)) by lia.
    change (tm_wday tm_Ini) with 0. change (tm_yday tm_Ini) with 0.
    rewrite Hmk. unfold set_time, LibCpp_SECONDSPERHOUR.
    pose proof (localTimeZone_range P) as Hz.
    destruct (tm_isdst lt' =? 0); cbn [negb];
      rewrite (to_int32_eq (localTimeZone P + _ + localTimeZone P)) by lia;
      rewrite to_int32_eq by lia; f_equal; lia. }
  match goal with
  | |- context [if ?b then set_dayInWeek 7 _ else _] => destruct b
  end; apply Hfields; reflexivity.
Qed.

Lemma set_calendar_of_calendar_witness :
  set_calendar east_host (calendar east_host 0 None) = 7200.
Proof.
  apply (set_calendar_of_calendar east_host 0 (mkTm 0 0 1 1 0 70 0 0 0));
    cbn [localtime_s east_host tm_sec tm_min tm_hour tm_mday tm_mon tm_year
         tm_isdst]; try lia; reflexivity.
Defined.

(** ** Decimal text *)

Lemma append_assoc (a b c : string) : ((a ++ b) ++ c = a ++ (b ++ c))%string.
Proof. induction a as [|x a IH]; cbn; [reflexivity|now rewrite IH]. Qed.

Lemma append_length (a b : string) :
  String.length (a ++ b) = (String.length a + String.length b)%nat.
Proof. induction a as [|x a IH]; cbn; [reflexivity|now rewrite IH]. Qed.

Lemma scan_digits_stop s acc seen :
  no_digit_ahead s -> Text.scan_digits s acc seen = (acc, seen, s).
Proof. destruct s as [|c s]; cbn; [reflexivity|]. now intros ->. Qed.

Lemma scan_digits_uint d s acc seen :
  no_digit_ahead s ->
  Text.scan_digits (NilEmpty.string_of_uint d ++ s) acc seen
  = (uint_value d acc,
     match d with Decimal.Nil => seen | _ => true end, s).
Proof.
  intros Hs. revert acc seen.
  induction d as [|d IH|d IH|d IH|d IH|d IH|d IH|d IH|d IH|d IH|d IH];
    intros acc seen;
    [ cbn [NilEmpty.string_of_uint append uint_value];
      now apply scan_digits_stop | .. ];
    cbn [NilEmpty.string_of_uint append uint_value Text.scan_digits];
    match goal with
    | |- context [Text.isdigit ?c] =>
        change (Text.isdigit c) with true; cbv iota;
        let v := eval vm_compute in (Text.code c - 48) in
        change (Text.code c - 48) with v
    end;
    rewrite IH; destruct d; reflexivity.
Qed.

Lemma of_uint_acc_value d p :
  Z.pos (Pos.of_uint_acc d p) = uint_value d (Z.pos p).
Proof.
  revert p.
  induction d as [|d IH|d IH|d IH|d IH|d IH|d IH|d IH|d IH|d IH|d IH];
    intros p; cbn [Pos.of_uint_acc uint_value]; [reflexivity| ..];
    rewrite IH; f_equal; lia.
Qed.

Lemma of_uint_value d : Z.of_N (Pos.of_uint d) = uint_value d 0.
Proof.
  induction d as [|d IH|d IH|d IH|d IH|d IH|d IH|d IH|d IH|d IH|d IH];
    cbn [Pos.of_uint uint_value]; [reflexivity|exact IH| ..];
    cbn [Z.of_N]; rewrite of_uint_acc_value; reflexivity.
Qed.

Lemma to_uint_nonnil (n : N) : N.to_uint n <> Decimal.Nil.
Proof.
  destruct n as [|p]; [discriminate|]. apply Unsigned.to_uint_nonnil.
Qed.

Lemma decimal_uint n :
  Text.decimal n = NilEmpty.string_of_uint (N.to_uint (Z.to_N n)).
Proof.
  unfold Text.decimal, NilZero.string_of_uint.
  pose proof (to_uint_nonnil (Z.to_N n)).
  destruct (N.to_uint (Z.to_N n)); congruence.
Qed.

Lemma decimal_value n : 0 <= n -> uint_value (N.to_uint (Z.to_N n)) 0 = n.
Proof.
  intros Hn. rewrite <- of_uint_value.
  change (Pos.of_uint (N.to_uint (Z.to_N n))) with (N.of_uint (N.to_uint (Z.to_N n))).
  rewrite DecimalN.Unsigned.of_to. lia.
Qed.

Lemma scan_digits_decimal n s seen :
  0 <= n -> no_digit_ahead s ->
  Text.scan_digits (Text.decimal n ++ s) 0 seen = (n, true, s).
Proof.
  intros Hn Hs. rewrite decimal_uint, scan_digits_uint by assumption.
  rewrite decimal_value by assumption.
  pose proof (to_uint_nonnil (Z.to_N n)).
  destruct (N.to_uint (Z.to_N n)); congruence.
Qed.

Lemma scan_digits_zeros k s seen :
  Text.scan_digits (Text.zeros k ++ s) 0 seen
  = Text.scan_digits s 0 (match k with O => seen | _ => true end).
Proof.
  revert seen. induction k as [|k IH]; intros seen; [reflexivity|].
  cbn [Text.zeros append Text.scan_digits].
  change (Text.isdigit "0") with true. cbv iota.
  change (0 * 10 + (Text.code "0" - 48)) with 0.
  rewrite IH. destruct k; reflexivity.
Qed.

(** The length of the decimal text. *)
Lemma uint_value_lower d acc :
  0 <= acc -> acc * 10 ^ Z.of_nat (Decimal.nb_digits d) <= uint_value d acc.
Proof.
  revert acc.
  induction d as [|d IH|d IH|d IH|d IH|d IH|d IH|d IH|d IH|d IH|d IH];
    intros acc Hacc; cbn [Decimal.nb_digits uint_value];
    [ cbn; lia | .. ];
    rewrite Nat2Z.inj_succ, Z.pow_succ_r by lia;
    (etransitivity; [|apply IH; lia]);
    pose proof (Z.pow_pos_nonneg 10 (Z.of_nat (Decimal.nb_digits d)) ltac:(lia) ltac:(lia));
    nia.
Qed.

Lemma string_of_uint_length d :
  String.length (NilEmpty.string_of_uint d) = Decimal.nb_digits d.
Proof. induction d; cbn; congruence. Qed.

Lemma decimal_length n k :
  0 <= n < 10 ^ Z.of_nat (S k) ->
  (1 <= String.length (Text.decimal n) <= S k)%nat.
Proof.
  intros Hn. rewrite decimal_uint, string_of_uint_length.
  pose proof (decimal_value n ltac:(lia)) as Hv.
  pose proof (DecimalN.Unsigned.to_of (N.to_uint (Z.to_N n))) as Hnorm.
  rewrite DecimalN.Unsigned.of_to in Hnorm.
  pose proof (to_uint_nonnil (Z.to_N n)) as Hnil.
  set (d := N.to_uint (Z.to_N n)) in *.
  split; [destruct d; cbn; try lia; congruence|].
  unfold Decimal.unorm in Hnorm.
  pose proof (nzhead_nonzero d) as Hhead.
  destruct (Decimal.nzhead d) as [|d'|d'|d'|d'|d'|d'|d'|d'|d'|d'] eqn:E;
    [ rewrite Hnorm; cbn; lia | exfalso; now apply (Hhead d') | .. ];
    rewrite Hnorm in Hv |- *; cbn [uint_value] in Hv;
    cbn [Decimal.nb_digits];
    match type of Hv with
    | uint_value ?r ?a = _ => pose proof (uint_value_lower r a ltac:(lia)) as Hl
    end;
    rewrite Hv in Hl;
    apply le_n_S; apply Nat2Z.inj_le;
    destruct (Z.le_gt_cases (Z.of_nat (Decimal.nb_digits d')) (Z.of_nat k)) as [|Hgt];
    try assumption; exfalso;
    pose proof (Z.pow_le_mono_r 10 (Z.of_nat (S k)) (Z.of_nat (Decimal.nb_digits d'))
                  ltac:(lia) ltac:(lia));
    lia.
Qed.

(** ** [%d] reads back what [%d] and [%0wd] print *)

Lemma decimal_head n s :
  exists c rest, (Text.decimal n ++ s)%string = String c rest /\ Text.isdigit c = true.
Proof.
  rewrite decimal_uint.
  pose proof (to_uint_nonnil (Z.to_N n)) as Hnil.
  destruct (N.to_uint (Z.to_N n)); try congruence;
    cbn [NilEmpty.string_of_uint append]; eexists; eexists; (split; [reflexivity|]);
    reflexivity.
Qed.

Lemma digits_head k n s :
  exists c rest,
    (Text.zeros k ++ Text.decimal n ++ s)%string = String c rest /\
    Text.isdigit c = true.
Proof.
  destruct k as [|k]; [apply decimal_head|].
  cbn [Text.zeros append]. eexists; eexists. split; reflexivity.
Qed.

Lemma scan_int_digit c rest :
  Text.isdigit c = true ->
  Text.scan_int (String c rest)
  = match Text.scan_digits (String c rest) 0 false with
    | (n, true, r) => Some (Int.to_int32 n, r)
    | (_, false, _) => None
    end.
Proof.
  destruct c as [[] [] [] [] [] [] [] []]; intros H; try discriminate H;
    reflexivity.
Qed.

Lemma scan_int_print_int w n s :
  -2147483648 <= n <= 2147483647 -> no_digit_ahead s ->
  Text.scan_int (Text.print_int w n ++ s) = Some (n, s).
Proof.
  intros Hn Hs. unfold Text.print_int.
  set (k := (w - _)%nat). clearbody k.
  destruct (Z.ltb_spec n 0) as [Hneg|Hpos].
  - rewrite !append_assoc. cbn [append].
    unfold Text.scan_int.
    change (Text.skip_space (String "-" ?r)) with (String "-" r).
    cbv beta iota zeta.
    rewrite scan_digits_zeros, scan_digits_decimal by (assumption || lia).
    rewrite to_int32_eq by lia. f_equal. f_equal. lia.
  - rewrite !append_assoc. cbn [append].
    destruct (digits_head k (Z.abs n) s) as (c & rest & E & Hc).
    rewrite E, (scan_int_digit c rest Hc), <- E.
    rewrite scan_digits_zeros, scan_digits_decimal by (assumption || lia).
    rewrite to_int32_eq by lia. f_equal. f_equal. lia.
Qed.

Lemma print_int_length w n k :
  0 <= n < 10 ^ Z.of_nat (S k) ->
  (String.length (Text.print_int w n) <= Nat.max w (S k))%nat.
Proof.
  intros Hn. unfold Text.print_int.
  destruct (Z.ltb_spec n 0) as [|_]; [lia|].
  rewrite Z.abs_eq by lia.
  pose proof (decimal_length n k Hn) as Hl.
  cbn [String.length append Nat.add].
  rewrite append_length.
  assert (Hz : forall j, String.length (Text.zeros j) = j)
    by (induction j; cbn; congruence).
  rewrite Hz. lia.
Qed.

Lemma print_int_length_signed w n k :
  - 10 ^ Z.of_nat (S k) < n < 10 ^ Z.of_nat (S k) ->
  (String.length (Text.print_int w n) <= Nat.max w (S (S k)))%nat.
Proof.
  intros Hn. unfold Text.print_int.
  pose proof (decimal_length (Z.abs n) k ltac:(lia)) as Hl.
  assert (Hz : forall j, String.length (Text.zeros j) = j)
    by (induction j; cbn; congruence).
  destruct (Z.ltb_spec n 0) as [|_];
    cbn [String.length append Nat.add]; rewrite append_length, Hz; lia.
Qed.

(** The text of a duration and what [sscanf_s] stores from it. *)
Lemma duration_text a b c d :
  -2147483648 <= a <= 2147483647 ->
  0 <= b <= 99999 -> 0 <= c <= 99999 -> 0 <= d <= 99999 ->
  exists text,
    Text.sprintf_s 32 "D%d#%02d:%02d:%02d" [a; b; c; d] = Ok text /\
    Text.first_char text = "D"%char /\
    Text.sscanf_s text "D%d#%d:%d:%d" = [a; b; c; d].
Proof.
  intros Ha Hb Hc Hd. unfold Text.sprintf_s.
  let f := eval vm_compute in (Text.print_format "D%d#%02d:%02d:%02d") in
  change (Text.print_format "D%d#%02d:%02d:%02d") with f.
  cbn [Text.sprintf_run].
  set (text := String "D" _).
  assert (Hlen : (String.length text < 32)%nat).
  { subst text. repeat (rewrite ?append_length; cbn [String.length]).
    pose proof (print_int_length_signed 0 a 9 ltac:(cbn; lia)).
    pose proof (print_int_length 2 b 4 ltac:(cbn; lia)).
    pose proof (print_int_length 2 c 4 ltac:(cbn; lia)).
    pose proof (print_int_length 2 d 4 ltac:(cbn; lia)).
    lia. }
  apply Nat.ltb_lt in Hlen. rewrite Hlen.
  exists text. split; [reflexivity|]. split; [reflexivity|].
  subst text. unfold Text.sscanf_s.
  let f := eval vm_compute in (Text.scan_format "D%d#%d:%d:%d") in
  change (Text.scan_format "D%d#%d:%d:%d") with f.
  cbn [Text.sscanf_run].
  change (Text.isspace "D") with false. cbv iota.
  change (Ascii.eqb "D" "D") with true. cbv iota.
  rewrite scan_int_print_int by (lia || reflexivity).
  cbn [Text.sscanf_run].
  change (Text.isspace "#") with false. cbv iota.
  change (Ascii.eqb "#" "#") with true. cbv iota.
  rewrite scan_int_print_int by (lia || reflexivity).
  cbn [Text.sscanf_run].
  change (Text.isspace ":") with false. cbv iota.
  change (Ascii.eqb ":" ":") with true. cbv iota.
  rewrite scan_int_print_int by (lia || reflexivity).
  cbn [Text.sscanf_run].
  change (Text.isspace ":") with false. cbv iota.
  change (Ascii.eqb ":" ":") with true. cbv iota.
  rewrite scan_int_print_int by (lia || exact I).
  reflexivity.
Qed.

Lemma fromDurationString_toString (d : stDuration) :
  0 <= days d <= 2147483647 ->
  0 <= hours d <= 99999 -> 0 <= minutes d <= 99999 -> 0 <= seconds d <= 99999 ->
  exists text,
    toString_duration d = Ok text /\
    fromDurationString text
    = mkDuration (days d) (hours d) (minutes d) (seconds d)
                 (if (sign d <? 0) && (0 <? days d) then -1 else 1).
Proof.
  intros Hd Hh Hm Hs. unfold toString_duration.
  rewrite (to_int32_eq (days d)), (to_int32_eq (hours d)),
    (to_int32_eq (minutes d)), (to_int32_eq (seconds d)) by lia.
  set (a := if sign d <? 0 then Int.to_int32 (- days d) else days d).
  assert (Ha : a = if sign d <? 0 then - days d else days d).
  { subst a. destruct (sign d <? 0); [apply to_int32_eq; lia|reflexivity]. }
  destruct (duration_text a (hours d) (minutes d) (seconds d))
    as (text & Etext & Hfirst & Hscan); try lia.
  { rewrite Ha. destruct (sign d <? 0); lia. }
  exists text. split; [exact Etext|].
  unfold fromDurationString. rewrite Hfirst, Hscan.
  change (negb (Ascii.eqb "D" "D")) with false. cbv iota.
  unfold Text.stored. cbn [nth]. cbv zeta.
  rewrite Ha.
  destruct (Z.ltb_spec (sign d) 0) as [Hneg|Hpos]; cbn [andb].
  - destruct (Z.ltb_spec 0 (days d)) as [Hday|Hday].
    + destruct (Z.ltb_spec (- days d) 0) as [_|]; [|lia].
      rewrite Z.opp_involutive, (to_int32_eq (days d)) by lia.
      rewrite !to_uint64_eq by lia. reflexivity.
    + destruct (Z.ltb_spec (- days d) 0) as [|_]; [lia|].
      assert (E0 : days d = 0) by lia. rewrite E0. cbn [Z.opp].
      rewrite !to_uint64_eq by lia. reflexivity.
  - destruct (Z.ltb_spec (days d) 0) as [|_]; [lia|].
    rewrite !to_uint64_eq by lia. reflexivity.
Qed.

(** X13.  A duration written by [toString(stDuration)] is read back by
    [fromDurationString]: for days up to 2^31 - 1 and hours, minutes and
    seconds up to 99999 the text fits the buffer, and the days, hours,
    minutes and seconds read are the ones written; the sign comes back as
    -1 only if it was negative and the days are not zero, so a negative
    duration of less than a day comes back positive. *)
Theorem duration_string_round_trip (d : stDuration) :
  0 <= days d <= 2147483647 ->
  0 <= hours d <= 99999 -> 0 <= minutes d <= 99999 -> 0 <= seconds d <= 99999 ->
  exists text,
    toString_duration d = Ok text /\
    fromDurationString text
    = mkDuration (days d) (hours d) (minutes d) (seconds d)
                 (if (sign d <? 0) && (0 <? days d) then -1 else 1).
Proof. apply fromDurationString_toString. Qed.

Lemma duration_string_round_trip_witness :
  exists text,
    toString_duration (mkDuration 95 0 42 22 (-1)) = Ok text /\
    fromDurationString text = mkDuration 95 0 42 22 (-1).
Proof.
  apply (duration_string_round_trip (mkDuration 95 0 42 22 (-1)));
    cbn [days hours minutes seconds]; lia.
Defined.

(** X14.  [cTime::set(std::string)] after [toDurationString]: for a time
    value of a magnitude below 2^31 days the text is produced, and setting
    a time from it gives the value back, except for the negative values of
    less than a day, which come back as their absolute value. *)
Theorem toDurationString_set_string (P : Platform) (e : Z) :
  - (2147483648 * 86400) < e < 2147483648 * 86400 ->
  exists text,
    toDurationString e = Ok text /\
    set_string P text = Ok (if Z.abs e <? 86400 then Z.abs e else e).
Proof.
  intros He. unfold toDurationString.
  rewrite (duration_decomposition e) by lia.
  set (v := Z.abs e).
  assert (Hv : 0 <= v < 2147483648 * 86400) by (subst v; lia).
  set (d := mkDuration _ _ _ _ _).
  destruct (fromDurationString_toString d) as (text & Etext & Eback);
    try (subst d; cbn [days hours minutes seconds];
         Z.div_mod_to_equations; lia).
  exists text. split; [exact Etext|].
  unfold set_string.
  assert (Hfirst : Text.first_char text = "D"%char).
  { unfold toString_duration, Text.sprintf_s in Etext.
    destruct (Nat.ltb _ 32); [|discriminate].
    injection Etext as <-. reflexivity. }
  rewrite Hfirst. change (Ascii.eqb "D" "D") with true. cbv iota.
  rewrite Eback. subst d. cbn [days hours minutes seconds sign].
  unfold set_duration, set_time. cbn [days hours minutes seconds sign].
  rewrite (recompose v).
  rewrite (to_uint64_eq v), (to_int64_eq v) by lia.
  f_equal.
  assert (Hdays : (0 <? v / 86400) = negb (v <? 86400)).
  { destruct (Z.ltb_spec v 86400) as [Hs|Hs]; cbn [negb].
    - rewrite Z.div_small by lia. reflexivity.
    - apply Z.ltb_lt. Z.div_mod_to_equations. lia. }
  rewrite Hdays.
  destruct (Z.ltb_spec e 0) as [Hneg|Hpos];
    destruct (Z.ltb_spec v 86400) as [Hs|Hs];
    cbn [andb negb Z.ltb Z.compare]; rewrite ?to_int64_eq by lia;
    subst v; lia.
Qed.

Lemma toDurationString_set_string_witness :
  exists text,
    toDurationString (-8210542) = Ok text /\
    set_string idle_host text
    = Ok (if Z.abs (-8210542) <? 86400 then Z.abs (-8210542) else -8210542).
Proof.
  apply (toDurationString_set_string idle_host (-8210542)). lia.
Defined.

(** ** The calendar text *)













(** ** Texts that are too short *)

Lemma get_some s i : (i < String.length s)%nat -> exists c, String.get i s = Some c.
Proof.
  revert i. induction s as [|a s IH]; intros i Hi; cbn in Hi; [lia|].
  destruct i as [|i]; cbn; [eauto|]. apply IH. lia.
Qed.

Lemma get_none s i : (String.length s <= i)%nat -> String.get i s = None.
Proof.
  revert i. induction s as [|a s IH]; intros i Hi; cbn in Hi.
  - destruct i; reflexivity.
  - destruct i as [|i]; [lia|]. cbn. apply IH. lia.
Qed.

Lemma char_at_inside s i :
  (i <= String.length s)%nat -> exists c, Text.char_at s i = Ok c.
Proof.
  intros Hi. unfold Text.char_at.
  destruct (Nat.eq_dec i (String.length s)) as [E|E].
  - rewrite get_none by lia. apply Nat.eqb_eq in E. rewrite E. eauto.
  - destruct (get_some s i ltac:(lia)) as (c & ->). eauto.
Qed.

Lemma char_at_outside s i :
  (String.length s < i)%nat -> Text.char_at s i = Fault OutOfBounds.
Proof.
  intros Hi. unfold Text.char_at. rewrite get_none by lia.
  destruct (Nat.eqb_spec i (String.length s)); [lia|reflexivity].
Qed.

(** X16.  [fromString] reads the characters 20, 21 and 22 of its argument
    whatever the length: for a text that does not start with the letter D
    it returns a calendar if the text has at least 22 characters, and reads
    beyond the end of the text if it is shorter. *)
Theorem fromString_text_length (dateString : string) :
  Ascii.eqb (Text.first_char dateString) "D" = false ->
  ((String.length dateString < 22)%nat ->
   fromString dateString = Fault OutOfBounds) /\
  ((22 <= String.length dateString)%nat ->
   exists c, fromString dateString = Ok c).
Proof.
  intros Hfirst. unfold fromString. rewrite Hfirst. cbv zeta. split.
  - intros Hlen.
    destruct (Nat.le_gt_cases 20 (String.length dateString)) as [H20|H20];
      [|rewrite (char_at_outside dateString 20) by lia; reflexivity].
    destruct (char_at_inside dateString 20 H20) as (c20 & ->). cbn [bind].
    destruct (Nat.le_gt_cases 21 (String.length dateString)) as [H21|H21];
      [|rewrite (char_at_outside dateString 21) by lia; reflexivity].
    destruct (char_at_inside dateString 21 H21) as (c21 & ->). cbn [bind].
    rewrite (char_at_outside dateString 22) by lia. reflexivity.
  - intros Hlen.
    destruct (char_at_inside dateString 20 ltac:(lia)) as (c20 & ->).
    destruct (char_at_inside dateString 21 ltac:(lia)) as (c21 & ->).
    destruct (char_at_inside dateString 22 ltac:(lia)) as (c22 & ->).
    cbn [bind]. eexists. reflexivity.
Qed.

Lemma fromString_text_length_witness :
  ((String.length "2023-09-20" < 22)%nat ->
   fromString "2023-09-20" = Fault OutOfBounds) /\
  ((22 <= String.length "2023-09-20")%nat ->
   exists c, fromString "2023-09-20" = Ok c).
Proof.
  apply (fromString_text_length "2023-09-20"). reflexivity.
Defined.

(** ** LibCpp/Time/cTimeStd.cpp: calendars and [struct tm] *)

Lemma neqb_true a b : a <> b -> negb (a =? b) = true.
Proof. intros H. apply negb_true_iff, Z.eqb_neq, H. Qed.

Lemma weekday_back (w : Z) :
  1 <= w <= 255 ->
  (let dayInWeek := Int.to_uint8 (if w =? 7 then 0 else w) in
   if dayInWeek =? 0 then 7 else dayInWeek) = w.
Proof.
  intros Hw. cbv zeta. destruct (Z.eqb_spec w 7) as [E|E].
  - rewrite E. reflexivity.
  - rewrite to_uint8_eq by lia.
    destruct (Z.eqb_spec w 0); [lia|reflexivity].
Qed.

Lemma uwrap16_eq (x : Z) : 0 <= x <= 65535 -> Int.uwrap 16 x = x.
Proof.
  intros Hx. unfold Int.uwrap. change (2 ^ 16) with 65536.
  apply Z.mod_small. lia.
Qed.

(** X17.  [toCalendar] after [fromCalendar]: for a calendar whose fields are
    values of their types and none of the sentinels, [fromCalendar] stores
    the zone of the calendar through the pointer, and [toCalendar] of the
    structure and that zone returns year, month, day, hour, minute, second,
    dst, zone, dayInYear and dayInWeek unchanged; picoSeconds,
    calendarWeek, leapSecond and the padding come back as in
    [stCalendar_Invalid]. *)
Theorem toCalendar_fromCalendar (L : LibCppTime.LibOb)
    (c : LibCppTime.stCalendar) (zone : LibCppTime.stTimeZone) :
  plain L c ->
  let '(tmCalendar, pTimeZone) := fromCalendar L c (Some zone) in
  pTimeZone = Some (LibCppTime.timeZone c) /\
  LibCppTime.toCalendar L tmCalendar pTimeZone
  = LibCppTime.mkCalendar
      (LibCppTime.year c) (LibCppTime.month c) (LibCppTime.day c)
      (LibCppTime.hour c) (LibCppTime.minute c) (LibCppTime.second c)
      (LibCppTime.dst c) (LibCppTime.timeZone c)
      (LibCppTime.picoSeconds (LibCppTime.stCalendar_Invalid L))
      (LibCppTime.dayInYear c) (LibCppTime.dayInWeek c)
      (LibCppTime.calendarWeek (LibCppTime.stCalendar_Invalid L))
      (LibCppTime.leapSecond (LibCppTime.stCalendar_Invalid L))
      (LibCppTime.padding1 (LibCppTime.stCalendar_Invalid L))
      (LibCppTime.padding2 (LibCppTime.stCalendar_Invalid L)).
Proof.
  destruct c as [cy cmo cd ch cmi cs cdst cz cpico cyd cwd ccw cls cp1 cp2].
  unfold plain.
  cbn [LibCppTime.year LibCppTime.month LibCppTime.day LibCppTime.hour
       LibCppTime.minute LibCppTime.second LibCppTime.dst LibCppTime.timeZone
       LibCppTime.dayInWeek LibCppTime.dayInYear].
  intros ((Hy & Hy1 & Hy2 & Hy3) & (Hmo & Hmo1 & Hmo2) & (Hd & Hd1 & Hd2) &
          (Hh & Hh1 & Hh2) & (Hmi & Hmi1 & Hmi2) & (Hs & Hs1 & Hs2) &
          (Hdst & Hdst1 & Hdst2) & (Hw & Hw1 & Hw2 & Hw3) & (Hyd & Hyd1) & Hz).
  assert (E1 : Int.to_int32 (cy - 1900) = cy - 1900)
    by (apply to_int32_eq; clear - Hy; lia).
  assert (E2 : Int.to_int32 (cmo - 1) = cmo - 1)
    by (apply to_int32_eq; clear - Hmo; lia).
  assert (E3 : Int.to_int32 (cyd - 1) = cyd - 1)
    by (apply to_int32_eq; clear - Hyd; lia).
  assert (E4 : Int.to_int32 (cy - 1900 + 1900) = cy)
    by (replace (cy - 1900 + 1900) with cy by (clear; lia);
        apply to_int32_eq; clear - Hy; lia).
  assert (E5 : Int.to_uint8 (cmo - 1 + 1) = cmo)
    by (replace (cmo - 1 + 1) with cmo by (clear; lia);
        apply to_uint8_eq; clear - Hmo; lia).
  assert (E6 : Int.uwrap 16 (cyd - 1 + 1) = cyd)
    by (replace (cyd - 1 + 1) with cyd by (clear; lia);
        apply uwrap16_eq; clear - Hyd; lia).
  assert (E7 : Int.to_uint8 cd = cd) by (apply to_uint8_eq; clear - Hd; lia).
  assert (E8 : Int.to_uint8 ch = ch) by (apply to_uint8_eq; clear - Hh; lia).
  assert (E9 : Int.to_uint8 cmi = cmi) by (apply to_uint8_eq; clear - Hmi; lia).
  assert (E10 : Int.to_uint8 cs = cs) by (apply to_uint8_eq; clear - Hs; lia).
  assert (E11 : Int.to_int8 cdst = cdst)
    by (apply to_int8_eq; clear - Hdst; lia).
  pose proof (weekday_back cwd Hw) as E12. cbv zeta in E12.
  assert (Ew : (if cwd =? 7 then 0 else cwd) <> LibCppTime.INT_INVALID L)
    by (destruct (cwd =? 7); congruence).
  unfold fromCalendar. cbv zeta.
  cbn [LibCppTime.year LibCppTime.month LibCppTime.day LibCppTime.hour
       LibCppTime.minute LibCppTime.second LibCppTime.dst LibCppTime.timeZone
       LibCppTime.dayInWeek LibCppTime.dayInYear].
  rewrite (neqb_true _ _ Hy1), (neqb_true _ _ Hy2), (neqb_true _ _ Hmo1),
    (neqb_true _ _ Hd1), (neqb_true _ _ Hh1), (neqb_true _ _ Hmi1),
    (neqb_true _ _ Hs1), (neqb_true _ _ Hdst1), (neqb_true _ _ Hw1),
    (neqb_true _ _ Hyd1).
  cbv beta iota.
  split; [reflexivity|].
  rewrite E1, E2, E3.
  unfold LibCppTime.toCalendar. cbv zeta.
  cbn [tm_sec tm_min tm_hour tm_mday tm_mon tm_year tm_wday tm_yday tm_isdst
       LibCppTime.hours].
  rewrite (neqb_true _ _ Hy3), (neqb_true _ _ Hmo2), (neqb_true _ _ Hd2),
    (neqb_true _ _ Hh2), (neqb_true _ _ Hmi2), (neqb_true _ _ Hs2),
    (neqb_true _ _ Hdst2), (neqb_true _ _ Ew), (neqb_true _ _ Hz).
  rewrite E4, E5, E6, E7, E8, E9, E10, E11, E12.
  reflexivity.
Qed.

Lemma toCalendar_fromCalendar_witness :
  let c :=
    LibCppTime.mkCalendar 2023 9 20 17 17 38 1 (LibCppTime.mkTimeZone 1 0)
                          0 263 3 38 0 0 0 in
  let '(tmCalendar, pTimeZone) :=
    fromCalendar sample_LibOb c (Some (LibCppTime.mkTimeZone 0 0)) in
  pTimeZone = Some (LibCppTime.timeZone c) /\
  LibCppTime.toCalendar sample_LibOb tmCalendar pTimeZone
  = LibCppTime.mkCalendar
      (LibCppTime.year c) (LibCppTime.month c) (LibCppTime.day c)
      (LibCppTime.hour c) (LibCppTime.minute c) (LibCppTime.second c)
      (LibCppTime.dst c) (LibCppTime.timeZone c)
      (LibCppTime.picoSeconds (LibCppTime.stCalendar_Invalid sample_LibOb))
      (LibCppTime.dayInYear c) (LibCppTime.dayInWeek c)
      (LibCppTime.calendarWeek (LibCppTime.stCalendar_Invalid sample_LibOb))
      (LibCppTime.leapSecond (LibCppTime.stCalendar_Invalid sample_LibOb))
      (LibCppTime.padding1 (LibCppTime.stCalendar_Invalid sample_LibOb))
      (LibCppTime.padding2 (LibCppTime.stCalendar_Invalid sample_LibOb)).
Proof.
  cbv zeta.
  apply (toCalendar_fromCalendar sample_LibOb
           (LibCppTime.mkCalendar 2023 9 20 17 17 38 1 (LibCppTime.mkTimeZone 1 0)
                                  0 263 3 38 0 0 0)
           (LibCppTime.mkTimeZone 0 0)).
  unfold plain, sample_LibOb.
  cbn [LibCppTime.year LibCppTime.month LibCppTime.day LibCppTime.hour
       LibCppTime.minute LibCppTime.second LibCppTime.dst LibCppTime.timeZone
       LibCppTime.dayInWeek LibCppTime.dayInYear LibCppTime.hours
       LibCppTime.INT32_INVALID LibCppTime.UINT8_INVALID LibCppTime.INT8_INVALID
       LibCppTime.UINT16_INVALID LibCppTime.INT_INVALID].
  repeat split; lia.
Defined.
